(** * Agent coordination layer and hybrid safety planner

    A shallow embedding of
    - [skyvern/forge/sdk/schemas/agent_messages.py] (message envelope),
    - [skyvern/forge/sdk/core/agent_message_bus.py] (publish/subscribe bus),
    - [skyvern/forge/sdk/core/multi_agent_swarm.py] (agents, coordinator),
    - [skyvern/services/hybrid_planner.py] (predicates, affordances, guards,
      loop detection),
    followed by the properties of these programs.

    Python objects that are shared and mutated (the bus, an agent, the
    planner) are records passed explicitly from call to call.  Python [int]
    is [Z], [str] is [string], [float] is the binary64 type [float], a
    [dict] is a [gmap], [None]-able fields are [option]s. *)

From Stdlib Require Import ZArith Floats.
From stdpp Require Import gmap strings list fin_maps pretty.

Local Open Scope string_scope.
Local Open Scope list_scope.
Local Open Scope stdpp_scope.
Local Open Scope Z_scope.

(** ** Python values and results *)

(** The scalar values a field typed [Any] holds in the configurations and
    page snapshots considered here. *)
Inductive PyVal :=
| PyNone
| PyBool (b : bool)
| PyInt (n : Z)
| PyStr (s : string).

#[global] Instance PyVal_eq_dec : EqDecision PyVal.
Proof. solve_decision. Defined.

(** Truth value of an object in a condition: [None], [False], [0] and the
    empty string are false. *)
Definition truthy (v : PyVal) : bool :=
  match v with
  | PyNone => false
  | PyBool b => b
  | PyInt n => negb (n =? 0)
  | PyStr s => negb (String.eqb s "")
  end.

(** [type(v).__name__] *)
Definition type_name (v : PyVal) : string :=
  match v with
  | PyNone => "NoneType"
  | PyBool _ => "bool"
  | PyInt _ => "int"
  | PyStr _ => "str"
  end.

(** [if s:] on a field typed [str | None]. *)
Definition truthy_str (s : option string) : bool :=
  match s with
  | Some s => negb (String.eqb s "")
  | None => false
  end.

(** Exceptions: instances of subclasses of [Exception]. *)
Inductive PyExc :=
| TypeError (msg : string)
| ValidationError (model : string)
| OverflowError (msg : string)
| RecursionError (msg : string).

Inductive PyResult (A : Type) :=
| Ok (a : A)
| Raise (e : PyExc).
Arguments Ok {A} a.
Arguments Raise {A} e.

(** What a call can let through: an exception, or an instance of another
    subclass of [BaseException] ([KeyboardInterrupt], [SystemExit],
    [GeneratorExit]), which a handler [except Exception] does not catch. *)
Inductive PyRaised :=
| AnException (e : PyExc)
| NotAnException (class_name : string).

(** The outcome of a call: the value it returns, or what it raises. *)
Inductive Outcome (A : Type) :=
| Returns (a : A)
| Raises (r : PyRaised).
Arguments Returns {A} a.
Arguments Raises {A} r.

(** A [datetime].  It is aware of its offset from UTC or naive; [value] is
    the instant of an aware one and the wall-clock reading of a naive one,
    in microseconds.  An order comparison between an aware and a naive
    one raises [TypeError]. *)
Module datetime.

Record t := {
  value : Z;
  aware : bool;
}.

(** [datetime.now(timezone.utc)] at the instant [value] *)
Definition utc (value : Z) : t := {| value := value; aware := true |}.

Definition comparable (a b : t) : bool := Bool.eqb (aware a) (aware b).

(** [a < b] *)
Definition lt (a b : t) : PyResult bool :=
  if comparable a b then Ok (value a <? value b)
  else Raise (TypeError "can't compare offset-naive and offset-aware datetimes").

(** [a > b] *)
Definition gt (a b : t) : PyResult bool :=
  if comparable a b then Ok (value a >? value b)
  else Raise (TypeError "can't compare offset-naive and offset-aware datetimes").

End datetime.

(** [l[start:stop]] on a list, with Python's treatment of negative and
    out-of-range bounds ([None] is an omitted bound). *)
Definition slice_index (len : Z) (i : Z) : nat :=
  Z.to_nat (Z.min len (Z.max 0 (if i <? 0 then i + len else i))).

Definition py_slice {A} (l : list A) (start stop : option Z) : list A :=
  let len := Z.of_nat (length l) in
  let lo := match start with Some i => slice_index len i | None => 0%nat end in
  let hi := match stop with Some i => slice_index len i | None => length l end in
  take (hi - lo) (drop lo l).

(** [str.lower()] on ASCII letters; the strings compared below are ASCII
    words, and no other code point lower-cases to one of them. *)
Definition lower_ascii (c : Ascii.ascii) : Ascii.ascii :=
  let n := Ascii.nat_of_ascii c in
  if ((65 <=? n)%nat && (n <=? 90)%nat)%bool then Ascii.ascii_of_nat (n + 32) else c.

Fixpoint lower (s : string) : string :=
  match s with
  | EmptyString => EmptyString
  | String c r => String (lower_ascii c) (lower r)
  end.

(** ** Message envelope ([agent_messages.py]) *)

Inductive AgentRole := PLANNER | EXECUTOR | VALIDATOR | COORDINATOR.

Inductive MessageType :=
| THOUGHT | PLAN | ACTION_PROPOSAL | ACTION_APPROVAL | ACTION_REJECTION
| EXECUTION_RESULT | VALIDATION_REQUEST | VALIDATION_RESULT | CRITIQUE
| CONSENSUS_REQUEST | CONSENSUS_RESPONSE | ERROR | STATUS_UPDATE.

#[global] Instance AgentRole_eq_dec : EqDecision AgentRole.
Proof. solve_decision. Defined.
#[global] Instance MessageType_eq_dec : EqDecision MessageType.
Proof. solve_decision. Defined.

(** Both enumerations derive from [str]; a member hashes and compares as
    its value, which is the key under which the bus files subscribers. *)
Definition AgentRole_value (r : AgentRole) : string :=
  match r with
  | PLANNER => "planner" | EXECUTOR => "executor"
  | VALIDATOR => "validator" | COORDINATOR => "coordinator"
  end.

Definition MessageType_value (t : MessageType) : string :=
  match t with
  | THOUGHT => "thought" | PLAN => "plan"
  | ACTION_PROPOSAL => "action_proposal" | ACTION_APPROVAL => "action_approval"
  | ACTION_REJECTION => "action_rejection" | EXECUTION_RESULT => "execution_result"
  | VALIDATION_REQUEST => "validation_request" | VALIDATION_RESULT => "validation_result"
  | CRITIQUE => "critique" | CONSENSUS_REQUEST => "consensus_request"
  | CONSENSUS_RESPONSE => "consensus_response" | ERROR => "error"
  | STATUS_UPDATE => "status_update"
  end.

Module ActionProposalMessage.
Record t := {
  action_type : string;
  action_data : gmap string PyVal;
  rationale : string;
  risk_assessment : string;
  confidence : float;
  fallback_actions : list (gmap string PyVal);
}.
End ActionProposalMessage.

Module ActionApprovalMessage.
Record t := {
  approved : bool;
  approver_reasoning : string;
  modifications : gmap string PyVal;
  conditions : list string;
}.
End ActionApprovalMessage.

(** The payload [content : dict[str, Any]] of an envelope.  The payloads
    that the validator reads and writes are kept by the model they were
    dumped from ([model_dump()]); any other dictionary is [OtherContent]. *)
Inductive Content :=
| ProposalContent (p : ActionProposalMessage.t)
| ApprovalContent (a : ActionApprovalMessage.t)
| OtherContent (fields : gmap string PyVal).

Module AgentMessage.
Record t := {
  message_id : string;
  timestamp : datetime.t;
  sender_role : AgentRole;
  sender_id : string;
  recipient_role : option AgentRole;
  recipient_id : option string;
  message_type : MessageType;
  content : Content;
  task_id : option string;
  step_id : option string;
  priority : Z;
  requires_response : bool;
  in_response_to : option string;
}.
End AgentMessage.

Module MessageFilter.
Record t := {
  sender_role : option AgentRole;
  recipient_role : option AgentRole;
  message_type : option MessageType;
  task_id : option string;
  step_id : option string;
  from_timestamp : option datetime.t;
  to_timestamp : option datetime.t;
  min_priority : option Z;
}.
End MessageFilter.

(** ** Message bus ([agent_message_bus.py]) *)

Module AgentMessageBus.

(** An [asyncio.Queue] is an object with identity: the bus stores
    references to it.  [queue_id] is that identity, [queues] the store of
    the queues' contents, [next_queue] the next identity to hand out. *)
Definition queue_id := nat.

Record t := {
  max_history_size : Z;
  use_redis : bool;
  _message_history : list AgentMessage.t;
  _subscribers : gmap string (list queue_id);
  _role_subscribers : gmap string (list queue_id);
  _message_type_subscribers : gmap string (list queue_id);
  _task_subscribers : gmap string (list queue_id);
  _broadcast_subscribers : list queue_id;
  _message_handlers : list (AgentMessage.t → PyResult unit);
  messages_sent : Z;
  messages_received : Z;
  subscribers_count : Z;
  queues : gmap queue_id (list AgentMessage.t);
  next_queue : queue_id;
}.

Definition __init__ (max_history_size : Z) (use_redis : bool) : t :=
  {| max_history_size := max_history_size;
     use_redis := use_redis;
     _message_history := [];
     _subscribers := ∅;
     _role_subscribers := ∅;
     _message_type_subscribers := ∅;
     _task_subscribers := ∅;
     _broadcast_subscribers := [];
     _message_handlers := [];
     messages_sent := 0;
     messages_received := 0;
     subscribers_count := 0;
     queues := ∅;
     next_queue := 0%nat |}.

(** [d.get(key, [])] *)
Definition get_list (d : gmap string (list queue_id)) (key : string) : list queue_id :=
  default [] (d !! key).

(** [d[key].append(q)] on a [defaultdict(list)] *)
Definition append_to (d : gmap string (list queue_id)) (key : string) (q : queue_id)
  : gmap string (list queue_id) :=
  <[key := get_list d key ++ [q]]> d.

(** [if q in queues: queues.remove(q)]: the first occurrence goes. *)
Fixpoint remove_first (q : queue_id) (l : list queue_id) : list queue_id :=
  match l with
  | [] => []
  | x :: r => if decide (x = q) then r else x :: remove_first q r
  end.

Definition sum_lengths (d : gmap string (list queue_id)) : Z :=
  map_fold (λ _ l acc, acc + Z.of_nat (length l)) 0 d.

Definition _count_subscribers (b : t) : Z :=
  Z.of_nat (length (_broadcast_subscribers b))
  + sum_lengths (_subscribers b)
  + sum_lengths (_role_subscribers b)
  + sum_lengths (_message_type_subscribers b)
  + sum_lengths (_task_subscribers b).

(** The history after [append] and the eviction test of [publish]. *)
Definition store_in_history (max_history_size : Z) (h : list AgentMessage.t) (m : AgentMessage.t)
  : list AgentMessage.t :=
  let h1 := h ++ [m] in
  if Z.of_nat (length h1) >? max_history_size then tail h1 else h1.

(** The set of queues a message goes to. *)
Definition queues_to_deliver (b : t) (m : AgentMessage.t) : gset queue_id :=
  let s0 : gset queue_id := list_to_set (_broadcast_subscribers b) in
  let s1 := if truthy_str (AgentMessage.recipient_id m)
            then s0 ∪ list_to_set (get_list (_subscribers b) (default "" (AgentMessage.recipient_id m)))
            else s0 in
  let s2 := match AgentMessage.recipient_role m with
            | Some r => s1 ∪ list_to_set (get_list (_role_subscribers b) (AgentRole_value r))
            | None => s1
            end in
  let s3 := s2 ∪ list_to_set (get_list (_message_type_subscribers b)
                                        (MessageType_value (AgentMessage.message_type m))) in
  if truthy_str (AgentMessage.task_id m)
  then s3 ∪ list_to_set (get_list (_task_subscribers b) (default "" (AgentMessage.task_id m)))
  else s3.

(** [await queue.put(message)] on every queue of the set.  The queues are
    unbounded, so [put] completes at once. *)
Definition deliver (m : AgentMessage.t) (targets : gset queue_id)
    (qs : gmap queue_id (list AgentMessage.t)) : gmap queue_id (list AgentMessage.t) :=
  set_fold (λ q acc, <[q := default [] (acc !! q) ++ [m]]> acc) qs targets.

(** A handler is called for its effect outside the bus; what it returns or
    raises is dropped by the [try] around the call. *)
Definition run_handlers (hs : list (AgentMessage.t → PyResult unit)) (m : AgentMessage.t) : unit :=
  foldl (λ _ h, match h m with Ok _ => tt | Raise _ => tt end) tt hs.

Definition publish (b : t) (m : AgentMessage.t) : t :=
  let history := store_in_history (max_history_size b) (_message_history b) m in
  let _ := run_handlers (_message_handlers b) m in
  {| max_history_size := max_history_size b;
     use_redis := use_redis b;
     _message_history := history;
     _subscribers := _subscribers b;
     _role_subscribers := _role_subscribers b;
     _message_type_subscribers := _message_type_subscribers b;
     _task_subscribers := _task_subscribers b;
     _broadcast_subscribers := _broadcast_subscribers b;
     _message_handlers := _message_handlers b;
     messages_sent := messages_sent b + 1;
     messages_received := messages_received b;
     subscribers_count := subscribers_count b;
     queues := deliver m (queues_to_deliver b m) (queues b);
     next_queue := next_queue b |}.

Definition subscribe (b : t) (agent_id : option string) (role : option AgentRole)
    (message_type : option MessageType) (task_id : option string) (broadcast : bool)
  : t * queue_id :=
  let q := next_queue b in
  let b1 :=
    if broadcast then
      {| max_history_size := max_history_size b;
         use_redis := use_redis b;
         _message_history := _message_history b;
         _subscribers := _subscribers b;
         _role_subscribers := _role_subscribers b;
         _message_type_subscribers := _message_type_subscribers b;
         _task_subscribers := _task_subscribers b;
         _broadcast_subscribers := _broadcast_subscribers b ++ [q];
         _message_handlers := _message_handlers b;
         messages_sent := messages_sent b;
         messages_received := messages_received b;
         subscribers_count := subscribers_count b;
         queues := <[q := []]> (queues b);
         next_queue := S q |}
    else
      {| max_history_size := max_history_size b;
         use_redis := use_redis b;
         _message_history := _message_history b;
         _subscribers :=
           if truthy_str agent_id
           then append_to (_subscribers b) (default "" agent_id) q
           else _subscribers b;
         _role_subscribers :=
           match role with
           | Some r => append_to (_role_subscribers b) (AgentRole_value r) q
           | None => _role_subscribers b
           end;
         _message_type_subscribers :=
           match message_type with
           | Some ty => append_to (_message_type_subscribers b) (MessageType_value ty) q
           | None => _message_type_subscribers b
           end;
         _task_subscribers :=
           if truthy_str task_id
           then append_to (_task_subscribers b) (default "" task_id) q
           else _task_subscribers b;
         _broadcast_subscribers := _broadcast_subscribers b;
         _message_handlers := _message_handlers b;
         messages_sent := messages_sent b;
         messages_received := messages_received b;
         subscribers_count := subscribers_count b;
         queues := <[q := []]> (queues b);
         next_queue := S q |} in
  ({| max_history_size := max_history_size b1;
      use_redis := use_redis b1;
      _message_history := _message_history b1;
      _subscribers := _subscribers b1;
      _role_subscribers := _role_subscribers b1;
      _message_type_subscribers := _message_type_subscribers b1;
      _task_subscribers := _task_subscribers b1;
      _broadcast_subscribers := _broadcast_subscribers b1;
      _message_handlers := _message_handlers b1;
      messages_sent := messages_sent b1;
      messages_received := messages_received b1;
      subscribers_count := _count_subscribers b1;
      queues := queues b1;
      next_queue := next_queue b1 |}, q).

Definition unsubscribe (b : t) (q : queue_id) : t :=
  let b1 :=
    {| max_history_size := max_history_size b;
       use_redis := use_redis b;
       _message_history := _message_history b;
       _subscribers := remove_first q <$> _subscribers b;
       _role_subscribers := remove_first q <$> _role_subscribers b;
       _message_type_subscribers := remove_first q <$> _message_type_subscribers b;
       _task_subscribers := remove_first q <$> _task_subscribers b;
       _broadcast_subscribers := remove_first q (_broadcast_subscribers b);
       _message_handlers := _message_handlers b;
       messages_sent := messages_sent b;
       messages_received := messages_received b;
       subscribers_count := subscribers_count b;
       queues := queues b;
       next_queue := next_queue b |} in
  {| max_history_size := max_history_size b1;
     use_redis := use_redis b1;
     _message_history := _message_history b1;
     _subscribers := _subscribers b1;
     _role_subscribers := _role_subscribers b1;
     _message_type_subscribers := _message_type_subscribers b1;
     _task_subscribers := _task_subscribers b1;
     _broadcast_subscribers := _broadcast_subscribers b1;
     _message_handlers := _message_handlers b1;
     messages_sent := messages_sent b1;
     messages_received := messages_received b1;
     subscribers_count := _count_subscribers b1;
     queues := queues b1;
     next_queue := next_queue b1 |}.

(** One test of the filtering scan: [if f and field != f: continue]. *)
Definition passes {A} `{EqDecision A} (wanted : option A) (actual : A) : bool :=
  match wanted with
  | Some w => bool_decide (actual = w)
  | None => true
  end.

Definition passes_str (wanted : option string) (actual : option string) : bool :=
  if truthy_str wanted then bool_decide (actual = wanted) else true.

(** The tests of the scan that compare no timestamp, in their order. *)
Definition passes_keys (f : MessageFilter.t) (msg : AgentMessage.t) : bool :=
  passes (MessageFilter.sender_role f) (AgentMessage.sender_role msg)
  && match MessageFilter.recipient_role f with
     | Some r => bool_decide (AgentMessage.recipient_role msg = Some r)
     | None => true
     end
  && passes (MessageFilter.message_type f) (AgentMessage.message_type msg)
  && passes_str (MessageFilter.task_id f) (AgentMessage.task_id msg)
  && passes_str (MessageFilter.step_id f) (AgentMessage.step_id msg).

(** The body of the scan for one message: whether it is appended.  A
    message that an earlier test skips meets no later test; the two
    comparisons of timestamps can raise. *)
Definition matches_filter (f : MessageFilter.t) (msg : AgentMessage.t) : PyResult bool :=
  if negb (passes_keys f msg) then Ok false
  else
    match match MessageFilter.from_timestamp f with
          | Some ts => datetime.lt (AgentMessage.timestamp msg) ts
          | None => Ok false
          end with
    | Raise e => Raise e
    | Ok true => Ok false
    | Ok false =>
        match match MessageFilter.to_timestamp f with
              | Some ts => datetime.gt (AgentMessage.timestamp msg) ts
              | None => Ok false
              end with
        | Raise e => Raise e
        | Ok true => Ok false
        | Ok false =>
            Ok match MessageFilter.min_priority f with
               | Some p => negb (AgentMessage.priority msg <? p)
               | None => true
               end
        end
    end.

(** The scan of the history: it stops at the first message on which a
    comparison raises. *)
Fixpoint filter_messages (f : MessageFilter.t) (history : list AgentMessage.t)
  : PyResult (list AgentMessage.t) :=
  match history with
  | [] => Ok []
  | msg :: rest =>
      match matches_filter f msg with
      | Raise e => Raise e
      | Ok keep =>
          match filter_messages f rest with
          | Raise e => Raise e
          | Ok filtered_messages =>
              Ok (if keep then msg :: filtered_messages else filtered_messages)
          end
      end
  end.

Definition get_message_history (b : t) (filter : option MessageFilter.t)
  : PyResult (list AgentMessage.t) :=
  match filter with
  | None => Ok (_message_history b)
  | Some f => filter_messages f (_message_history b)
  end.

Definition clear_history (b : t) : t :=
  {| max_history_size := max_history_size b;
     use_redis := use_redis b;
     _message_history := [];
     _subscribers := _subscribers b;
     _role_subscribers := _role_subscribers b;
     _message_type_subscribers := _message_type_subscribers b;
     _task_subscribers := _task_subscribers b;
     _broadcast_subscribers := _broadcast_subscribers b;
     _message_handlers := _message_handlers b;
     messages_sent := messages_sent b;
     messages_received := messages_received b;
     subscribers_count := subscribers_count b;
     queues := queues b;
     next_queue := next_queue b |}.

(** The keyword arguments of a call, and the binding of a call of
    [get_message_history(self, filter=None)]: a keyword that names no
    parameter raises [TypeError] before the body runs. *)
Inductive KwArg :=
| KwFilter (f : option MessageFilter.t)
| KwStr (s : option string).

Definition call_get_message_history (b : t) (kwargs : list (string * KwArg))
  : PyResult (list AgentMessage.t) :=
  match List.find (λ kv, negb (String.eqb (fst kv) "filter")) kwargs with
  | Some (k, _) =>
      Raise (TypeError ("AgentMessageBus.get_message_history() got an unexpected keyword argument '"
                        +:+ k +:+ "'"))
  | None =>
      match List.find (λ kv, String.eqb (fst kv) "filter") kwargs with
      | Some (_, KwFilter f) => get_message_history b f
      | Some (_, KwStr _) => Raise (TypeError "filter")
      | None => get_message_history b None
      end
  end.

End AgentMessageBus.

(** ** Agents and coordinator ([multi_agent_swarm.py]) *)

(** Modelled from the spec: the classes [Task] and [Step] of
    [skyvern.forge.sdk.schemas.tasks] and [skyvern.forge.sdk.models] are not
    among the sources; the swarm reads their correlation keys [task_id] and
    [step_id] only. *)
Module Task.
Record t := { task_id : string }.
End Task.

Module Step.
Record t := { step_id : string }.
End Step.

(** What the interpreter supplies to one [send_message] call: the value of
    [uuid.uuid4()], the instant at which [datetime.now(timezone.utc)]
    stamps the envelope, and the text an f-string gives a [float]. *)
Record Clock := {
  uuid4 : string;
  now : Z;
  format_float : float → string;
}.

Module BaseAgent.

Record t := {
  agent_id : string;
  role : AgentRole;
  task_id : option string;
  step_id : option string;
  active : bool;
  _message_queue : option AgentMessageBus.queue_id;
}.

Definition __init__ (agent_id : string) (role : AgentRole)
    (task_id step_id : option string) : t :=
  {| agent_id := agent_id; role := role; task_id := task_id; step_id := step_id;
     active := false; _message_queue := None |}.

(** The bus is the object [self.message_bus] refers to; it is shared, so a
    method takes it and returns it next to the agent. *)
Definition start (a : t) (bus : AgentMessageBus.t) : t * AgentMessageBus.t :=
  let '(bus', q) :=
    AgentMessageBus.subscribe bus (Some (agent_id a)) (Some (role a)) None (task_id a) false in
  ({| agent_id := agent_id a; role := role a; task_id := task_id a; step_id := step_id a;
      active := true; _message_queue := Some q |}, bus').

Definition stop (a : t) (bus : AgentMessageBus.t) : t * AgentMessageBus.t :=
  let a' := {| agent_id := agent_id a; role := role a; task_id := task_id a;
               step_id := step_id a; active := false;
               _message_queue := _message_queue a |} in
  match _message_queue a with
  | Some q => (a', AgentMessageBus.unsubscribe bus q)
  | None => (a', bus)
  end.

Definition send_message (a : t) (bus : AgentMessageBus.t) (clk : Clock)
    (message_type : MessageType) (content : Content)
    (recipient_role : option AgentRole) (recipient_id : option string)
    (priority : Z) (requires_response : bool) (in_response_to : option string)
  : string * AgentMessageBus.t :=
  let message_id := uuid4 clk in
  let message :=
    {| AgentMessage.message_id := message_id;
       AgentMessage.timestamp := datetime.utc (now clk);
       AgentMessage.sender_role := role a;
       AgentMessage.sender_id := agent_id a;
       AgentMessage.recipient_role := recipient_role;
       AgentMessage.recipient_id := recipient_id;
       AgentMessage.message_type := message_type;
       AgentMessage.content := content;
       AgentMessage.task_id := task_id a;
       AgentMessage.step_id := step_id a;
       AgentMessage.priority := priority;
       AgentMessage.requires_response := requires_response;
       AgentMessage.in_response_to := in_response_to |} in
  (message_id, AgentMessageBus.publish bus message).

End BaseAgent.

Module ValidatorAgent.

Record t := {
  base : BaseAgent.t;
  task : Task.t;
  step : Step.t;
  _approval_mode : string;
  _auto_approve_threshold : float;
}.

(** The literal [0.8] denotes the binary64 value written here. *)
Definition __init__ (agent_id : string) (task : Task.t) (step : Step.t) : t :=
  {| base := BaseAgent.__init__ agent_id VALIDATOR
               (Some (Task.task_id task)) (Some (Step.step_id step));
     task := task;
     step := step;
     _approval_mode := "auto";
     _auto_approve_threshold := 0x1.999999999999ap-1%float |}.

(** The proposal model built from the keys of [content]: the fields are
    checked against the model, where [confidence] carries the bounds [ge=0.0, le=1.0]. *)
Definition deserialize_proposal (c : Content) : PyResult ActionProposalMessage.t :=
  match c with
  | ProposalContent p =>
      if (PrimFloat.leb 0%float (ActionProposalMessage.confidence p)
          && PrimFloat.leb (ActionProposalMessage.confidence p) 1%float)%bool
      then Ok p
      else Raise (ValidationError "ActionProposalMessage")
  | _ => Raise (ValidationError "ActionProposalMessage")
  end.

Definition high_risk_actions : list string := ["terminate"; "complete"].

Definition _is_high_risk_action (proposal : ActionProposalMessage.t) : bool :=
  bool_decide (lower (ActionProposalMessage.action_type proposal) ∈ high_risk_actions)
  || String.eqb (ActionProposalMessage.risk_assessment proposal) "high".

Definition validate_action (v : t) (bus : AgentMessageBus.t) (clk : Clock)
    (action_proposal : AgentMessage.t)
  : PyResult (bool * gmap string PyVal) * AgentMessageBus.t :=
  match deserialize_proposal (AgentMessage.content action_proposal) with
  | Raise e => (Raise e, bus)
  | Ok proposal =>
      let is_high_risk := _is_high_risk_action proposal in
      let approved :=
        PrimFloat.leb (_auto_approve_threshold v) (ActionProposalMessage.confidence proposal)
        && negb is_high_risk in
      let approval_message :=
        {| ActionApprovalMessage.approved := approved;
           ActionApprovalMessage.approver_reasoning :=
             "Action " +:+ (if approved then "approved" else "rejected")
             +:+ " based on confidence "
             +:+ format_float clk (ActionProposalMessage.confidence proposal)
             +:+ " and risk assessment";
           ActionApprovalMessage.modifications := ∅;
           ActionApprovalMessage.conditions :=
             if is_high_risk then ["Monitor for unexpected page changes"] else [] |} in
      let '(_, bus') :=
        BaseAgent.send_message (base v) bus clk
          (if approved then ACTION_APPROVAL else ACTION_REJECTION)
          (ApprovalContent approval_message)
          None None 9 false (Some (AgentMessage.message_id action_proposal)) in
      (Ok (approved, ActionApprovalMessage.modifications approval_message), bus')
  end.

End ValidatorAgent.

Module AgentSwarmCoordinator.

Record t := {
  task : Task.t;
  step : Step.t;
  enable_swarm : bool;
  planner : BaseAgent.t;
  executor : BaseAgent.t;
  validator : ValidatorAgent.t;
}.

(** [settings_flag] is [settings.DEBUG_MODE or settings.ENABLE_MULTI_AGENT_SWARM]. *)
Definition __init__ (task : Task.t) (step : Step.t) (enable_swarm settings_flag : bool) : t :=
  {| task := task;
     step := step;
     enable_swarm := enable_swarm && settings_flag;
     planner := BaseAgent.__init__ ("planner-" +:+ Task.task_id task) PLANNER
                  (Some (Task.task_id task)) (Some (Step.step_id step));
     executor := BaseAgent.__init__ ("executor-" +:+ Task.task_id task) EXECUTOR
                   (Some (Task.task_id task)) (Some (Step.step_id step));
     validator := ValidatorAgent.__init__ ("validator-" +:+ Task.task_id task) task step |}.

(** [self.message_bus.get_message_history(task_id=self.task.task_id)] *)
Definition get_message_history (c : t) (bus : AgentMessageBus.t)
  : PyResult (list AgentMessage.t) :=
  AgentMessageBus.call_get_message_history bus
    [("task_id", AgentMessageBus.KwStr (Some (Task.task_id (task c))))].

End AgentSwarmCoordinator.

(** ** Hybrid planner ([hybrid_planner.py]) *)

Inductive SymbolicPredicateType :=
| ELEMENT_EXISTS | ELEMENT_VISIBLE | ELEMENT_ENABLED | URL_PATTERN
| ELEMENT_COUNT | ELEMENT_TEXT_CONTAINS | CUSTOM.

Inductive SymbolicConstraintOperator := AND | OR | NOT | IMPLIES.

(** Modelled from the spec: the enumeration [ActionType] of
    [skyvern.webeye.actions.action_types] is not among the sources; these
    are the members the planner names, each with the value its name spells
    (read only to word a warning). *)
Inductive ActionType :=
| CLICK | INPUT_TEXT | SELECT_OPTION | CHECKBOX | WAIT | TERMINATE | COMPLETE | RELOAD_PAGE.

#[global] Instance ActionType_eq_dec : EqDecision ActionType.
Proof. solve_decision. Defined.

Definition ActionType_value (t : ActionType) : string :=
  match t with
  | CLICK => "click" | INPUT_TEXT => "input_text" | SELECT_OPTION => "select_option"
  | CHECKBOX => "checkbox" | WAIT => "wait" | TERMINATE => "terminate"
  | COMPLETE => "complete" | RELOAD_PAGE => "reload_page"
  end.

(** Modelled from the spec: the class [Action] of
    [skyvern.webeye.actions.actions] is not among the sources; an action
    carries an [action_type] and an optional [element_id] (what
    [getattr(action, "element_id", None)] reads), and its reasoning. *)
Module Action.
Record t := {
  action_type : ActionType;
  element_id : option string;
  reasoning : option string;
}.
#[global] Instance eq_dec : EqDecision t.
Proof. solve_decision. Defined.
End Action.

(** Modelled from the spec: the class [ScrapedPage] of
    [skyvern.webeye.scraper.scraper] is not among the sources; a snapshot
    is a list of elements, each a dictionary with an ["id"], a ["text"] and
    an ["attributes"] map, of which the planner reads ["style"] (text) and
    ["disabled"]. *)
Module Element.
Record t := {
  id : option string;
  tagName : option string;
  text : option string;
  style : option string;
  disabled : PyVal;
}.
End Element.

Module ScrapedPage.
Record t := {
  elements : list Element.t;
  url : string;
}.
End ScrapedPage.

(** The two library calls of [evaluate].  [re.match(pattern, string)] gives
    a match object or [None]; it raises [re.error] on a pattern that does
    not compile, and can raise something else, as [OverflowError] on a
    repetition count that is too large and [RecursionError] on a pattern
    nested too deep.  [eval(expression, globals, locals)] gives a value,
    raises an [Exception], or raises an instance of a class that derives
    from [BaseException] and not from [Exception] ([SystemExit],
    [KeyboardInterrupt], [GeneratorExit]). *)
Inductive MatchOutcome :=
| Matched
| NotMatched
| ReError
| MatchRaised (r : PyRaised).

Inductive EvalOutcome :=
| Value (v : PyVal)
| EvalRaised
| EvalEscapes (class_name : string).

Class PythonRuntime := {
  re_match : string → string → MatchOutcome;
  eval : string → ScrapedPage.t → option string → EvalOutcome;
}.

(** [s.replace(" ", "")] *)
Fixpoint remove_spaces (s : string) : string :=
  match s with
  | EmptyString => EmptyString
  | String c r => if Ascii.eqb c Ascii.Space then remove_spaces r else String c (remove_spaces r)
  end.

(** [needle in hay] on strings *)
Fixpoint contains (needle hay : string) : bool :=
  String.prefix needle hay
  || match hay with
     | EmptyString => false
     | String _ r => contains needle r
     end.

Module PlannerPredicate.

Record t := {
  predicate_type : SymbolicPredicateType;
  target : option string;
  expected_value : PyVal;
  operator : SymbolicConstraintOperator;
  metadata : gmap string PyVal;
}.

Definition has_id (p : t) (elem : Element.t) : bool :=
  bool_decide (Element.id elem = target p).

(** [disabled in {True, "true", "disabled"}]; [1] is a member, being equal
    to [True]. *)
Definition marks_disabled (v : PyVal) : bool :=
  match v with
  | PyBool b => b
  | PyInt n => n =? 1
  | PyStr s => String.eqb s "true" || String.eqb s "disabled"
  | PyNone => false
  end.

(** [count == expected_value] for an integer [count] *)
Definition count_equals (count : Z) (v : PyVal) : bool :=
  match v with
  | PyInt n => count =? n
  | PyBool b => count =? (if b then 1 else 0)
  | _ => false
  end.

(** [(self.expected_value or "") in text], where [text] is a string: the
    operator [in] raises [TypeError] when its left operand is no string. *)
Definition expected_in (v : PyVal) (text : string) : Outcome bool :=
  match (if truthy v then v else PyStr "") with
  | PyStr expected => Returns (contains expected text)
  | expected =>
      Raises (AnException
                (TypeError ("'in <string>' requires string as left operand, not "
                            +:+ type_name expected)))
  end.

Definition evaluate `{PythonRuntime} (p : t) (scraped_page : option ScrapedPage.t)
    (current_url : option string) : Outcome bool :=
  match predicate_type p with
  | URL_PATTERN =>
      if negb (truthy_str current_url) || negb (truthy_str (target p)) then Returns false
      else
        match re_match (default "" (target p)) (default "" current_url) with
        | Matched => Returns true
        | NotMatched => Returns false
        | ReError => Returns false
        | MatchRaised r => Raises r
        end
  | ty =>
      match scraped_page with
      | None => Returns false
      | Some page =>
          match ScrapedPage.elements page with
          | [] => Returns false
          | elements =>
              match ty with
              | ELEMENT_EXISTS => Returns (existsb (has_id p) elements)
              | ELEMENT_VISIBLE =>
                  match List.find (has_id p) elements with
                  | Some elem =>
                      let style_norm := remove_spaces (default "" (Element.style elem)) in
                      if contains "display:none" style_norm
                         || contains "visibility:hidden" style_norm
                      then Returns false else Returns true
                  | None => Returns false
                  end
              | ELEMENT_ENABLED =>
                  match List.find (has_id p) elements with
                  | Some elem =>
                      if marks_disabled (Element.disabled elem)
                      then Returns false else Returns true
                  | None => Returns false
                  end
              | ELEMENT_COUNT =>
                  let count := Z.of_nat (length (List.filter (has_id p) elements)) in
                  match expected_value p with
                  | PyNone => Returns (count >? 0)
                  | v => Returns (count_equals count v)
                  end
              | ELEMENT_TEXT_CONTAINS =>
                  match List.find (has_id p) elements with
                  | Some elem =>
                      let text := default "" (Element.text elem) in
                      expected_in (expected_value p) text
                  | None => Returns false
                  end
              | CUSTOM =>
                  let expression := default PyNone (metadata p !! "expression") in
                  if negb (truthy expression) then Returns false
                  else
                    match expression with
                    | PyStr source =>
                        match eval source page current_url with
                        | Value v => Returns (truthy v)
                        | EvalRaised => Returns false
                        | EvalEscapes class_name => Raises (NotAnException class_name)
                        end
                    | _ => Returns false
                    end
              | URL_PATTERN => Returns false (* handled above; the final [return False] *)
              end
          end
      end
  end.

(** [all(predicate.evaluate(scraped_page, current_url) for predicate in
    predicates)]: the predicates are evaluated in order, up to the first
    that is false or raises. *)
Fixpoint all_evaluate `{PythonRuntime} (predicates : list t)
    (scraped_page : option ScrapedPage.t) (current_url : option string) : Outcome bool :=
  match predicates with
  | [] => Returns true
  | predicate :: rest =>
      match evaluate predicate scraped_page current_url with
      | Returns true => all_evaluate rest scraped_page current_url
      | Returns false => Returns false
      | Raises r => Raises r
      end
  end.

(** The predicates on which that expression calls [evaluate]: those up to
    the first that is not true. *)
Fixpoint evaluated `{PythonRuntime} (ps : list t) (scraped_page : option ScrapedPage.t)
    (current_url : option string) : list t :=
  match ps with
  | [] => []
  | p :: rest =>
      match evaluate p scraped_page current_url with
      | Returns true => p :: evaluated rest scraped_page current_url
      | _ => [p]
      end
  end.

End PlannerPredicate.

Module PlannerAffordance.

Record t := {
  action_type : ActionType;
  element_id : option string;
  preconditions : list PlannerPredicate.t;
  postconditions : list PlannerPredicate.t;
  priority : Z;
  metadata : gmap string PyVal;
}.

Definition can_execute `{PythonRuntime} (a : t) (scraped_page : option ScrapedPage.t)
    (current_url : option string) : Outcome bool :=
  PlannerPredicate.all_evaluate (preconditions a) scraped_page current_url.

End PlannerAffordance.

Module PlannerGuard.

Record t := {
  name : string;
  predicates : list PlannerPredicate.t;
  action_types_blocked : list ActionType;
  message : option string;
}.

Definition is_active `{PythonRuntime} (g : t) (scraped_page : option ScrapedPage.t)
    (current_url : option string) : Outcome bool :=
  PlannerPredicate.all_evaluate (predicates g) scraped_page current_url.

Definition blocks_action (g : t) (action : Action.t) : bool :=
  existsb (λ blocked, bool_decide (Action.action_type action = blocked))
          (action_types_blocked g).

End PlannerGuard.

Module AuditData.
Record t := {
  total_actions : Z;
  affordances_checked : Z;
  guards_checked : Z;
  task_id : option string;
  filtered_actions : Z;
  rejected_actions : Z;
  warnings : list string;
}.
End AuditData.

Module PlanValidationResult.
Record t := {
  valid : bool;
  filtered_actions : list Action.t;
  rejected_actions : list (Action.t * PyVal);
  warnings : list string;
  audit_data : AuditData.t;
}.
End PlanValidationResult.

Module HybridPlanner.

Record t := {
  predicates : list PlannerPredicate.t;
  affordances : list PlannerAffordance.t;
  guards : list PlannerGuard.t;
  loop_detection_window : Z;
  action_history : list (string * ActionType);
  fallback_actions : list Action.t;
}.

Definition __init__ : t :=
  {| predicates := []; affordances := []; guards := [];
     loop_detection_window := 5; action_history := []; fallback_actions := [] |}.

Definition register_predicate (p : t) (predicate : PlannerPredicate.t) : t :=
  {| predicates := predicates p ++ [predicate]; affordances := affordances p;
     guards := guards p; loop_detection_window := loop_detection_window p;
     action_history := action_history p; fallback_actions := fallback_actions p |}.



Definition clear (p : t) : t :=
  {| predicates := []; affordances := []; guards := [];
     loop_detection_window := loop_detection_window p;
     action_history := []; fallback_actions := [] |}.

(** The source keeps no record of which predicates it evaluates.  The
    events below are that record, produced next to the outcome for an
    action so that what is evaluated, and for whom, can be stated. *)
Inductive Event :=
| GuardEvaluated (g : PlannerGuard.t) (p : PlannerPredicate.t)
| AffordanceEvaluated (a : PlannerAffordance.t) (p : PlannerPredicate.t).

Definition is_affordance_event (e : Event) : bool :=
  match e with
  | AffordanceEvaluated _ _ => true
  | GuardEvaluated _ _ => false
  end.

(** [guard.message or f"Guard '{guard.name}' blocked action"] *)
Definition guard_reason (g : PlannerGuard.t) : string :=
  if truthy_str (PlannerGuard.message g)
  then default "" (PlannerGuard.message g)
  else "Guard '" +:+ PlannerGuard.name g +:+ "' blocked action".

(** The loop over [self.guards], left at the first guard that is active
    and blocks the action; the result is [rejection_reason].  In
    [guard.is_active(...) and guard.blocks_action(action)] the guard's
    predicates are evaluated first, and what they raise leaves the loop. *)
Fixpoint check_guards `{PythonRuntime} (guards : list PlannerGuard.t) (action : Action.t)
    (scraped_page : option ScrapedPage.t) (current_url : option string)
  : Outcome (option string) * list Event :=
  match guards with
  | [] => (Returns None, [])
  | guard :: rest =>
      let events :=
        GuardEvaluated guard
          <$> PlannerPredicate.evaluated (PlannerGuard.predicates guard) scraped_page current_url in
      match PlannerGuard.is_active guard scraped_page current_url with
      | Raises r => (Raises r, events)
      | Returns active =>
          if active && PlannerGuard.blocks_action guard action
          then (Returns (Some (guard_reason guard)), events)
          else
            let '(reason, later) := check_guards rest action scraped_page current_url in
            (reason, events ++ later)
      end
  end.

Definition affordance_matches (action : Action.t) (affordance : PlannerAffordance.t) : bool :=
  bool_decide (PlannerAffordance.action_type affordance = Action.action_type action)
  && match PlannerAffordance.element_id affordance with
     | None => true
     | Some e => bool_decide (Some e = Action.element_id action)
     end.

(** [matching.sort(key=lambda aff: aff.priority, reverse=True)].  The sort
    of a Python list is stable, also in reverse: keys descend, and
    affordances of equal priority keep the order they had. *)
Fixpoint insert_by_priority (a : PlannerAffordance.t) (sorted : list PlannerAffordance.t)
  : list PlannerAffordance.t :=
  match sorted with
  | [] => [a]
  | b :: rest =>
      if PlannerAffordance.priority b <=? PlannerAffordance.priority a
      then a :: b :: rest
      else b :: insert_by_priority a rest
  end.

Definition sort_by_priority (l : list PlannerAffordance.t) : list PlannerAffordance.t :=
  foldr insert_by_priority [] l.

(** The reason recorded when the selected affordance cannot execute. *)
Definition failure_reason (selected : PlannerAffordance.t) : PyVal :=
  if bool_decide (PlannerAffordance.metadata selected ≠ ∅)
  then default PyNone (PlannerAffordance.metadata selected !! "failure_reason")
  else PyStr "Affordance preconditions not met".

Inductive Verdict :=
| Accepted (warning : option string)
| Rejected (reason : PyVal).

(** The body of the loop over [actions]: the verdict on one action, or
    what a predicate raised, and the predicate evaluations made on the
    way. *)
Definition check_action `{PythonRuntime} (p : t) (scraped_page : option ScrapedPage.t)
    (current_url : option string) (action : Action.t) : Outcome Verdict * list Event :=
  let '(guarded, guard_events) :=
    check_guards (guards p) action scraped_page current_url in
  match guarded with
  | Raises r => (Raises r, guard_events)
  | Returns rejection_reason =>
      if truthy_str rejection_reason
      then (Returns (Rejected (PyStr (default "" rejection_reason))), guard_events)
      else
        match affordances p with
        | [] => (Returns (Accepted None), guard_events)
        | _ :: _ =>
            let matching_affordances :=
              List.filter (affordance_matches action) (affordances p) in
            match matching_affordances with
            | [] =>
                (Returns (Accepted (Some ("No affordance registered for action "
                                          +:+ ActionType_value (Action.action_type action)))),
                 guard_events)
            | _ :: _ =>
                match sort_by_priority matching_affordances with
                | selected_affordance :: _ =>
                    let events :=
                      AffordanceEvaluated selected_affordance
                        <$> PlannerPredicate.evaluated
                              (PlannerAffordance.preconditions selected_affordance)
                              scraped_page current_url in
                    match PlannerAffordance.can_execute selected_affordance
                            scraped_page current_url with
                    | Returns true => (Returns (Accepted None), guard_events ++ events)
                    | Returns false =>
                        (Returns (Rejected (failure_reason selected_affordance)),
                         guard_events ++ events)
                    | Raises r => (Raises r, guard_events ++ events)
                    end
                | [] => (Returns (Accepted None), guard_events)
                end
            end
        end
  end.

(** [(getattr(action, "element_id", "") or "global", action.action_type)] *)
Definition history_entry (action : Action.t) : string * ActionType :=
  (if truthy_str (Action.element_id action) then default "" (Action.element_id action)
   else "global",
   Action.action_type action).

Definition loop_warning (window : Z) : string :=
  "Potential loop detected: repeated sequence of " +:+ pretty window +:+ " actions".

Definition with_history (p : t) (h : list (string * ActionType)) : t :=
  {| predicates := predicates p; affordances := affordances p; guards := guards p;
     loop_detection_window := loop_detection_window p;
     action_history := h; fallback_actions := fallback_actions p |}.

Definition _detect_loops (p : t) (actions : list Action.t) : option string * t :=
  let window := loop_detection_window p in
  if window <=? 0 then (None, p)
  else
    let appended := action_history p ++ (history_entry <$> actions) in
    let max_history := window * 2 in
    let history :=
      if Z.of_nat (length appended) >? max_history
      then py_slice appended (Some (- max_history)) None
      else appended in
    if Z.of_nat (length history) <? window * 2 then (None, with_history p history)
    else
      let recent := py_slice history (Some (- window)) None in
      let previous := py_slice history (Some (- window * 2)) (Some (- window)) in
      if bool_decide (recent = previous)
      then (Some (loop_warning window), with_history p history)
      else (None, with_history p history).

(** The three lists the loop over [actions] fills. *)
Definition Lists : Type := list Action.t * list (Action.t * PyVal) * list string.

Definition record_verdict (acc : Lists) (action : Action.t) (v : Verdict) : Lists :=
  let '(filtered_actions, rejected_actions, warnings) := acc in
  match v with
  | Accepted None => (filtered_actions ++ [action], rejected_actions, warnings)
  | Accepted (Some w) => (filtered_actions ++ [action], rejected_actions, warnings ++ [w])
  | Rejected reason => (filtered_actions, rejected_actions ++ [(action, reason)], warnings)
  end.

(** The loop over [actions], from the lists filled so far: it ends at the
    first action for which a predicate raises. *)
Fixpoint filter_actions_from `{PythonRuntime} (p : t) (acc : Lists) (actions : list Action.t)
    (scraped_page : option ScrapedPage.t) (current_url : option string) : Outcome Lists :=
  match actions with
  | [] => Returns acc
  | action :: rest =>
      match (check_action p scraped_page current_url action).1 with
      | Raises r => Raises r
      | Returns v =>
          filter_actions_from p (record_verdict acc action v) rest scraped_page current_url
      end
  end.

Definition filter_actions `{PythonRuntime} (p : t) (actions : list Action.t)
    (scraped_page : option ScrapedPage.t) (current_url : option string) : Outcome Lists :=
  filter_actions_from p ([], [], []) actions scraped_page current_url.

(** The call returns its result, or raises what a predicate raised; in
    the second case [_detect_loops] has not run and the planner is as it
    was. *)
Definition validate_and_filter_actions `{PythonRuntime} (p : t) (actions : list Action.t)
    (scraped_page : option ScrapedPage.t) (current_url : option string)
    (task : option Task.t) : Outcome PlanValidationResult.t * t :=
  match filter_actions p actions scraped_page current_url with
  | Raises r => (Raises r, p)
  | Returns (filtered_actions, rejected_actions, warnings) =>
      let '(loop, p') := _detect_loops p filtered_actions in
      let warnings := match loop with Some w => warnings ++ [w] | None => warnings end in
      (Returns
         {| PlanValidationResult.valid := bool_decide (filtered_actions ≠ []);
            PlanValidationResult.filtered_actions := filtered_actions;
            PlanValidationResult.rejected_actions := rejected_actions;
            PlanValidationResult.warnings := warnings;
            PlanValidationResult.audit_data :=
              {| AuditData.total_actions := Z.of_nat (length actions);
                 AuditData.affordances_checked := Z.of_nat (length (affordances p));
                 AuditData.guards_checked := Z.of_nat (length (guards p));
                 AuditData.task_id := Task.task_id <$> task;
                 AuditData.filtered_actions := Z.of_nat (length filtered_actions);
                 AuditData.rejected_actions := Z.of_nat (length rejected_actions);
                 AuditData.warnings := warnings |} |}, p')
  end.



End HybridPlanner.

(** * Further functions of the same files *)

(** ** [get_statistics] and [clear_history] as operations of the bus *)

Module Statistics.
Record t := {
  messages_sent : Z;
  messages_received : Z;
  subscribers_count : Z;
  history_size : Z;
  max_history_size : Z;
}.
End Statistics.

(** [{**self._stats, "history_size": ..., "max_history_size": ...}] *)
Definition get_statistics (b : AgentMessageBus.t) : Statistics.t :=
  {| Statistics.messages_sent := AgentMessageBus.messages_sent b;
     Statistics.messages_received := AgentMessageBus.messages_received b;
     Statistics.subscribers_count := AgentMessageBus.subscribers_count b;
     Statistics.history_size := Z.of_nat (length (AgentMessageBus._message_history b));
     Statistics.max_history_size := AgentMessageBus.max_history_size b |}.

(** The calls that change a bus. *)
Inductive BusOp :=
| DoPublish (m : AgentMessage.t)
| DoSubscribe (agent_id : option string) (role : option AgentRole)
    (message_type : option MessageType) (task_id : option string) (broadcast : bool)
| DoUnsubscribe (q : AgentMessageBus.queue_id)
| DoClearHistory.

Definition bus_step (b : AgentMessageBus.t) (op : BusOp) : AgentMessageBus.t :=
  match op with
  | DoPublish m => AgentMessageBus.publish b m
  | DoSubscribe agent_id role message_type task_id broadcast =>
      (AgentMessageBus.subscribe b agent_id role message_type task_id broadcast).1
  | DoUnsubscribe q => AgentMessageBus.unsubscribe b q
  | DoClearHistory => AgentMessageBus.clear_history b
  end.

Definition is_publish (op : BusOp) : bool :=
  match op with DoPublish _ => true | _ => false end.

(** ** The routes over the bus ([routes/agent_swarm.py]) *)

Module agent_swarm.

Record AgentMessagesResponse := {
  messages : list AgentMessage.t;
  total : Z;
  filtered : Z;
}.

(** The handlers read the process-wide bus, taken here as an argument;
    the organization that [Depends] resolves plays no part in the
    result.  [limit] is an integer query parameter.  The answer of a
    handler is the value it returns, the [HTTPException] it raises, or
    another exception that leaves it. *)
Inductive Response (A : Type) :=
| Returned (a : A)
| NotFound (detail : string)
| Failed (e : PyExc).
Arguments Returned {A} a.
Arguments NotFound {A} detail.
Arguments Failed {A} e.

Definition get_agent_messages (message_bus : AgentMessageBus.t)
    (message_filter : MessageFilter.t) (limit : Z) : Response AgentMessagesResponse :=
  match AgentMessageBus.get_message_history message_bus None with
  | Raise e => Failed e
  | Ok all_messages =>
      match AgentMessageBus.get_message_history message_bus (Some message_filter) with
      | Raise e => Failed e
      | Ok filtered_messages =>
          let limited_messages :=
            if negb (limit =? 0) then py_slice filtered_messages (Some (- limit)) None
            else filtered_messages in
          Returned {| messages := limited_messages;
                      total := Z.of_nat (length all_messages);
                      filtered := Z.of_nat (length filtered_messages) |}
      end
  end.

Definition get_agent_message_by_id (message_bus : AgentMessageBus.t) (message_id : string)
  : Response AgentMessage.t :=
  match AgentMessageBus.get_message_history message_bus None with
  | Raise e => Failed e
  | Ok all_messages =>
      match List.find (λ message, String.eqb (AgentMessage.message_id message) message_id)
              all_messages with
      | Some message => Returned message
      | None => NotFound ("Message with ID " +:+ message_id +:+ " not found")
      end
  end.

Definition get_task_agent_messages (message_bus : AgentMessageBus.t) (task_id : string)
    (message_type : option MessageType) (sender_role : option AgentRole)
  : Response AgentMessagesResponse :=
  let message_filter :=
    {| MessageFilter.sender_role := sender_role;
       MessageFilter.recipient_role := None;
       MessageFilter.message_type := message_type;
       MessageFilter.task_id := Some task_id;
       MessageFilter.step_id := None;
       MessageFilter.from_timestamp := None;
       MessageFilter.to_timestamp := None;
       MessageFilter.min_priority := None |} in
  match AgentMessageBus.get_message_history message_bus None with
  | Raise e => Failed e
  | Ok all_messages =>
      match AgentMessageBus.get_message_history message_bus (Some message_filter) with
      | Raise e => Failed e
      | Ok filtered_messages =>
          Returned {| messages := filtered_messages;
                      total := Z.of_nat (length all_messages);
                      filtered := Z.of_nat (length filtered_messages) |}
      end
  end.

End agent_swarm.

(** ** Receiving from the agent's queue *)

(** What [await agent.receive_message(timeout)] gives: a message, [None],
    or no return, when [get] waits on an empty queue that nothing fills. *)
Inductive Received :=
| Message (m : AgentMessage.t)
| NoMessage
| Waits.

(** The event loop, as far as [receive_message] meets it: whether the
    timer that [asyncio.wait_for] sets for a delay above zero fires while
    [get] waits on a queue that nothing fills.  It does for every finite
    delay and never for an infinite one. *)
Class EventLoop := {
  timer_fires : float → bool;
  timer_fires_finite (delay : float) :
    PrimFloat.ltb 0%float delay = true → PrimFloat.ltb delay infinity = true →
    timer_fires delay = true;
  timer_fires_infinity : timer_fires infinity = false;
}.

(** [if timeout:] for a float or [None]: zero is false, not-a-number is
    true. *)
Definition truthy_float (timeout : option float) : bool :=
  match timeout with
  | Some f => negb (PrimFloat.eqb f 0%float)
  | None => false
  end.

Definition with_queues (b : AgentMessageBus.t)
    (queues : gmap AgentMessageBus.queue_id (list AgentMessage.t)) : AgentMessageBus.t :=
  {| AgentMessageBus.max_history_size := AgentMessageBus.max_history_size b;
     AgentMessageBus.use_redis := AgentMessageBus.use_redis b;
     AgentMessageBus._message_history := AgentMessageBus._message_history b;
     AgentMessageBus._subscribers := AgentMessageBus._subscribers b;
     AgentMessageBus._role_subscribers := AgentMessageBus._role_subscribers b;
     AgentMessageBus._message_type_subscribers :=
       AgentMessageBus._message_type_subscribers b;
     AgentMessageBus._task_subscribers := AgentMessageBus._task_subscribers b;
     AgentMessageBus._broadcast_subscribers := AgentMessageBus._broadcast_subscribers b;
     AgentMessageBus._message_handlers := AgentMessageBus._message_handlers b;
     AgentMessageBus.messages_sent := AgentMessageBus.messages_sent b;
     AgentMessageBus.messages_received := AgentMessageBus.messages_received b;
     AgentMessageBus.subscribers_count := AgentMessageBus.subscribers_count b;
     AgentMessageBus.queues := queues;
     AgentMessageBus.next_queue := AgentMessageBus.next_queue b |}.

(** [await queue.get()]: the oldest message comes off the queue. *)
Definition queue_get (bus : AgentMessageBus.t) (q : AgentMessageBus.queue_id)
  : option (AgentMessage.t * AgentMessageBus.t) :=
  match default [] (AgentMessageBus.queues bus !! q) with
  | m :: rest => Some (m, with_queues bus (<[q := rest]> (AgentMessageBus.queues bus)))
  | [] => None
  end.

(** [BaseAgent.receive_message].  Without a timeout, or with one that is
    zero, the call is [get] itself, and waits on an empty queue.  For a
    timeout below zero [wait_for] cancels [get] before it runs: the call
    returns [None] and a message that waits stays on the queue.  For
    another timeout [get] takes the message that waits; on an empty queue
    the call returns [None] when the timer fires. *)
Definition receive_message `{EventLoop} (a : BaseAgent.t) (bus : AgentMessageBus.t)
    (timeout : option float) : Received * AgentMessageBus.t :=
  match BaseAgent._message_queue a with
  | None => (NoMessage, bus)
  | Some q =>
      if truthy_float timeout then
        if PrimFloat.leb (default 0%float timeout) 0%float then (NoMessage, bus)
        else
          match queue_get bus q with
          | Some (m, bus') => (Message m, bus')
          | None => (if timer_fires (default 0%float timeout) then NoMessage else Waits, bus)
          end
      else
        match queue_get bus q with
        | Some (m, bus') => (Message m, bus')
        | None => (Waits, bus)
        end
  end.

(** ** The executor and the coordination of one action *)


Module ExecutorAgent.


End ExecutorAgent.


(** ** More of the planner: fallback and dictionaries *)

(** [HybridPlanner.reconcile_with_fallback] *)
Definition reconcile_with_fallback (p : HybridPlanner.t)
    (validation_result : PlanValidationResult.t) (fallback_actions : option (list Action.t))
  : list Action.t :=
  if PlanValidationResult.valid validation_result
     && bool_decide (PlanValidationResult.filtered_actions validation_result ≠ [])
  then PlanValidationResult.filtered_actions validation_result
  else
    match fallback_actions with
    | Some (a :: rest) => a :: rest
    | _ =>
        match HybridPlanner.fallback_actions p with
        | a :: rest => a :: rest
        | [] => []
        end
    end.

Definition SymbolicPredicateType_value (t : SymbolicPredicateType) : string :=
  match t with
  | ELEMENT_EXISTS => "element_exists" | ELEMENT_VISIBLE => "element_visible"
  | ELEMENT_ENABLED => "element_enabled" | URL_PATTERN => "url_pattern"
  | ELEMENT_COUNT => "element_count" | ELEMENT_TEXT_CONTAINS => "element_text_contains"
  | CUSTOM => "custom"
  end.

Definition SymbolicConstraintOperator_value (o : SymbolicConstraintOperator) : string :=
  match o with
  | AND => "and" | OR => "or" | NOT => "not" | IMPLIES => "implies"
  end.

(** What building an object from a dictionary gives: the object, or the
    [ValueError] of an enumeration called on a value it does not have. *)
Inductive Built (A : Type) :=
| Built_ok (a : A)
| ValueError (value : string).
Arguments Built_ok {A} a.
Arguments ValueError {A} value.

Definition built_bind {A B} (x : Built A) (k : A → Built B) : Built B :=
  match x with
  | Built_ok a => k a
  | ValueError v => ValueError v
  end.

(** A list comprehension over a constructor that may raise: the first
    failure is the one raised. *)
Fixpoint build_all {A B} (f : A → Built B) (l : list A) : Built (list B) :=
  match l with
  | [] => Built_ok []
  | x :: rest =>
      built_bind (f x) (λ y, built_bind (build_all f rest) (λ ys, Built_ok (y :: ys)))
  end.

(** [Enum(value)]: the member with that value. *)
Definition first_with_value {A} (value_of : A → string) (members : list A) (value : string)
  : Built A :=
  match List.find (λ m, String.eqb (value_of m) value) members with
  | Some m => Built_ok m
  | None => ValueError value
  end.

Definition SymbolicPredicateType_of_value : string → Built SymbolicPredicateType :=
  first_with_value SymbolicPredicateType_value
    [ELEMENT_EXISTS; ELEMENT_VISIBLE; ELEMENT_ENABLED; URL_PATTERN; ELEMENT_COUNT;
     ELEMENT_TEXT_CONTAINS; CUSTOM].

Definition SymbolicConstraintOperator_of_value : string → Built SymbolicConstraintOperator :=
  first_with_value SymbolicConstraintOperator_value [AND; OR; NOT; IMPLIES].

Definition ActionType_of_value : string → Built ActionType :=
  first_with_value ActionType_value
    [CLICK; INPUT_TEXT; SELECT_OPTION; CHECKBOX; WAIT; TERMINATE; COMPLETE; RELOAD_PAGE].

(** The dictionaries of [to_dict] and [from_dict], by the keys these
    methods write and read: a field is [None] where the key is missing. *)
Module PlannerPredicate_dict.

Record t := {
  predicate_type : option string;
  target : option (option string);
  expected_value : option PyVal;
  operator : option string;
  metadata : option (gmap string PyVal);
}.

Definition to_dict (p : PlannerPredicate.t) : t :=
  {| predicate_type := Some (SymbolicPredicateType_value (PlannerPredicate.predicate_type p));
     target := Some (PlannerPredicate.target p);
     expected_value := Some (PlannerPredicate.expected_value p);
     operator := Some (SymbolicConstraintOperator_value (PlannerPredicate.operator p));
     metadata := Some (PlannerPredicate.metadata p) |}.

Definition from_dict (data : t) : Built PlannerPredicate.t :=
  built_bind (SymbolicPredicateType_of_value (default "element_exists" (predicate_type data)))
    (λ ty,
       built_bind (SymbolicConstraintOperator_of_value (default "and" (operator data)))
         (λ op,
            Built_ok
              {| PlannerPredicate.predicate_type := ty;
                 PlannerPredicate.target := default None (target data);
                 PlannerPredicate.expected_value := default PyNone (expected_value data);
                 PlannerPredicate.operator := op;
                 PlannerPredicate.metadata := default ∅ (metadata data) |})).

End PlannerPredicate_dict.

Module PlannerAffordance_dict.

Record t := {
  action_type : option string;
  element_id : option (option string);
  preconditions : option (list PlannerPredicate_dict.t);
  postconditions : option (list PlannerPredicate_dict.t);
  priority : option Z;
  metadata : option (gmap string PyVal);
}.

Definition to_dict (a : PlannerAffordance.t) : t :=
  {| action_type := Some (ActionType_value (PlannerAffordance.action_type a));
     element_id := Some (PlannerAffordance.element_id a);
     preconditions :=
       Some (PlannerPredicate_dict.to_dict <$> PlannerAffordance.preconditions a);
     postconditions :=
       Some (PlannerPredicate_dict.to_dict <$> PlannerAffordance.postconditions a);
     priority := Some (PlannerAffordance.priority a);
     metadata := Some (PlannerAffordance.metadata a) |}.

(** [data.get("action_type", ActionType.CLICK)]: the default is the member. *)
Definition from_dict (data : t) : Built PlannerAffordance.t :=
  built_bind (match action_type data with
              | Some v => ActionType_of_value v
              | None => Built_ok CLICK
              end)
    (λ ty,
       built_bind (build_all PlannerPredicate_dict.from_dict (default [] (preconditions data)))
         (λ pre,
            built_bind
              (build_all PlannerPredicate_dict.from_dict (default [] (postconditions data)))
              (λ post,
                 Built_ok
                   {| PlannerAffordance.action_type := ty;
                      PlannerAffordance.element_id := default None (element_id data);
                      PlannerAffordance.preconditions := pre;
                      PlannerAffordance.postconditions := post;
                      PlannerAffordance.priority := default 0 (priority data);
                      PlannerAffordance.metadata := default ∅ (metadata data) |}))).

End PlannerAffordance_dict.

Module PlannerGuard_dict.

Record t := {
  name : option string;
  predicates : option (list PlannerPredicate_dict.t);
  action_types_blocked : option (list string);
  message : option (option string);
}.

Definition to_dict (g : PlannerGuard.t) : t :=
  {| name := Some (PlannerGuard.name g);
     predicates := Some (PlannerPredicate_dict.to_dict <$> PlannerGuard.predicates g);
     action_types_blocked := Some (ActionType_value <$> PlannerGuard.action_types_blocked g);
     message := Some (PlannerGuard.message g) |}.

Definition from_dict (data : t) : Built PlannerGuard.t :=
  built_bind (build_all PlannerPredicate_dict.from_dict (default [] (predicates data)))
    (λ preds,
       built_bind (build_all ActionType_of_value (default [] (action_types_blocked data)))
         (λ blocked,
            Built_ok
              {| PlannerGuard.name := default "guard" (name data);
                 PlannerGuard.predicates := preds;
                 PlannerGuard.action_types_blocked := blocked;
                 PlannerGuard.message := default None (message data) |})).

End PlannerGuard_dict.

(** A predicate like [q] of another type. *)
Definition with_type (q : PlannerPredicate.t) (ty : SymbolicPredicateType)
  : PlannerPredicate.t :=
  {| PlannerPredicate.predicate_type := ty;
     PlannerPredicate.target := PlannerPredicate.target q;
     PlannerPredicate.expected_value := PlannerPredicate.expected_value q;
     PlannerPredicate.operator := PlannerPredicate.operator q;
     PlannerPredicate.metadata := PlannerPredicate.metadata q |}.

(** * Vocabulary of the statements *)

(** ** Agents on a shared bus *)

(** A bus and the agents that hold a reference to it. *)
Record World := {
  bus : AgentMessageBus.t;
  agents : list BaseAgent.t;
}.

(** What can happen to the bus: an agent starts or stops, a message is
    published, or another party subscribes or unsubscribes a queue. *)
Inductive Op :=
| StartAgent (i : nat)
| StopAgent (i : nat)
| Publish (m : AgentMessage.t)
| Subscribe (agent_id : option string) (role : option AgentRole)
    (message_type : option MessageType) (task_id : option string) (broadcast : bool)
| Unsubscribe (q : AgentMessageBus.queue_id).

Definition run_op (w : World) (op : Op) : World :=
  match op with
  | StartAgent i =>
      match agents w !! i with
      | Some a =>
          let '(a', b') := BaseAgent.start a (bus w) in
          {| bus := b'; agents := <[i := a']> (agents w) |}
      | None => w
      end
  | StopAgent i =>
      match agents w !! i with
      | Some a =>
          let '(a', b') := BaseAgent.stop a (bus w) in
          {| bus := b'; agents := <[i := a']> (agents w) |}
      | None => w
      end
  | Publish m => {| bus := AgentMessageBus.publish (bus w) m; agents := agents w |}
  | Subscribe agent_id role message_type task_id broadcast =>
      {| bus := (AgentMessageBus.subscribe (bus w) agent_id role message_type task_id
                   broadcast).1;
         agents := agents w |}
  | Unsubscribe q => {| bus := AgentMessageBus.unsubscribe (bus w) q; agents := agents w |}
  end.

(** A new bus and agents as their constructors leave them. *)
Definition new_world (max_history_size : Z) (use_redis : bool)
    (specs : list (string * AgentRole * option string * option string)) : World :=
  {| bus := AgentMessageBus.__init__ max_history_size use_redis;
     agents := (λ s, BaseAgent.__init__ s.1.1.1 s.1.1.2 s.1.2 s.2) <$> specs |}.

Section BusVocabulary.
Import AgentMessageBus.

Definition in_table (q : queue_id) (d : gmap string (list queue_id)) : Prop :=
  ∃ k l, d !! k = Some l ∧ q ∈ l.

Definition tables (b : t) : list (gmap string (list queue_id)) :=
  [_subscribers b; _role_subscribers b; _message_type_subscribers b; _task_subscribers b].

Definition subscribed (q : queue_id) (b : t) : Prop :=
  q ∈ _broadcast_subscribers b ∨ Exists (in_table q) (tables b).

(** The queues a message is addressed to: the broadcast subscribers, and
    the subscribers filed under its recipient id, recipient role, message
    type and task id, an unset or empty id addressing nobody. *)
Definition addressed (b : t) (m : AgentMessage.t) (q : queue_id) : Prop :=
  q ∈ _broadcast_subscribers b
  ∨ (∃ r, AgentMessage.recipient_id m = Some r ∧ r ≠ "" ∧ q ∈ get_list (_subscribers b) r)
  ∨ (∃ r, AgentMessage.recipient_role m = Some r
          ∧ q ∈ get_list (_role_subscribers b) (AgentRole_value r))
  ∨ q ∈ get_list (_message_type_subscribers b)
          (MessageType_value (AgentMessage.message_type m))
  ∨ (∃ k, AgentMessage.task_id m = Some k ∧ k ≠ "" ∧ q ∈ get_list (_task_subscribers b) k).

(** The messages that reach the queue [start] subscribes for an agent:
    those sent to its id, to its role or within its task. *)
Definition addressed_to (a : BaseAgent.t) (m : AgentMessage.t) : bool :=
  truthy_str (Some (BaseAgent.agent_id a))
    && bool_decide (AgentMessage.recipient_id m = Some (BaseAgent.agent_id a))
  || bool_decide (AgentMessage.recipient_role m = Some (BaseAgent.role a))
  || truthy_str (BaseAgent.task_id a)
     && bool_decide (AgentMessage.task_id m = BaseAgent.task_id a).

Definition list_ok (n : queue_id) (l : list queue_id) : Prop :=
  NoDup l ∧ ∀ q, q ∈ l → (q < n)%nat.

Definition table_ok (n : queue_id) (d : gmap string (list queue_id)) : Prop :=
  ∀ k l, d !! k = Some l → list_ok n l.

(** What every bus built by the operations satisfies: the counter is the
    number of subscriptions, no list holds a queue twice, and every queue
    a list holds was handed out earlier. *)
Definition bus_ok (b : t) : Prop :=
  subscribers_count b = _count_subscribers b
  ∧ list_ok (next_queue b) (_broadcast_subscribers b)
  ∧ Forall (table_ok (next_queue b)) (tables b).

Definition agent_ok (b : t) (a : BaseAgent.t) : Prop :=
  match BaseAgent._message_queue a with
  | Some q => (q < next_queue b)%nat ∧ (BaseAgent.active a = false → ¬ subscribed q b)
  | None => BaseAgent.active a = false
  end.

Definition world_ok (w : World) : Prop :=
  bus_ok (bus w) ∧ Forall (agent_ok (bus w)) (agents w).

(** A bound of the filter: its [from_timestamp] or its [to_timestamp]. *)
Definition bound_of (f : MessageFilter.t) (ts : datetime.t) : Prop :=
  MessageFilter.from_timestamp f = Some ts ∨ MessageFilter.to_timestamp f = Some ts.

End BusVocabulary.

(** ** Verdicts and histories of the planner *)

Section PlannerVocabulary.
Context `{PythonRuntime}.
Import HybridPlanner.

Implicit Types (p : HybridPlanner.t) (action : Action.t) (actions : list Action.t).
Implicit Types (page : option ScrapedPage.t) (url : option string).

(** What the loop body gives for an action, a verdict or what a predicate
    raised, and what a verdict adds to the lists of the result. *)
Definition verdict p page url action : Outcome Verdict := (check_action p page url action).1.

Definition is_accepted (v : Outcome Verdict) : bool :=
  match v with Returns (Accepted _) => true | _ => false end.

Definition rejection p page url action : option (Action.t * PyVal) :=
  match verdict p page url action with
  | Returns (Rejected reason) => Some (action, reason)
  | _ => None
  end.

Definition warning_of p page url action : option string :=
  match verdict p page url action with
  | Returns (Accepted w) => w
  | _ => None
  end.


(** What the first of the outcomes that is an exception raises. *)
Fixpoint first_raised {A} (outcomes : list (Outcome A)) : option PyRaised :=
  match outcomes with
  | [] => None
  | Returns _ :: rest => first_raised rest
  | Raises r :: _ => Some r
  end.

(** The guard is active and blocks the type of the action. *)
Definition guard_blocks page url action (g : PlannerGuard.t) : Prop :=
  PlannerGuard.is_active g page url = Returns true
  ∧ PlannerGuard.blocks_action g action = true.

(** The loop over the guards goes past the guard: its predicates are
    evaluated and none raises, and the guard is not active or does not
    block the type of the action. *)
Definition guard_passes page url action (g : PlannerGuard.t) : Prop :=
  PlannerGuard.is_active g page url = Returns false
  ∨ (PlannerGuard.is_active g page url = Returns true
     ∧ PlannerGuard.blocks_action g action = false).

(** The most recent [w] entries of [h] equal the [w] entries before them. *)
Definition repeats {A} (w : nat) (h : list A) : Prop :=
  (2 * w ≤ length h)%nat
  ∧ drop (length h - w) h = take w (drop (length h - 2 * w) h).

(** The history after a call: the last [2 × window] entries of the old
    history extended by the entries of the actions. *)
Definition rolled (window : Z) (h : list (string * ActionType)) (actions : list Action.t)
  : list (string * ActionType) :=
  let appended := h ++ (history_entry <$> actions) in
  drop (length appended - 2 * Z.to_nat window) appended.

End PlannerVocabulary.

(** ** Sample data *)

(** A runtime for the instances: the pattern "(" does not compile, the
    pattern "a{99999999999999999999}" overflows the repetition count, any
    other pattern matches the subjects it is a prefix of; the expression
    "1/0" raises [ZeroDivisionError], an [Exception], and any other is
    true. *)
Definition sample_runtime : PythonRuntime :=
  {| re_match := λ pattern subject,
       if String.eqb pattern "(" then ReError
       else if String.eqb pattern "a{99999999999999999999}"
       then MatchRaised (AnException (OverflowError "the repetition number is too large"))
       else if String.prefix pattern subject then Matched else NotMatched;
     eval := λ source _ _,
       if String.eqb source "1/0" then EvalRaised else Value (PyBool true) |}.

Definition thought (id : string) : AgentMessage.t :=
  {| AgentMessage.message_id := id;
     AgentMessage.timestamp := datetime.utc 0;
     AgentMessage.sender_role := PLANNER;
     AgentMessage.sender_id := "planner-1";
     AgentMessage.recipient_role := None;
     AgentMessage.recipient_id := None;
     AgentMessage.message_type := THOUGHT;
     AgentMessage.content := OtherContent ∅;
     AgentMessage.task_id := None;
     AgentMessage.step_id := None;
     AgentMessage.priority := 0;
     AgentMessage.requires_response := false;
     AgentMessage.in_response_to := None |}.

(** The filter of a query without parameters. *)
Definition no_filter : MessageFilter.t :=
  {| MessageFilter.sender_role := None;
     MessageFilter.recipient_role := None;
     MessageFilter.message_type := None;
     MessageFilter.task_id := None;
     MessageFilter.step_id := None;
     MessageFilter.from_timestamp := None;
     MessageFilter.to_timestamp := None;
     MessageFilter.min_priority := None |}.

(** The filter of a query with a lower bound written without an offset. *)
Definition since_naive_midnight : MessageFilter.t :=
  {| MessageFilter.sender_role := None;
     MessageFilter.recipient_role := None;
     MessageFilter.message_type := None;
     MessageFilter.task_id := None;
     MessageFilter.step_id := None;
     MessageFilter.from_timestamp := Some {| datetime.value := 0; datetime.aware := false |};
     MessageFilter.to_timestamp := None;
     MessageFilter.min_priority := None |}.

(** An event loop whose timers fire when they are due. *)
#[refine, global] Instance sample_loop : EventLoop :=
  {| timer_fires := λ delay,
       (PrimFloat.ltb 0%float delay && PrimFloat.ltb delay infinity)%bool |}.
Proof.
  - intros delay H1 H2. by rewrite H1, H2.
  - reflexivity.
Defined.

Definition sample_clock : Clock :=
  {| uuid4 := "6f1c"; now := 0; format_float := λ _, "0.9" |}.

Definition sample_task : Task.t := {| Task.task_id := "t1" |}.
Definition sample_step : Step.t := {| Step.step_id := "s1" |}.

Definition sample_validator : ValidatorAgent.t :=
  ValidatorAgent.__init__ "validator-t1" sample_task sample_step.

Definition sample_proposal (action_type : string) : ActionProposalMessage.t :=
  {| ActionProposalMessage.action_type := action_type;
     ActionProposalMessage.action_data := ∅;
     ActionProposalMessage.rationale := "Executing action";
     ActionProposalMessage.risk_assessment := "low";
     ActionProposalMessage.confidence := 0x1.ccccccccccccdp-1%float;
     ActionProposalMessage.fallback_actions := [] |}.

Definition proposal_message (action_type : string) : AgentMessage.t :=
  {| AgentMessage.message_id := "proposal-1";
     AgentMessage.timestamp := datetime.utc 0;
     AgentMessage.sender_role := EXECUTOR;
     AgentMessage.sender_id := "executor-t1";
     AgentMessage.recipient_role := Some VALIDATOR;
     AgentMessage.recipient_id := None;
     AgentMessage.message_type := ACTION_PROPOSAL;
     AgentMessage.content := ProposalContent (sample_proposal action_type);
     AgentMessage.task_id := Some "t1";
     AgentMessage.step_id := Some "s1";
     AgentMessage.priority := 8;
     AgentMessage.requires_response := true;
     AgentMessage.in_response_to := None |}.

Definition sample_agent : BaseAgent.t :=
  BaseAgent.__init__ "validator-t1" VALIDATOR (Some "t1") (Some "s1").

Definition click (element : string) : Action.t :=
  {| Action.action_type := CLICK; Action.element_id := Some element;
     Action.reasoning := None |}.

Definition input_text (element : string) : Action.t :=
  {| Action.action_type := INPUT_TEXT; Action.element_id := Some element;
     Action.reasoning := None |}.

Definition element_exists (target : string) : PlannerPredicate.t :=
  {| PlannerPredicate.predicate_type := ELEMENT_EXISTS;
     PlannerPredicate.target := Some target;
     PlannerPredicate.expected_value := PyNone;
     PlannerPredicate.operator := AND;
     PlannerPredicate.metadata := ∅ |}.

(** A guard with no message that is always active and blocks clicks. *)
Definition silent_guard : PlannerGuard.t :=
  {| PlannerGuard.name := "no_click";
     PlannerGuard.predicates := [];
     PlannerGuard.action_types_blocked := [CLICK];
     PlannerGuard.message := None |}.

(** A guard on the text of the button whose expected value is the number
    5, not a string. *)
Definition text_guard : PlannerGuard.t :=
  {| PlannerGuard.name := "on_text";
     PlannerGuard.predicates :=
       [ {| PlannerPredicate.predicate_type := ELEMENT_TEXT_CONTAINS;
            PlannerPredicate.target := Some "btn";
            PlannerPredicate.expected_value := PyInt 5;
            PlannerPredicate.operator := AND;
            PlannerPredicate.metadata := ∅ |} ];
     PlannerGuard.action_types_blocked := [INPUT_TEXT];
     PlannerGuard.message := None |}.


Definition planner_with (guards : list PlannerGuard.t)
    (affordances : list PlannerAffordance.t) (window : Z) : HybridPlanner.t :=
  {| HybridPlanner.predicates := [];
     HybridPlanner.affordances := affordances;
     HybridPlanner.guards := guards;
     HybridPlanner.loop_detection_window := window;
     HybridPlanner.action_history := [];
     HybridPlanner.fallback_actions := [] |}.

Definition click_affordance (priority : Z) (preconditions : list PlannerPredicate.t)
    (metadata : gmap string PyVal) : PlannerAffordance.t :=
  {| PlannerAffordance.action_type := CLICK;
     PlannerAffordance.element_id := Some "btn";
     PlannerAffordance.preconditions := preconditions;
     PlannerAffordance.postconditions := [];
     PlannerAffordance.priority := priority;
     PlannerAffordance.metadata := metadata |}.

Definition sample_page : ScrapedPage.t :=
  {| ScrapedPage.elements :=
       [ {| Element.id := Some "btn"; Element.tagName := Some "button";
            Element.text := Some "Submit"; Element.style := None;
            Element.disabled := PyNone |} ];
     ScrapedPage.url := "https://example.com/form" |}.

(** * Properties *)

(** ** The history of the bus *)

Section History.
Import AgentMessageBus.

Lemma publish_max_history_size b m :
  max_history_size (publish b m) = max_history_size b.
Proof. reflexivity. Qed.

Lemma publish_history b m :
  _message_history (publish b m)
  = store_in_history (max_history_size b) (_message_history b) m.
Proof. reflexivity. Qed.

Lemma foldl_publish_max_history_size msgs b :
  max_history_size (foldl publish b msgs) = max_history_size b.
Proof.
  revert b. induction msgs as [|m msgs IH]; intros b; simpl; [done|].
  by rewrite IH.
Qed.

Lemma tail_is_drop {A} (l : list A) : tail l = drop 1 l.
Proof. by destruct l. Qed.

(** One more message on a history that holds the last [n] of [l]. *)
Lemma store_in_history_drop (N : Z) (l : list AgentMessage.t) (m : AgentMessage.t) :
  0 ≤ N →
  store_in_history N (drop (length l - Z.to_nat N) l) m
  = drop (length (l ++ [m]) - Z.to_nat N) (l ++ [m]).
Proof.
  intros HN. unfold store_in_history.
  rewrite !length_app, length_drop. simpl.
  destruct (decide (Z.to_nat N = 0)%nat) as [Hz|Hnz].
  { rewrite Hz, !Nat.sub_0_r, drop_all, Nat.sub_diag. simpl.
    destruct (Z.gtb_spec (Z.of_nat 1) N); [|lia].
    symmetry. apply drop_ge. rewrite length_app. simpl. lia. }
  destruct (decide (Z.to_nat N ≤ length l)%nat) as [Hle|Hgt].
  - destruct (Z.gtb_spec (Z.of_nat (length l - (length l - Z.to_nat N) + 1)) N); [|lia].
    rewrite tail_is_drop.
    rewrite drop_app_le by (rewrite length_drop; lia).
    rewrite drop_drop.
    rewrite (drop_app_le l [m]) by lia.
    do 2 f_equal. lia.
  - replace (length l - Z.to_nat N)%nat with 0%nat by lia.
    replace (length l + 1 - Z.to_nat N)%nat with 0%nat by lia.
    destruct (Z.gtb_spec (Z.of_nat (length l - 0 + 1)) N); [lia|].
    reflexivity.
Qed.

Lemma foldl_publish_history (N : Z) (use_redis : bool) (msgs : list AgentMessage.t) :
  0 ≤ N →
  _message_history (foldl publish (__init__ N use_redis) msgs)
  = drop (length msgs - Z.to_nat N) msgs.
Proof.
  intros HN. induction msgs as [|m msgs IH] using rev_ind; [done|].
  rewrite foldl_snoc, publish_history, foldl_publish_max_history_size, IH.
  simpl. by apply store_in_history_drop.
Qed.

(** C4.  On a fresh bus of capacity [N], after any sequence of [publish]
    calls, [get_message_history()] has as many entries as the smaller of
    the number of calls and [N], and they are the last that many published
    messages, in the order of publication. *)
Theorem history_holds_last_messages (N : Z) (use_redis : bool) (msgs : list AgentMessage.t) :
  0 ≤ N →
  let bus := foldl publish (__init__ N use_redis) msgs in
  ∃ history,
    get_message_history bus None = Ok history
    ∧ Z.of_nat (length history) = Z.min (Z.of_nat (length msgs)) N
    ∧ history = drop (length msgs - length history) msgs.
Proof.
  intros HN bus. exists (_message_history bus). split; [reflexivity|].
  assert (Hh : _message_history bus = drop (length msgs - Z.to_nat N) msgs)
    by (apply foldl_publish_history; exact HN).
  assert (Hlen : length (_message_history bus) = Nat.min (length msgs) (Z.to_nat N))
    by (rewrite Hh, length_drop; lia).
  split; [lia|].
  rewrite Hh at 1. f_equal. lia.
Qed.

End History.

(** ** Agents on a shared bus *)

Section Lifecycle.
Import AgentMessageBus.

Lemma remove_first_notin q l : q ∉ l → remove_first q l = l.
Proof.
  induction l as [|x l IH]; simpl; [done|].
  intros Hq. apply not_elem_of_cons in Hq as [Hne Hq].
  destruct (decide (x = q)); [congruence|]. by rewrite IH.
Qed.

Lemma remove_first_subseteq q l x : x ∈ remove_first q l → x ∈ l.
Proof.
  induction l as [|y l IH]; simpl; [done|].
  destruct (decide (y = q)).
  - intros. by apply elem_of_cons; right.
  - intros [->|Hx]%elem_of_cons; apply elem_of_cons; auto.
Qed.

Lemma remove_first_NoDup q l : NoDup l → NoDup (remove_first q l) ∧ q ∉ remove_first q l.
Proof.
  induction 1 as [|x l Hx Hl IH]; simpl.
  - split; [constructor|]. apply not_elem_of_nil.
  - destruct (decide (x = q)) as [->|Hne]; [done|].
    destruct IH as [IH1 IH2]. split.
    + constructor; [|done]. intros Hin. by apply Hx, (remove_first_subseteq q).
    + intros [?|?]%elem_of_cons; [congruence|done].
Qed.

Lemma list_ok_remove_first n q l : list_ok n l → list_ok n (remove_first q l).
Proof.
  intros [Hnd Hlt]. split; [by apply remove_first_NoDup|].
  intros x Hx. by apply Hlt, (remove_first_subseteq q).
Qed.

Lemma list_ok_mono n l : list_ok n l → list_ok (S n) l.
Proof. intros [Hnd Hlt]. split; [done|]. intros q Hq. specialize (Hlt q Hq). lia. Qed.

Lemma list_ok_snoc n l : list_ok n l → list_ok (S n) (l ++ [n]).
Proof.
  intros [Hnd Hlt]. split.
  - apply NoDup_app. split_and!; [done| |apply NoDup_singleton].
    intros x Hx ->%list_elem_of_singleton. specialize (Hlt _ Hx). lia.
  - intros q [Hq| ->%list_elem_of_singleton]%elem_of_app; [|lia].
    specialize (Hlt q Hq). lia.
Qed.

Lemma table_ok_mono n d : table_ok n d → table_ok (S n) d.
Proof. intros Hd k l Hk. by apply list_ok_mono, (Hd k). Qed.

Lemma table_ok_append_to n d k : table_ok n d → table_ok (S n) (append_to d k n).
Proof.
  intros Hd k' l. unfold append_to, get_list. rewrite lookup_insert.
  case_decide as Hk.
  - intros [= <-]. apply list_ok_snoc.
    destruct (d !! k) as [l0|] eqn:E; simpl; [by apply (Hd k)|].
    split; [constructor|]. intros q Hq. by apply not_elem_of_nil in Hq.
  - intros Hl. by apply list_ok_mono, (Hd k').
Qed.

Lemma table_ok_remove_first n q d : table_ok n d → table_ok n (remove_first q <$> d).
Proof.
  intros Hd k l. rewrite lookup_fmap.
  destruct (d !! k) as [l0|] eqn:E; simpl; [|done].
  intros [= <-]. by apply list_ok_remove_first, (Hd k).
Qed.

Lemma not_in_table_remove_first n q d : table_ok n d → ¬ in_table q (remove_first q <$> d).
Proof.
  intros Hd (k & l & Hk & Hq). rewrite lookup_fmap in Hk.
  destruct (d !! k) as [l0|] eqn:E; simpl in Hk; [|done].
  injection Hk as <-. destruct (Hd k l0 E) as [Hnd _].
  by apply (remove_first_NoDup q) in Hnd as [_ Hnot].
Qed.

Lemma in_table_remove_first q q' d : in_table q' (remove_first q <$> d) → in_table q' d.
Proof.
  intros (k & l & Hk & Hq). rewrite lookup_fmap in Hk.
  destruct (d !! k) as [l0|] eqn:E; simpl in Hk; [|done].
  injection Hk as <-. exists k, l0. split; [done|]. by apply (remove_first_subseteq q).
Qed.

Lemma remove_first_table_id q d : ¬ in_table q d → remove_first q <$> d = d.
Proof.
  intros Hq. apply map_eq. intros k. rewrite lookup_fmap.
  destruct (d !! k) as [l|] eqn:E; simpl; [|done].
  f_equal. apply remove_first_notin. intros Hin. apply Hq. by exists k, l.
Qed.

Lemma subscribed_tables q b :
  subscribed q b ↔
  q ∈ _broadcast_subscribers b ∨ in_table q (_subscribers b)
  ∨ in_table q (_role_subscribers b) ∨ in_table q (_message_type_subscribers b)
  ∨ in_table q (_task_subscribers b).
Proof.
  unfold subscribed, tables. rewrite !Exists_cons, Exists_nil. tauto.
Qed.

Lemma bus_ok_tables b :
  bus_ok b ↔
  subscribers_count b = _count_subscribers b
  ∧ list_ok (next_queue b) (_broadcast_subscribers b)
  ∧ table_ok (next_queue b) (_subscribers b)
  ∧ table_ok (next_queue b) (_role_subscribers b)
  ∧ table_ok (next_queue b) (_message_type_subscribers b)
  ∧ table_ok (next_queue b) (_task_subscribers b).
Proof.
  unfold bus_ok, tables. rewrite !Forall_cons, Forall_nil. tauto.
Qed.

(** Unsubscribing a queue that no list holds changes nothing. *)
Lemma unsubscribe_not_subscribed b q :
  bus_ok b → ¬ subscribed q b → unsubscribe b q = b.
Proof.
  intros [Hc _] Hs. rewrite subscribed_tables in Hs.
  assert (H0 : remove_first q (_broadcast_subscribers b) = _broadcast_subscribers b)
    by (apply remove_first_notin; tauto).
  assert (H1 : remove_first q <$> _subscribers b = _subscribers b)
    by (apply remove_first_table_id; tauto).
  assert (H2 : remove_first q <$> _role_subscribers b = _role_subscribers b)
    by (apply remove_first_table_id; tauto).
  assert (H3 : remove_first q <$> _message_type_subscribers b = _message_type_subscribers b)
    by (apply remove_first_table_id; tauto).
  assert (H4 : remove_first q <$> _task_subscribers b = _task_subscribers b)
    by (apply remove_first_table_id; tauto).
  unfold unsubscribe, _count_subscribers in *. simpl.
  rewrite H0, H1, H2, H3, H4, <- Hc. by destruct b.
Qed.

Lemma bus_ok_publish b m : bus_ok b → bus_ok (publish b m).
Proof. intros H. apply bus_ok_tables in H. apply bus_ok_tables. exact H. Qed.

Lemma subscribed_publish q b m : subscribed q (publish b m) ↔ subscribed q b.
Proof. by rewrite !subscribed_tables. Qed.

Lemma bus_ok_unsubscribe b q : bus_ok b → bus_ok (unsubscribe b q).
Proof.
  intros H. apply bus_ok_tables in H as (_ & H0 & H1 & H2 & H3 & H4).
  apply bus_ok_tables. unfold unsubscribe. simpl.
  split_and!; [done|by apply list_ok_remove_first|by apply table_ok_remove_first..].
Qed.

Lemma unsubscribe_removes b q : bus_ok b → ¬ subscribed q (unsubscribe b q).
Proof.
  intros H. apply bus_ok_tables in H as (_ & [H0 _] & H1 & H2 & H3 & H4).
  rewrite subscribed_tables. unfold unsubscribe. simpl.
  intros [Hq|[Hq|[Hq|[Hq|Hq]]]].
  - by apply (remove_first_NoDup q) in H0 as [_ Hnot].
  - exact (not_in_table_remove_first _ _ _ H1 Hq).
  - exact (not_in_table_remove_first _ _ _ H2 Hq).
  - exact (not_in_table_remove_first _ _ _ H3 Hq).
  - exact (not_in_table_remove_first _ _ _ H4 Hq).
Qed.

Lemma subscribed_unsubscribe b q q' : subscribed q' (unsubscribe b q) → subscribed q' b.
Proof.
  rewrite !subscribed_tables. unfold unsubscribe. simpl.
  intros [Hq|[Hq|[Hq|[Hq|Hq]]]];
    eauto 6 using remove_first_subseteq, in_table_remove_first.
Qed.

Lemma next_queue_unsubscribe b q : next_queue (unsubscribe b q) = next_queue b.
Proof. reflexivity. Qed.

Lemma next_queue_subscribe b agent_id role message_type task_id broadcast :
  next_queue (subscribe b agent_id role message_type task_id broadcast).1
  = S (next_queue b).
Proof. unfold subscribe. by destruct broadcast. Qed.

Lemma subscribe_queue b agent_id role message_type task_id broadcast :
  (subscribe b agent_id role message_type task_id broadcast).2 = next_queue b.
Proof. reflexivity. Qed.

Lemma bus_ok_subscribe b agent_id role message_type task_id broadcast :
  bus_ok b → bus_ok (subscribe b agent_id role message_type task_id broadcast).1.
Proof.
  intros H. apply bus_ok_tables in H as (_ & H0 & H1 & H2 & H3 & H4).
  apply bus_ok_tables. unfold subscribe.
  destruct broadcast; simpl.
  - split_and!; [done|by apply list_ok_snoc|by apply table_ok_mono..].
  - split_and!; [done|by apply list_ok_mono|..].
    + destruct (truthy_str agent_id); [by apply table_ok_append_to|by apply table_ok_mono].
    + destruct role; [by apply table_ok_append_to|by apply table_ok_mono].
    + destruct message_type; [by apply table_ok_append_to|by apply table_ok_mono].
    + destruct (truthy_str task_id); [by apply table_ok_append_to|by apply table_ok_mono].
Qed.

Lemma in_table_append_to q d k n : in_table q (append_to d k n) → q = n ∨ in_table q d.
Proof.
  intros (k' & l & Hk & Hq). unfold append_to, get_list in Hk.
  rewrite lookup_insert in Hk. case_decide as E.
  - injection Hk as <-. apply elem_of_app in Hq as [Hq| ->%list_elem_of_singleton]; [|by left].
    right. destruct (d !! k) as [l0|] eqn:El; simpl in Hq.
    + by exists k, l0.
    + by apply not_elem_of_nil in Hq.
  - right. by exists k', l.
Qed.

(** A subscription made by [subscribe] is the new queue's, or was there. *)
Lemma subscribed_subscribe b agent_id role message_type task_id broadcast q :
  subscribed q (subscribe b agent_id role message_type task_id broadcast).1 →
  q = next_queue b ∨ subscribed q b.
Proof.
  rewrite !subscribed_tables. unfold subscribe.
  destruct broadcast; simpl.
  - intros [[Hq| ->%list_elem_of_singleton]%elem_of_app|Hq]; tauto.
  - intros [Hq|[Hq|[Hq|[Hq|Hq]]]]; [tauto|..].
    + destruct (truthy_str agent_id); [apply in_table_append_to in Hq|]; tauto.
    + destruct role; [apply in_table_append_to in Hq|]; tauto.
    + destruct message_type; [apply in_table_append_to in Hq|]; tauto.
    + destruct (truthy_str task_id); [apply in_table_append_to in Hq|]; tauto.
Qed.

Lemma in_table_append_to_new d k n : in_table n (append_to d k n).
Proof.
  exists k, (get_list d k ++ [n]). split.
  - unfold append_to. by rewrite lookup_insert_eq.
  - apply elem_of_app. right. by apply list_elem_of_singleton.
Qed.

Lemma in_table_append_to_old q d k n : in_table q d → in_table q (append_to d k n).
Proof.
  intros (k' & l & Hk & Hq). unfold append_to, get_list.
  destruct (decide (k = k')) as [->|Hne].
  - exists k', (default [] (d !! k') ++ [n]). rewrite lookup_insert_eq, Hk. simpl.
    split; [done|]. apply elem_of_app. by left.
  - exists k', l. by rewrite lookup_insert_ne.
Qed.

Lemma subscribed_after_subscribe b agent_id role message_type task_id broadcast q :
  subscribed q b → subscribed q (subscribe b agent_id role message_type task_id broadcast).1.
Proof.
  rewrite !subscribed_tables. unfold subscribe.
  destruct broadcast; simpl.
  - intros [Hq|Hq]; [left; apply elem_of_app|]; tauto.
  - intros [Hq|[Hq|[Hq|[Hq|Hq]]]]; [tauto|..].
    + right; left. destruct (truthy_str agent_id); [by apply in_table_append_to_old|done].
    + right; right; left. destruct role; [by apply in_table_append_to_old|done].
    + right; right; right; left.
      destruct message_type; [by apply in_table_append_to_old|done].
    + right; right; right; right.
      destruct (truthy_str task_id); [by apply in_table_append_to_old|done].
Qed.

(** [start] files the new queue under the agent's role at least. *)
Lemma start_subscribes a b :
  subscribed (next_queue b) (BaseAgent.start a b).2.
Proof.
  unfold BaseAgent.start, subscribe. simpl.
  rewrite subscribed_tables. simpl.
  right; right; left. apply in_table_append_to_new.
Qed.

Lemma agent_ok_publish b m a : agent_ok b a → agent_ok (publish b m) a.
Proof.
  unfold agent_ok. destruct (BaseAgent._message_queue a); [|done].
  intros [Hlt Hs]. split; [done|]. intros Ha. rewrite subscribed_publish. auto.
Qed.

Lemma agent_ok_unsubscribe b q a : agent_ok b a → agent_ok (unsubscribe b q) a.
Proof.
  unfold agent_ok. destruct (BaseAgent._message_queue a); [|done].
  intros [Hlt Hs]. split; [done|]. intros Ha Hsub.
  by apply Hs, (subscribed_unsubscribe b q).
Qed.

Lemma agent_ok_subscribe b agent_id role message_type task_id broadcast a :
  agent_ok b a → agent_ok (subscribe b agent_id role message_type task_id broadcast).1 a.
Proof.
  unfold agent_ok. destruct (BaseAgent._message_queue a) as [q|]; [|done].
  rewrite next_queue_subscribe. intros [Hlt Hs]. split; [lia|].
  intros Ha [->|Hsub]%subscribed_subscribe; [lia|]. by apply Hs.
Qed.

Lemma world_ok_new N r specs : world_ok (new_world N r specs).
Proof.
  split.
  - apply bus_ok_tables. simpl. unfold _count_subscribers, sum_lengths. simpl.
    rewrite !map_fold_empty.
    split_and!; [done| |done..].
    split; [constructor|]. intros q Hq. by apply not_elem_of_nil in Hq.
  - simpl. apply Forall_fmap, Forall_forall. by intros s _.
Qed.

Lemma world_ok_run_op w op : world_ok w → world_ok (run_op w op).
Proof.
  intros [Hb Ha]. destruct op as [i|i|m|aid role ty tid bc|q]; cbn [run_op].
  - destruct (agents w !! i) as [a|] eqn:E; [|done].
    unfold BaseAgent.start.
    destruct (subscribe (bus w) (Some (BaseAgent.agent_id a)) (Some (BaseAgent.role a))
                None (BaseAgent.task_id a) false) as [b' q] eqn:Es.
    assert (Hb' : b' = (subscribe (bus w) (Some (BaseAgent.agent_id a))
                          (Some (BaseAgent.role a)) None (BaseAgent.task_id a) false).1)
      by (by rewrite Es).
    assert (Hq : q = next_queue (bus w))
      by (change q with (b', q).2; rewrite <- Es; apply subscribe_queue).
    split; cbn [bus agents].
    + rewrite Hb'. by apply bus_ok_subscribe.
    + apply Forall_insert.
      * eapply Forall_impl; [exact Ha|]. intros a0 H0. rewrite Hb'.
        by apply agent_ok_subscribe.
      * unfold agent_ok. cbn [BaseAgent._message_queue BaseAgent.active].
        rewrite Hb', next_queue_subscribe, Hq. split; [lia|done].
  - destruct (agents w !! i) as [a|] eqn:E; [|done].
    unfold BaseAgent.stop.
    destruct (BaseAgent._message_queue a) as [q|] eqn:Eq; split; cbn [bus agents].
    + by apply bus_ok_unsubscribe.
    + apply Forall_insert.
      * eapply Forall_impl; [exact Ha|]. intros a0 H0. by apply agent_ok_unsubscribe.
      * unfold agent_ok. cbn [BaseAgent._message_queue BaseAgent.active].
        split.
        -- rewrite Forall_forall in Ha.
           assert (Hin : a ∈ agents w) by (by eapply list_elem_of_lookup_2).
           specialize (Ha a Hin). unfold agent_ok in Ha. rewrite Eq in Ha.
           rewrite next_queue_unsubscribe. tauto.
        -- intros _. by apply unsubscribe_removes.
    + done.
    + apply Forall_insert; [done|]. unfold agent_ok.
      by cbn [BaseAgent._message_queue BaseAgent.active].
  - split; cbn [bus agents]; [by apply bus_ok_publish|].
    eapply Forall_impl; [exact Ha|]. intros a0 H0. by apply agent_ok_publish.
  - split; cbn [bus agents]; [by apply bus_ok_subscribe|].
    eapply Forall_impl; [exact Ha|]. intros a0 H0. by apply agent_ok_subscribe.
  - split; cbn [bus agents]; [by apply bus_ok_unsubscribe|].
    eapply Forall_impl; [exact Ha|]. intros a0 H0. by apply agent_ok_unsubscribe.
Qed.

Lemma world_ok_run ops w : world_ok w → world_ok (foldl run_op w ops).
Proof.
  revert w. induction ops as [|op ops IH]; intros w Hw; simpl; [done|].
  by apply IH, world_ok_run_op.
Qed.

Lemma stop_inactive_agent a b :
  bus_ok b → agent_ok b a → BaseAgent.active a = false → BaseAgent.stop a b = (a, b).
Proof.
  intros Hb Ha Hin. unfold BaseAgent.stop, agent_ok in *.
  assert (Hrec : {| BaseAgent.agent_id := BaseAgent.agent_id a;
                    BaseAgent.role := BaseAgent.role a;
                    BaseAgent.task_id := BaseAgent.task_id a;
                    BaseAgent.step_id := BaseAgent.step_id a;
                    BaseAgent.active := false;
                    BaseAgent._message_queue := BaseAgent._message_queue a |} = a)
    by (destruct a; simpl in *; by subst).
  rewrite Hrec.
  destruct (BaseAgent._message_queue a) as [q|]; [|done].
  destruct Ha as [_ Hs]. by rewrite unsubscribe_not_subscribed by auto.
Qed.

(** C7, as amended.  In every world reached from a new bus and new agents,
    [stop()] on an inactive agent changes neither the agent nor the bus.
    [start()] on an active agent is no such no-op: the agent gets a queue
    that was not its queue before, that queue is subscribed, and the
    earlier queue stays subscribed if it was. *)
Theorem stop_is_idempotent_start_subscribes_again
    (N : Z) (use_redis : bool) (specs : list (string * AgentRole * option string * option string))
    (ops : list Op) (i : nat) (a : BaseAgent.t) :
  let w := foldl run_op (new_world N use_redis specs) ops in
  agents w !! i = Some a →
  (BaseAgent.active a = false → BaseAgent.stop a (bus w) = (a, bus w))
  ∧ (BaseAgent.active a = true →
     ∃ q, BaseAgent._message_queue a = Some q
          ∧ BaseAgent._message_queue (BaseAgent.start a (bus w)).1 = Some (next_queue (bus w))
          ∧ next_queue (bus w) ≠ q
          ∧ subscribed (next_queue (bus w)) (BaseAgent.start a (bus w)).2
          ∧ (subscribed q (bus w) → subscribed q (BaseAgent.start a (bus w)).2)).
Proof.
  intros w Hi.
  destruct (world_ok_run ops _ (world_ok_new N use_redis specs)) as [Hb Ha].
  fold w in Hb, Ha.
  assert (Hok : agent_ok (bus w) a).
  { rewrite Forall_forall in Ha. apply Ha. by eapply list_elem_of_lookup_2. }
  split.
  - by apply stop_inactive_agent.
  - intros Hact. unfold agent_ok in Hok.
    destruct (BaseAgent._message_queue a) as [q|] eqn:Eq; [|congruence].
    exists q. destruct Hok as [Hlt _].
    split_and!; [done|done|lia|apply start_subscribes|].
    intros Hs. unfold BaseAgent.start. cbn [snd].
    change (subscribed q (subscribe (bus w) (Some (BaseAgent.agent_id a))
                            (Some (BaseAgent.role a)) None (BaseAgent.task_id a) false).1).
    by apply subscribed_after_subscribe.
Qed.

End Lifecycle.

(** ** The validator's verdict on a proposal *)

Section Validator.
Import ValidatorAgent.



End Validator.

(** ** The coordinator's view of the history *)

(** C9.  [AgentSwarmCoordinator.get_message_history] passes the keyword
    [task_id] to a method that has no such parameter: the call raises
    [TypeError] on every coordinator and every bus, and returns no list. *)
Theorem coordinator_get_message_history_raises
    (c : AgentSwarmCoordinator.t) (b : AgentMessageBus.t) :
  AgentSwarmCoordinator.get_message_history c b
  = Raise (TypeError
             "AgentMessageBus.get_message_history() got an unexpected keyword argument 'task_id'").
Proof. reflexivity. Qed.

(** ** The planner: verdicts and the lists of a validation result *)

Section Planner.
Context `{PythonRuntime}.
Import HybridPlanner.

Implicit Types (p : HybridPlanner.t) (action : Action.t) (actions : list Action.t).
Implicit Types (page : option ScrapedPage.t) (url : option string).

Lemma first_raised_None {A B} (f : A → Outcome B) (l : list A) :
  first_raised (f <$> l) = None ↔ ∀ a, a ∈ l → ∃ v, f a = Returns v.
Proof.
  induction l as [|x l IH]; cbn.
  - split; [|done]. by intros _ a ?%not_elem_of_nil.
  - destruct (f x) as [v|r] eqn:E.
    + rewrite IH. split.
      * intros Hl a [->|Ha]%elem_of_cons; [eauto|by apply Hl].
      * intros Hl a Ha. by apply Hl, list_elem_of_further.
    + split; [done|]. intros Hl.
      destruct (Hl x (list_elem_of_here _ _)) as [v Hv]. congruence.
Qed.

Lemma first_raised_Some {A B} (f : A → Outcome B) (l : list A) (r : PyRaised) :
  first_raised (f <$> l) = Some r → ∃ a, a ∈ l ∧ f a = Raises r.
Proof.
  induction l as [|x l IH]; cbn; [done|].
  destruct (f x) as [v|r'] eqn:E.
  - intros (a & Ha & Hr)%IH. exists a. by split; [apply list_elem_of_further|].
  - intros [= ->]. exists x. by split; [apply list_elem_of_here|].
Qed.

Lemma first_raised_elem {A B} (f : A → Outcome B) (l : list A) (a : A) (r : PyRaised) :
  a ∈ l → f a = Raises r → ∃ r', first_raised (f <$> l) = Some r'.
Proof.
  intros Ha Hr. destruct (first_raised (f <$> l)) as [r'|] eqn:E; [eauto|].
  destruct (proj1 (first_raised_None f l) E a Ha) as [v Hv]. congruence.
Qed.

Lemma filter_actions_from_spec p page url actions acc :
  filter_actions_from p acc actions page url
  = match first_raised (verdict p page url <$> actions) with
    | Some r => Raises r
    | None =>
        Returns (acc.1.1 ++ List.filter (λ a, is_accepted (verdict p page url a)) actions,
                 acc.1.2 ++ omap (rejection p page url) actions,
                 acc.2 ++ omap (warning_of p page url) actions)
    end.
Proof.
  revert acc. induction actions as [|a actions IH]; intros [[f r] w].
  - cbn. by rewrite !app_nil_r.
  - cbn [filter_actions_from]. rewrite fmap_cons.
    cbn [first_raised List.filter omap list_omap].
    unfold rejection at 1, warning_of at 1.
    change (check_action p page url a).1 with (verdict p page url a).
    destruct (verdict p page url a) as [[[warn|]|reason]|raised];
      cbn [is_accepted record_verdict]; [..|done];
      rewrite IH; destruct (first_raised _); cbn; by rewrite <- ?app_assoc.
Qed.

(** The call raises what the first action whose check raises raises, and
    leaves the planner as it was; otherwise it keeps the accepted actions,
    pairs the rejected ones with their reason and collects the warnings,
    all in input order, and detects loops on the accepted actions. *)
Lemma validate_spec p page url actions task :
  validate_and_filter_actions p actions page url task
  = match first_raised (verdict p page url <$> actions) with
    | Some r => (Raises r, p)
    | None =>
        let accepted := List.filter (λ a, is_accepted (verdict p page url a)) actions in
        let rejected := omap (rejection p page url) actions in
        let warnings :=
          omap (warning_of p page url) actions
          ++ match (_detect_loops p accepted).1 with Some w => [w] | None => [] end in
        (Returns
           {| PlanValidationResult.valid := bool_decide (accepted ≠ []);
              PlanValidationResult.filtered_actions := accepted;
              PlanValidationResult.rejected_actions := rejected;
              PlanValidationResult.warnings := warnings;
              PlanValidationResult.audit_data :=
                {| AuditData.total_actions := Z.of_nat (length actions);
                   AuditData.affordances_checked := Z.of_nat (length (affordances p));
                   AuditData.guards_checked := Z.of_nat (length (guards p));
                   AuditData.task_id := Task.task_id <$> task;
                   AuditData.filtered_actions := Z.of_nat (length accepted);
                   AuditData.rejected_actions := Z.of_nat (length rejected);
                   AuditData.warnings := warnings |} |},
         (_detect_loops p accepted).2)
    end.
Proof.
  unfold validate_and_filter_actions, filter_actions. rewrite filter_actions_from_spec.
  destruct (first_raised _); [done|]. cbn.
  destruct (_detect_loops p _) as [[w|] p']; cbn; [done|by rewrite app_nil_r].
Qed.

(** What a call that returned has returned. *)
Lemma validate_Returns p page url actions task result p' :
  validate_and_filter_actions p actions page url task = (Returns result, p') →
  (∀ a, a ∈ actions → ∃ v, verdict p page url a = Returns v)
  ∧ PlanValidationResult.filtered_actions result
    = List.filter (λ a, is_accepted (verdict p page url a)) actions
  ∧ PlanValidationResult.rejected_actions result = omap (rejection p page url) actions
  ∧ PlanValidationResult.warnings result
    = omap (warning_of p page url) actions
      ++ match (_detect_loops p (PlanValidationResult.filtered_actions result)).1
         with Some w => [w] | None => [] end
  ∧ p' = (_detect_loops p (PlanValidationResult.filtered_actions result)).2
  ∧ PlanValidationResult.valid result
    = bool_decide (PlanValidationResult.filtered_actions result ≠ [])
  ∧ PlanValidationResult.audit_data result
    = {| AuditData.total_actions := Z.of_nat (length actions);
         AuditData.affordances_checked := Z.of_nat (length (affordances p));
         AuditData.guards_checked := Z.of_nat (length (guards p));
         AuditData.task_id := Task.task_id <$> task;
         AuditData.filtered_actions :=
           Z.of_nat (length (PlanValidationResult.filtered_actions result));
         AuditData.rejected_actions :=
           Z.of_nat (length (PlanValidationResult.rejected_actions result));
         AuditData.warnings := PlanValidationResult.warnings result |}.
Proof.
  rewrite validate_spec.
  destruct (first_raised _) as [r|] eqn:E; [done|]. cbv zeta.
  intros [= <- <-]. cbn. split_and!; try done.
  by apply first_raised_None.
Qed.

Lemma validate_Raises p page url actions task r p' :
  validate_and_filter_actions p actions page url task = (Raises r, p') →
  p' = p ∧ ∃ a, a ∈ actions ∧ verdict p page url a = Raises r.
Proof.
  rewrite validate_spec.
  destruct (first_raised _) as [r'|] eqn:E; [|done].
  intros [= <- <-]. split; [done|]. by apply first_raised_Some.
Qed.

Lemma validate_returns p page url actions task :
  (∀ a, a ∈ actions → ∃ v, verdict p page url a = Returns v) →
  ∃ result p', validate_and_filter_actions p actions page url task = (Returns result, p').
Proof.
  intros Hall. rewrite validate_spec.
  rewrite (proj2 (first_raised_None (verdict p page url) actions) Hall). eauto.
Qed.

Lemma validate_raises p page url actions task action r :
  action ∈ actions → verdict p page url action = Raises r →
  ∃ r', validate_and_filter_actions p actions page url task = (Raises r', p).
Proof.
  intros Hin Hr. rewrite validate_spec.
  destruct (first_raised_elem (verdict p page url) actions action r Hin Hr) as [r' ->].
  eauto.
Qed.


Lemma rejected_in_result p page url actions task result p' action reason :
  validate_and_filter_actions p actions page url task = (Returns result, p') →
  action ∈ actions → verdict p page url action = Returns (Rejected reason) →
  (action, reason) ∈ PlanValidationResult.rejected_actions result
  ∧ (action ∉ PlanValidationResult.filtered_actions result)
  ∧ (∀ r, (action, r) ∈ PlanValidationResult.rejected_actions result → r = reason).
Proof.
  intros (_ & -> & -> & _)%validate_Returns Hin Hv. split_and!.
  - apply list_elem_of_omap. exists action. split; [done|].
    unfold rejection. by rewrite Hv.
  - rewrite list_elem_of_In, filter_In. intros [_ Ha]. by rewrite Hv in Ha.
  - intros r (a & _ & Ha)%list_elem_of_omap. unfold rejection in Ha.
    destruct (verdict p page url a) as [[w|reason']|raised] eqn:E; try done.
    injection Ha as -> ->. congruence.
Qed.

Lemma accepted_in_result p page url actions task result p' action warning :
  validate_and_filter_actions p actions page url task = (Returns result, p') →
  action ∈ actions → verdict p page url action = Returns (Accepted warning) →
  action ∈ PlanValidationResult.filtered_actions result
  ∧ (∀ r, (action, r) ∉ PlanValidationResult.rejected_actions result).
Proof.
  intros (_ & -> & -> & _)%validate_Returns Hin Hv. split.
  - rewrite list_elem_of_In, filter_In, <- list_elem_of_In. by rewrite Hv.
  - intros r (a & _ & Ha)%list_elem_of_omap. unfold rejection in Ha.
    destruct (verdict p page url a) as [[w|reason']|raised] eqn:E; try done.
    injection Ha as -> ->. congruence.
Qed.

(** *** Guards *)

Lemma guard_reason_truthy (g : PlannerGuard.t) :
  truthy_str (Some (guard_reason g)) = true.
Proof.
  unfold guard_reason. destruct (truthy_str (PlannerGuard.message g)) eqn:E.
  - destruct (PlannerGuard.message g); simpl in *; [done|discriminate].
  - reflexivity.
Qed.

Lemma guard_reason_spec (g : PlannerGuard.t) :
  guard_reason g
  = match PlannerGuard.message g with
    | Some m => if String.eqb m "" then "Guard '" +:+ PlannerGuard.name g +:+ "' blocked action"
                else m
    | None => "Guard '" +:+ PlannerGuard.name g +:+ "' blocked action"
    end.
Proof.
  unfold guard_reason, truthy_str.
  destruct (PlannerGuard.message g) as [m|]; [|done]. simpl.
  by destruct (String.eqb m "").
Qed.

(** For a guard the loop goes past it, stops at it with a rejection, or is
    left by what its predicates raise. *)
Lemma guard_cases page url action (g : PlannerGuard.t) :
  guard_passes page url action g
  ∨ guard_blocks page url action g
  ∨ ∃ r, PlannerGuard.is_active g page url = Raises r.
Proof.
  unfold guard_passes, guard_blocks.
  destruct (PlannerGuard.is_active g page url) as [[|]|r]; [|by left; left|eauto].
  destruct (PlannerGuard.blocks_action g action); [right; left|left; right]; done.
Qed.

Lemma check_guards_passes g gs action page url :
  guard_passes page url action g →
  check_guards (g :: gs) action page url
  = ((check_guards gs action page url).1,
     (GuardEvaluated g
        <$> PlannerPredicate.evaluated (PlannerGuard.predicates g) page url)
     ++ (check_guards gs action page url).2).
Proof.
  intros [Hg|[Hg Hb]]; cbn [check_guards]; rewrite Hg; [|rewrite Hb]; cbn [andb];
    by destruct (check_guards gs action page url).
Qed.

Lemma check_guards_events gs action page url :
  Forall (λ e, is_affordance_event e = false) (check_guards gs action page url).2.
Proof.
  induction gs as [|g gs IH]; cbn [check_guards]; [constructor|].
  assert (Hg : Forall (λ e, is_affordance_event e = false)
                 (GuardEvaluated g
                    <$> PlannerPredicate.evaluated (PlannerGuard.predicates g) page url))
    by (apply Forall_fmap, Forall_forall; by intros q _).
  destruct (PlannerGuard.is_active g page url) as [active|r]; [|done].
  destruct (active && PlannerGuard.blocks_action g action); [done|].
  destruct (check_guards gs action page url) as [reason later]. cbn in *.
  by apply Forall_app.
Qed.

Lemma check_guards_none gs action page url :
  (∀ g, g ∈ gs → guard_passes page url action g) →
  (check_guards gs action page url).1 = Returns None.
Proof.
  induction gs as [|g gs IH]; intros Hgs; [done|].
  rewrite check_guards_passes by apply Hgs, list_elem_of_here. cbn [fst].
  apply IH. intros g' Hg'. by apply Hgs, list_elem_of_further.
Qed.

(** The loop stops at the first guard that is active and blocks. *)
Lemma check_guards_first before guard after action page url :
  (∀ g, g ∈ before → guard_passes page url action g) →
  guard_blocks page url action guard →
  (check_guards (before ++ guard :: after) action page url).1
  = Returns (Some (guard_reason guard)).
Proof.
  intros Hbefore [Ha Hb]. induction before as [|g before IH]; cbn [app].
  - cbn [check_guards]. by rewrite Ha, Hb.
  - rewrite check_guards_passes by apply Hbefore, list_elem_of_here. cbn [fst].
    apply IH. intros g' Hg'. by apply Hbefore, list_elem_of_further.
Qed.

(** It is left at the first guard whose predicates raise. *)
Lemma check_guards_raises before guard after action page url r :
  (∀ g, g ∈ before → guard_passes page url action g) →
  PlannerGuard.is_active guard page url = Raises r →
  (check_guards (before ++ guard :: after) action page url).1 = Raises r.
Proof.
  intros Hbefore Hr. induction before as [|g before IH]; cbn [app].
  - cbn [check_guards]. by rewrite Hr.
  - rewrite check_guards_passes by apply Hbefore, list_elem_of_here. cbn [fst].
    apply IH. intros g' Hg'. by apply Hbefore, list_elem_of_further.
Qed.

(** Before a guard that is active and blocks, there is a first guard the
    loop does not go past: one that is active and blocks, or one whose
    predicates raise. *)
Lemma first_decisive_guard gs action page url g0 :
  g0 ∈ gs → guard_blocks page url action g0 →
  ∃ before guard after,
    gs = before ++ guard :: after
    ∧ (∀ g, g ∈ before → guard_passes page url action g)
    ∧ (guard_blocks page url action guard
       ∨ ∃ r, PlannerGuard.is_active guard page url = Raises r).
Proof.
  induction gs as [|g gs IH]; intros Hin Hg0; [by apply elem_of_nil in Hin|].
  destruct (guard_cases page url action g) as [Hp|Hd].
  - apply elem_of_cons in Hin as [->|Hin].
    { exfalso. destruct Hg0 as [Ha Hb], Hp as [Hp|[_ Hp]]; congruence. }
    destruct (IH Hin Hg0) as (before & guard & after & -> & Hb & Hg).
    exists (g :: before), guard, after. split_and!; [done| |done].
    intros g' [->|Hg']%elem_of_cons; auto.
  - exists [], g, gs. split_and!; [done| |done]. intros g' Hg'. by apply elem_of_nil in Hg'.
Qed.

(** What the loop over the guards gives, read back. *)
Lemma check_guards_spec gs action page url :
  match (check_guards gs action page url).1 with
  | Returns (Some reason) =>
      ∃ g, g ∈ gs ∧ guard_blocks page url action g ∧ reason = guard_reason g
  | Returns None => ∀ g, g ∈ gs → guard_passes page url action g
  | Raises r => ∃ g, g ∈ gs ∧ PlannerGuard.is_active g page url = Raises r
  end.
Proof.
  induction gs as [|g gs IH]; [cbn; by intros g ?%not_elem_of_nil|].
  destruct (guard_cases page url action g) as [Hp|[Hb|[r Hr]]].
  - rewrite check_guards_passes by done. cbn [fst].
    destruct (check_guards gs action page url).1 as [[reason|]|r].
    + destruct IH as (g' & Hg' & Hb & ->). exists g'.
      by split_and!; [apply list_elem_of_further| |].
    + intros g' [->|Hg']%elem_of_cons; [done|by apply IH].
    + destruct IH as (g' & Hg' & Hr). exists g'. by split; [apply list_elem_of_further|].
  - rewrite (check_guards_first [] g gs) by (done || by intros g' ?%not_elem_of_nil).
    exists g. by split_and!; [apply list_elem_of_here| |].
  - rewrite (check_guards_raises [] g gs _ _ _ r) by (done || by intros g' ?%not_elem_of_nil).
    exists g. by split; [apply list_elem_of_here|].
Qed.

Lemma check_action_guarded p page url action guard :
  (check_guards (guards p) action page url).1 = Returns (Some (guard_reason guard)) →
  check_action p page url action
  = (Returns (Rejected (PyStr (guard_reason guard))),
     (check_guards (guards p) action page url).2).
Proof.
  unfold check_action.
  destruct (check_guards (guards p) action page url) as [r events]. cbn [fst snd].
  intros ->. by rewrite guard_reason_truthy.
Qed.

Lemma check_action_guard_raises p page url action r :
  (check_guards (guards p) action page url).1 = Raises r →
  check_action p page url action = (Raises r, (check_guards (guards p) action page url).2).
Proof.
  unfold check_action.
  destruct (check_guards (guards p) action page url) as [g events]. cbn [fst snd].
  by intros ->.
Qed.

(** C1, as amended.  When some registered guard is active and blocks the
    type of an action, the loop over the guards ends at the first guard,
    in registration order, that is active and blocks or whose predicates
    raise.  In the first case the action is rejected with the reason of
    that guard, which is its message when the message is set and not
    empty, and the text "Guard '<name>' blocked action" otherwise; in a
    call that returns, the action is among the rejected ones with this
    reason and no other, and not among the accepted ones.  In the second
    case the exception leaves the call, which rejects nothing and leaves
    the planner as it was.  In both, no affordance predicate is evaluated
    for the action. *)
Theorem active_blocking_guard_rejects p actions page url task action (g0 : PlannerGuard.t) :
  action ∈ actions →
  g0 ∈ guards p →
  PlannerGuard.is_active g0 page url = Returns true →
  PlannerGuard.blocks_action g0 action = true →
  ∃ before guard after,
    guards p = before ++ guard :: after
    ∧ (∀ g, g ∈ before → guard_passes page url action g)
    ∧ ((PlannerGuard.is_active guard page url = Returns true
        ∧ PlannerGuard.blocks_action guard action = true
        ∧ (check_action p page url action).1
          = Returns (Rejected (PyStr (guard_reason guard)))
        ∧ guard_reason guard
          = match PlannerGuard.message guard with
            | Some m => if String.eqb m ""
                        then "Guard '" +:+ PlannerGuard.name guard +:+ "' blocked action"
                        else m
            | None => "Guard '" +:+ PlannerGuard.name guard +:+ "' blocked action"
            end
        ∧ ∀ result p',
            validate_and_filter_actions p actions page url task = (Returns result, p') →
            (action, PyStr (guard_reason guard))
              ∈ PlanValidationResult.rejected_actions result
            ∧ (∀ r, (action, r) ∈ PlanValidationResult.rejected_actions result
                    → r = PyStr (guard_reason guard))
            ∧ (action ∉ PlanValidationResult.filtered_actions result))
       ∨ (∃ r, PlannerGuard.is_active guard page url = Raises r
               ∧ (check_action p page url action).1 = Raises r
               ∧ ∃ r', validate_and_filter_actions p actions page url task
                       = (Raises r', p)))
    ∧ Forall (λ e, is_affordance_event e = false) (check_action p page url action).2.
Proof.
  intros Hin Hg0 Hact Hblk.
  destruct (first_decisive_guard (guards p) action page url g0 Hg0)
    as (before & guard & after & Hgs & Hbefore & Hguard); [done|].
  exists before, guard, after. split_and!; [done|done| |].
  - destruct Hguard as [[Ha Hb]|[r Hr]].
    + left.
      assert (Hcheck : check_action p page url action
                       = (Returns (Rejected (PyStr (guard_reason guard))),
                          (check_guards (guards p) action page url).2)).
      { apply check_action_guarded. rewrite Hgs. by apply check_guards_first. }
      split_and!; [done|done|by rewrite Hcheck|apply guard_reason_spec|].
      intros result p' Hret.
      destruct (rejected_in_result p page url actions task result p' action
                  (PyStr (guard_reason guard)) Hret Hin) as (Hrej & Hnot & Honly);
        [unfold verdict; by rewrite Hcheck|done].
    + right. exists r.
      assert (Hcheck : check_action p page url action
                       = (Raises r, (check_guards (guards p) action page url).2)).
      { apply check_action_guard_raises. rewrite Hgs. by apply check_guards_raises. }
      split_and!; [done|by rewrite Hcheck|].
      apply (validate_raises p page url actions task action r Hin).
      unfold verdict. by rewrite Hcheck.
  - unfold check_action.
    pose proof (check_guards_events (guards p) action page url) as Hev.
    pose proof (check_guards_spec (guards p) action page url) as Hspec.
    destruct (check_guards (guards p) action page url) as [[[reason|]|r] events];
      cbn [fst snd] in *; [|exfalso|done].
    + destruct Hspec as (g & _ & _ & ->). by rewrite guard_reason_truthy.
    + destruct (Hspec g0 Hg0) as [Hp|[_ Hp]]; congruence.
Qed.

(** *** Affordances *)

Lemma insert_by_priority_not_nil a l : insert_by_priority a l ≠ [].
Proof. destruct l as [|b l]; simpl; [done|]. by destruct (_ <=? _). Qed.

(** The head of the sorted matches is the first match of greatest
    priority in the list the matches were taken from. *)
Lemma sorted_head_is_first_max (P : PlannerAffordance.t → bool)
    (l : list PlannerAffordance.t) selected rest :
  sort_by_priority (List.filter P l) = selected :: rest →
  ∃ i, l !! i = Some selected
       ∧ P selected = true
       ∧ (∀ j other, l !! j = Some other → P other = true →
            PlannerAffordance.priority other ≤ PlannerAffordance.priority selected)
       ∧ (∀ j other, (j < i)%nat → l !! j = Some other → P other = true →
            PlannerAffordance.priority other < PlannerAffordance.priority selected).
Proof.
  revert selected rest. induction l as [|a l IH]; intros selected rest; simpl; [done|].
  destruct (P a) eqn:Pa; simpl.
  - destruct (sort_by_priority (List.filter P l)) as [|b sorted] eqn:Es; simpl.
    + intros [= <- <-]. exists 0%nat. split_and!; [done|done| |intros; lia].
      intros [|j] other; simpl; [intros [= <-]; lia|].
      intros Hj Ho. exfalso.
      assert (Hin : In other (List.filter P l)).
      { apply filter_In. split; [|done]. apply list_elem_of_In. by eapply list_elem_of_lookup_2. }
      destruct (List.filter P l) as [|c fl]; [done|].
      simpl in Es. by apply insert_by_priority_not_nil in Es.
    + destruct (IH b sorted eq_refl) as (i & Hi & Pb & Hmax & Hfirst).
      destruct (Z.leb_spec (PlannerAffordance.priority b) (PlannerAffordance.priority a)).
      * intros [= <- <-]. exists 0%nat. split_and!; [done|done| |intros; lia].
        intros [|j] other; simpl; [intros [= <-]; lia|].
        intros Hj Ho. specialize (Hmax j other Hj Ho). lia.
      * intros [= <- <-]. exists (S i). split_and!; [done|done| |].
        -- intros [|j] other; simpl; [intros [= <-]; lia|]. apply Hmax.
        -- intros [|j] other Hlt; simpl; [intros [= <-]; lia|].
           apply Hfirst. lia.
  - intros Hs. destruct (IH selected rest Hs) as (i & Hi & Ps & Hmax & Hfirst).
    exists (S i). split_and!; [done|done| |].
    + intros [|j] other; simpl; [intros [= <-]; congruence|]. apply Hmax.
    + intros [|j] other Hlt; simpl; [intros [= <-]; congruence|].
      apply Hfirst. lia.
Qed.

Lemma sort_by_priority_not_nil (l : list PlannerAffordance.t) :
  l ≠ [] → sort_by_priority l ≠ [].
Proof. destruct l; [done|]. intros _. simpl. apply insert_by_priority_not_nil. Qed.






(** *** The reason of an affordance rejection *)

Lemma failure_reason_given (a : PlannerAffordance.t) (v : PyVal) :
  PlannerAffordance.metadata a !! "failure_reason" = Some v → failure_reason a = v.
Proof.
  intros Hv. unfold failure_reason. rewrite Hv. simpl.
  rewrite bool_decide_eq_true_2; [done|]. intros Hm. by rewrite Hm in Hv.
Qed.

Lemma failure_reason_no_metadata (a : PlannerAffordance.t) :
  PlannerAffordance.metadata a = ∅ →
  failure_reason a = PyStr "Affordance preconditions not met".
Proof. intros Hm. unfold failure_reason. by rewrite bool_decide_eq_false_2 by auto. Qed.

(** Where the metadata holds other keys only, no reason is recorded. *)
Lemma failure_reason_other_metadata (a : PlannerAffordance.t) :
  PlannerAffordance.metadata a ≠ ∅ →
  PlannerAffordance.metadata a !! "failure_reason" = None →
  failure_reason a = PyNone.
Proof.
  intros Hm Hk. unfold failure_reason. rewrite Hk. by rewrite bool_decide_eq_true_2.
Qed.

(** *** Predicates that cannot be evaluated *)


(** *** Loop detection *)

Lemma py_slice_last {A} (l : list A) (k : Z) :
  0 < k → py_slice l (Some (- k)) None = drop (length l - Z.to_nat k) l.
Proof.
  intros Hk. unfold py_slice, slice_index.
  destruct (Z.ltb_spec (- k) 0); [|lia].
  replace (Z.to_nat (Z.min (Z.of_nat (length l)) (Z.max 0 (- k + Z.of_nat (length l)))))
    with (length l - Z.to_nat k)%nat by lia.
  apply take_ge. rewrite length_drop. lia.
Qed.

Lemma py_slice_previous {A} (l : list A) (w : Z) :
  0 < w → 2 * w ≤ Z.of_nat (length l) →
  py_slice l (Some (- w * 2)) (Some (- w))
  = take (Z.to_nat w) (drop (length l - 2 * Z.to_nat w) l).
Proof.
  intros Hw Hlen. unfold py_slice, slice_index.
  destruct (Z.ltb_spec (- w * 2) 0); [|lia].
  destruct (Z.ltb_spec (- w) 0); [|lia].
  replace (Z.to_nat (Z.min (Z.of_nat (length l)) (Z.max 0 (- w * 2 + Z.of_nat (length l)))))
    with (length l - 2 * Z.to_nat w)%nat by lia.
  replace (Z.to_nat (Z.min (Z.of_nat (length l)) (Z.max 0 (- w + Z.of_nat (length l)))))
    with (length l - Z.to_nat w)%nat by lia.
  f_equal. lia.
Qed.

Lemma detect_loops_history p actions :
  0 < loop_detection_window p →
  (_detect_loops p actions).2
  = with_history p (rolled (loop_detection_window p) (action_history p) actions).
Proof.
  intros Hw. unfold _detect_loops, rolled.
  destruct (Z.leb_spec (loop_detection_window p) 0); [lia|].
  set (appended := action_history p ++ (history_entry <$> actions)).
  assert (Hh : (if Z.of_nat (length appended) >? loop_detection_window p * 2
                then py_slice appended (Some (- (loop_detection_window p * 2))) None
                else appended)
               = drop (length appended - 2 * Z.to_nat (loop_detection_window p)) appended).
  { destruct (Z.gtb_spec (Z.of_nat (length appended)) (loop_detection_window p * 2)).
    - rewrite py_slice_last by lia. f_equal. lia.
    - replace (length appended - 2 * Z.to_nat (loop_detection_window p))%nat with 0%nat by lia.
      done. }
  rewrite Hh.
  destruct (Z.ltb_spec (Z.of_nat (length (drop (length appended
              - 2 * Z.to_nat (loop_detection_window p)) appended)))
              (loop_detection_window p * 2)); [done|].
  by destruct (bool_decide _).
Qed.

Lemma detect_loops_warning p actions :
  0 < loop_detection_window p →
  ((_detect_loops p actions).1 = Some (loop_warning (loop_detection_window p))
   ↔ repeats (Z.to_nat (loop_detection_window p))
             (rolled (loop_detection_window p) (action_history p) actions))
  ∧ ((_detect_loops p actions).1 = None
     ∨ (_detect_loops p actions).1 = Some (loop_warning (loop_detection_window p))).
Proof.
  intros Hw. unfold _detect_loops, rolled, repeats.
  destruct (Z.leb_spec (loop_detection_window p) 0); [lia|].
  set (appended := action_history p ++ (history_entry <$> actions)).
  assert (Hh : (if Z.of_nat (length appended) >? loop_detection_window p * 2
                then py_slice appended (Some (- (loop_detection_window p * 2))) None
                else appended)
               = drop (length appended - 2 * Z.to_nat (loop_detection_window p)) appended).
  { destruct (Z.gtb_spec (Z.of_nat (length appended)) (loop_detection_window p * 2)).
    - rewrite py_slice_last by lia. f_equal. lia.
    - replace (length appended - 2 * Z.to_nat (loop_detection_window p))%nat with 0%nat by lia.
      done. }
  rewrite Hh.
  set (h := drop (length appended - 2 * Z.to_nat (loop_detection_window p)) appended).
  destruct (Z.ltb_spec (Z.of_nat (length h)) (loop_detection_window p * 2)) as [Hlt|Hge].
  - simpl. split; [|by left]. split; [done|]. intros [Hlen _]. lia.
  - rewrite py_slice_last by lia. rewrite py_slice_previous by lia.
    destruct (bool_decide_reflect
                (drop (length h - Z.to_nat (loop_detection_window p)) h
                 = take (Z.to_nat (loop_detection_window p))
                     (drop (length h - 2 * Z.to_nat (loop_detection_window p)) h)))
      as [Heq|Hne]; simpl.
    + split; [|by right]. split; [|done]. intros _. split; [lia|done].
    + split; [|by left]. split; [done|]. intros [_ Heq]. done.
Qed.

Lemma detect_loops_disabled p actions :
  loop_detection_window p ≤ 0 → _detect_loops p actions = (None, p).
Proof.
  intros Hw. unfold _detect_loops.
  by destruct (Z.leb_spec (loop_detection_window p) 0); [|lia].
Qed.


(** A warning of the affordance step is not the loop warning. *)
Lemma warning_of_not_loop_warning p page url action s window :
  warning_of p page url action = Some s → s ≠ loop_warning window.
Proof.
  unfold warning_of, verdict, check_action.
  destruct (check_guards (guards p) action page url) as [[r|raised] events]; [|done].
  destruct (truthy_str r); [done|].
  destruct (affordances p) as [|a0 affs]; [done|].
  destruct (List.filter (affordance_matches action) (a0 :: affs)) as [|m ms].
  - simpl. intros [= <-]. unfold loop_warning. simpl. discriminate.
  - destruct (sort_by_priority (m :: ms)) as [|sel rest]; [done|].
    by destruct (PlannerAffordance.can_execute sel page url) as [[|]|].
Qed.

Lemma loop_warning_in_warnings p page url actions task result p' :
  validate_and_filter_actions p actions page url task = (Returns result, p') →
  loop_warning (loop_detection_window p) ∈ PlanValidationResult.warnings result
  ↔ (_detect_loops p (PlanValidationResult.filtered_actions result)).1
    = Some (loop_warning (loop_detection_window p)).
Proof.
  intros (_ & _ & _ & -> & _)%validate_Returns.
  set (accepted := PlanValidationResult.filtered_actions result).
  rewrite elem_of_app. split.
  - intros [Hin|Hin].
    + apply list_elem_of_omap in Hin as (a & _ & Ha).
      exfalso. exact (warning_of_not_loop_warning _ _ _ _ _ _ Ha eq_refl).
    + destruct (_detect_loops p accepted).1 as [w|]; [|by apply elem_of_nil in Hin].
      apply list_elem_of_singleton in Hin. by subst.
  - intros ->. right. by apply list_elem_of_singleton.
Qed.

Lemma verdict_with_history p h page url action :
  verdict (with_history p h) page url action = verdict p page url action.
Proof. reflexivity. Qed.

(** The verdicts do not read the history: with another history the call
    returns as well, the same accepted and rejected actions. *)
Lemma validate_with_history p h page url actions task result p' :
  validate_and_filter_actions p actions page url task = (Returns result, p') →
  ∃ result_h p_h,
    validate_and_filter_actions (with_history p h) actions page url task
    = (Returns result_h, p_h)
    ∧ PlanValidationResult.filtered_actions result_h
      = PlanValidationResult.filtered_actions result
    ∧ PlanValidationResult.rejected_actions result_h
      = PlanValidationResult.rejected_actions result.
Proof.
  intros (Hall & Hf & Hr & _)%validate_Returns.
  destruct (validate_returns (with_history p h) page url actions task Hall)
    as (result_h & p_h & Hh).
  exists result_h, p_h. split; [done|].
  apply validate_Returns in Hh as (_ & Hfh & Hrh & _). by rewrite Hfh, Hrh, Hf, Hr.
Qed.


Lemma rolled_length window h actions :
  (length (rolled window h actions) ≤ 2 * Z.to_nat window)%nat.
Proof. unfold rolled. rewrite length_drop. lia. Qed.

(** Two calls in a row with as many actions as the window is long leave
    the entries of the first call followed by those of the second. *)
Lemma rolled_replay window h actions actions2 :
  Z.to_nat window = length actions → length actions2 = length actions →
  rolled window (rolled window h actions) actions2
  = (history_entry <$> actions) ++ (history_entry <$> actions2).
Proof.
  intros Hw Hlen. unfold rolled. rewrite Hw.
  set (E := history_entry <$> actions). set (E2 := history_entry <$> actions2).
  assert (HE : length E = length actions) by apply length_fmap.
  assert (HE2 : length E2 = length actions) by (unfold E2; by rewrite length_fmap).
  assert (H1 : drop (length (h ++ E) - 2 * length actions) (h ++ E)
               = drop (length h - length actions) h ++ E).
  { rewrite length_app, HE.
    replace (length h + length actions - 2 * length actions)%nat
      with (length h - length actions)%nat by lia.
    apply drop_app_le. lia. }
  rewrite H1. set (pre := drop (length h - length actions) h).
  rewrite <- app_assoc, !length_app, HE, HE2.
  replace (length pre + (length actions + length actions) - 2 * length actions)%nat
    with (length pre) by lia.
  by rewrite drop_app_length.
Qed.

Lemma repeats_app {A} (n : nat) (E E2 : list A) :
  length E = n → length E2 = n → repeats n (E ++ E2) ↔ E2 = E.
Proof.
  intros <- HE2. unfold repeats. rewrite length_app, HE2.
  replace (length E + length E - length E)%nat with (length E) by lia.
  replace (length E + length E - 2 * length E)%nat with 0%nat by lia.
  rewrite drop_app_length, drop_0, take_app_length.
  split; [tauto|]. intros ->. split; [lia|done].
Qed.


(** C5, as amended.  In a call that returns, with a window greater than 0,
    the entry (element id or "global", action type) of each accepted action
    is appended to the history, of which the last 2 × window entries are
    kept; the loop warning is among the warnings exactly when the history
    then holds 2 × window entries of which the last window equal the window
    before them.  With a window of 0 or less the planner is left as it was
    and no loop warning is given.  The accepted and the rejected actions
    are the same whatever the history holds.  When two calls in a row
    accept all their actions, as many as the window is long, the second
    gives the loop warning exactly when its actions have the entries of the
    first call's.  A call that a predicate leaves with an exception has not
    reached the detection: the planner is as it was. *)
Theorem loop_detection_warns_on_repetition p actions page url task :
  let window := loop_detection_window p in
  (∀ result p',
     validate_and_filter_actions p actions page url task = (Returns result, p') →
     (0 < window →
      action_history p'
      = rolled window (action_history p) (PlanValidationResult.filtered_actions result)
      ∧ (length (action_history p') ≤ 2 * Z.to_nat window)%nat
      ∧ (loop_warning window ∈ PlanValidationResult.warnings result
         ↔ repeats (Z.to_nat window) (action_history p')))
     ∧ (window ≤ 0 →
        p' = p ∧ (loop_warning window ∉ PlanValidationResult.warnings result))
     ∧ (∀ h, ∃ result_h p_h,
          validate_and_filter_actions (with_history p h) actions page url task
          = (Returns result_h, p_h)
          ∧ PlanValidationResult.filtered_actions result_h
            = PlanValidationResult.filtered_actions result
          ∧ PlanValidationResult.rejected_actions result_h
            = PlanValidationResult.rejected_actions result)
     ∧ (∀ actions2 page2 url2 task2 result2 p2,
          0 < window →
          window = Z.of_nat (length actions) →
          length actions2 = length actions →
          PlanValidationResult.filtered_actions result = actions →
          validate_and_filter_actions p' actions2 page2 url2 task2 = (Returns result2, p2) →
          PlanValidationResult.filtered_actions result2 = actions2 →
          (loop_warning window ∈ PlanValidationResult.warnings result2
           ↔ history_entry <$> actions2 = history_entry <$> actions)))
  ∧ (∀ r p',
       validate_and_filter_actions p actions page url task = (Raises r, p') → p' = p).
Proof.
  intros window. subst window. set (window := loop_detection_window p).
  split; [|by intros r p' [-> _]%validate_Raises].
  intros result p' Hret.
  pose proof (validate_Returns _ _ _ _ _ _ _ Hret) as (_ & _ & _ & _ & Hp' & _).
  assert (Hfirst : 0 < window →
            p' = with_history p (rolled window (action_history p)
                                   (PlanValidationResult.filtered_actions result))).
  { intros Hw. rewrite Hp'. by apply detect_loops_history. }
  split_and!.
  - intros Hw. rewrite (Hfirst Hw). cbn [action_history with_history].
    split_and!; [done|apply rolled_length|].
    unfold window. rewrite (loop_warning_in_warnings _ _ _ _ _ _ _ Hret).
    by apply detect_loops_warning.
  - intros Hw. unfold window. split.
    + rewrite Hp'. by rewrite detect_loops_disabled.
    + rewrite (loop_warning_in_warnings _ _ _ _ _ _ _ Hret). by rewrite detect_loops_disabled.
  - intros h. by apply (validate_with_history p h page url actions task result p').
  - intros actions2 page2 url2 task2 result2 p2 Hw Hlen Hlen2 Hacc Hret2 Hacc2.
    assert (Hwin : loop_detection_window p' = window) by (by rewrite (Hfirst Hw)).
    rewrite <- Hwin at 1. rewrite (loop_warning_in_warnings _ _ _ _ _ _ _ Hret2), Hacc2.
    pose proof (detect_loops_warning p' actions2) as [Hiff _]; [rewrite Hwin; lia|].
    rewrite Hiff, Hwin. rewrite (Hfirst Hw) at 1. cbn [action_history with_history].
    rewrite Hacc, rolled_replay by lia.
    apply repeats_app; rewrite length_fmap; lia.
Qed.

(** *** The size of the history *)







End Planner.

(** * Worked instances *)

Section Instances.
#[local] Existing Instance sample_runtime.

Lemma history_holds_last_messages_witness :
  0 ≤ 2
  ∧ AgentMessageBus.get_message_history
      (foldl AgentMessageBus.publish (AgentMessageBus.__init__ 2 false)
         [thought "m1"; thought "m2"; thought "m3"]) None
    = Ok [thought "m2"; thought "m3"].
Proof.
  split; [lia|].
  destruct (history_holds_last_messages 2 false
              [thought "m1"; thought "m2"; thought "m3"])
    as (history & Hget & _ & Hh); [lia|].
  rewrite Hget, Hh. f_equal.
  assert (Hlen : length history = 2%nat) by (cbn in Hget; by injection Hget as <-).
  by rewrite Hlen.
Defined.


(** The same proposal for the action type "TERMINATE" is rejected. *)
Lemma validate_action_rejects_terminate :
  (ValidatorAgent.validate_action sample_validator (AgentMessageBus.__init__ 1000 false)
     sample_clock (proposal_message "TERMINATE")).1
  = Ok (false, ∅).
Proof. reflexivity. Qed.

(** An agent that was started and stopped is stopped once more. *)
Lemma stop_is_idempotent_start_subscribes_again_witness :
  let w := foldl run_op
             (new_world 1000 false [("validator-t1", VALIDATOR, Some "t1", Some "s1")])
             [StartAgent 0; Publish (thought "m1"); StopAgent 0] in
  ∃ a, agents w !! 0%nat = Some a
       ∧ BaseAgent.active a = false
       ∧ BaseAgent._message_queue a = Some 0%nat
       ∧ BaseAgent.stop a (bus w) = (a, bus w).
Proof.
  intros w.
  exists {| BaseAgent.agent_id := "validator-t1"; BaseAgent.role := VALIDATOR;
            BaseAgent.task_id := Some "t1"; BaseAgent.step_id := Some "s1";
            BaseAgent.active := false; BaseAgent._message_queue := Some 0%nat |}.
  split; [reflexivity|]. split; [reflexivity|]. split; [reflexivity|].
  apply (stop_is_idempotent_start_subscribes_again 1000 false
           [("validator-t1", VALIDATOR, Some "t1", Some "s1")]
           [StartAgent 0; Publish (thought "m1"); StopAgent 0] 0%nat);
    reflexivity.
Defined.

(** Starting an agent that is active subscribes it a second time: the
    agent holds another queue and the bus counts six subscriptions where
    it counted three. *)
Lemma start_twice_is_not_a_no_op :
  BaseAgent.active (BaseAgent.start sample_agent (AgentMessageBus.__init__ 1000 false)).1
  = true
  ∧ BaseAgent.start
      (BaseAgent.start sample_agent (AgentMessageBus.__init__ 1000 false)).1
      (BaseAgent.start sample_agent (AgentMessageBus.__init__ 1000 false)).2
    ≠ BaseAgent.start sample_agent (AgentMessageBus.__init__ 1000 false)
  ∧ AgentMessageBus.subscribers_count
      (BaseAgent.start sample_agent (AgentMessageBus.__init__ 1000 false)).2 = 3
  ∧ AgentMessageBus.subscribers_count
      (BaseAgent.start
         (BaseAgent.start sample_agent (AgentMessageBus.__init__ 1000 false)).1
         (BaseAgent.start sample_agent (AgentMessageBus.__init__ 1000 false)).2).2 = 6.
Proof.
  split_and!; [reflexivity| |vm_compute; reflexivity|vm_compute; reflexivity].
  intros Heq. apply (f_equal (λ r, BaseAgent._message_queue r.1)) in Heq.
  vm_compute in Heq. discriminate.
Qed.

(** A guard without a message rejects with the text made from its name:
    the recorded reason is not the guard's message, which is absent. *)
Lemma guard_without_message_rejects_with_generic_reason :
  PlannerGuard.is_active silent_guard None None = Returns true
  ∧ PlannerGuard.blocks_action silent_guard (click "btn") = true
  ∧ PlannerGuard.message silent_guard = None
  ∧ ∃ result p',
      HybridPlanner.validate_and_filter_actions (planner_with [silent_guard] [] 5)
        [click "btn"] None None None
      = (Returns result, p')
      ∧ PlanValidationResult.rejected_actions result
        = [(click "btn", PyStr "Guard 'no_click' blocked action")].
Proof. split_and!; [reflexivity..|]. eexists _, _. split; reflexivity. Qed.

(** A guard registered before an active guard that blocks clicks, and whose
    predicate compares the text of the button with the number 5: the call
    raises [TypeError] and rejects nothing. *)
Lemma earlier_guard_that_raises_leaves_the_call :
  PlannerGuard.is_active silent_guard (Some sample_page) None = Returns true
  ∧ PlannerGuard.blocks_action silent_guard (click "btn") = true
  ∧ HybridPlanner.validate_and_filter_actions
      (planner_with [text_guard; silent_guard] [] 5)
      [click "btn"] (Some sample_page) None None
    = (Raises (AnException
                 (TypeError "'in <string>' requires string as left operand, not int")),
       planner_with [text_guard; silent_guard] [] 5).
Proof. split_and!; reflexivity. Qed.

Lemma active_blocking_guard_rejects_witness :
  click "btn" ∈ [input_text "name"; click "btn"]
  ∧ silent_guard ∈ HybridPlanner.guards
                     (planner_with [silent_guard]
                        [click_affordance 0 [element_exists "btn"] ∅] 5)
  ∧ PlannerGuard.is_active silent_guard (Some sample_page) None = Returns true
  ∧ PlannerGuard.blocks_action silent_guard (click "btn") = true
  ∧ (∃ result p',
       HybridPlanner.validate_and_filter_actions
         (planner_with [silent_guard] [click_affordance 0 [element_exists "btn"] ∅] 5)
         [input_text "name"; click "btn"] (Some sample_page) None None
       = (Returns result, p')
       ∧ (click "btn", PyStr "Guard 'no_click' blocked action")
           ∈ PlanValidationResult.rejected_actions result)
  ∧ Forall (λ e, HybridPlanner.is_affordance_event e = false)
      (HybridPlanner.check_action
         (planner_with [silent_guard] [click_affordance 0 [element_exists "btn"] ∅] 5)
         (Some sample_page) None (click "btn")).2.
Proof.
  assert (Hin : click "btn" ∈ [input_text "name"; click "btn"])
    by (apply list_elem_of_further, list_elem_of_here).
  assert (Hg : silent_guard ∈ HybridPlanner.guards
                 (planner_with [silent_guard]
                    [click_affordance 0 [element_exists "btn"] ∅] 5))
    by apply list_elem_of_here.
  destruct (active_blocking_guard_rejects
              (planner_with [silent_guard] [click_affordance 0 [element_exists "btn"] ∅] 5)
              [input_text "name"; click "btn"] (Some sample_page) None None
              (click "btn") silent_guard Hin Hg eq_refl eq_refl)
    as (before & guard & after & Hgs & _ & Hcases & Hev).
  split_and!; [exact Hin|exact Hg|reflexivity|reflexivity| |exact Hev].
  assert (Hguard : guard = silent_guard).
  { destruct before as [|g0 before]; [|by destruct before]. by injection Hgs as <- _. }
  subst guard. eexists _, _. split; [reflexivity|].
  destruct Hcases as [(_ & _ & _ & _ & Hres)|(r & Hr & _)]; [|discriminate Hr].
  edestruct Hres as [Hrej _]; [reflexivity|exact Hrej].
Defined.


(** C3, at an input where it fails.  The selected affordance has metadata
    that holds no "failure_reason"; its precondition fails, and the action
    is rejected with [None] for a reason. *)
Lemma affordance_rejection_without_reason :
  ∃ result p',
    HybridPlanner.validate_and_filter_actions
      (planner_with [] [click_affordance 0 [element_exists "gone"]
                          {["owner" := PyStr "qa"]}] 5)
      [click "btn"] (Some sample_page) None None
    = (Returns result, p')
    ∧ PlanValidationResult.rejected_actions result = [(click "btn", PyNone)].
Proof. eexists _, _. split; vm_compute; reflexivity. Qed.

(** With a window of 0 an accepted action is not appended and no warning
    is given, though the (empty) last 0 entries equal the 0 before them. *)
Lemma loop_detection_is_off_for_window_zero :
  ∃ result p',
    HybridPlanner.validate_and_filter_actions (planner_with [] [] 0)
      [click "btn"] None None None
    = (Returns result, p')
    ∧ PlanValidationResult.filtered_actions result = [click "btn"]
    ∧ HybridPlanner.action_history p' = []
    ∧ PlanValidationResult.warnings result = []
    ∧ repeats 0 (HybridPlanner.action_history p').
Proof.
  eexists _, _. split; [reflexivity|].
  split_and!; try reflexivity. split; [simpl; lia|reflexivity].
Qed.

(** The same three actions validated twice with a window of 3: the second
    call gives the loop warning. *)
Lemma loop_detection_warns_on_repetition_witness :
  ∃ result p' result2 p2,
    HybridPlanner.validate_and_filter_actions (planner_with [] [] 3)
      [click "btn1"; click "btn2"; input_text "input1"] None None None
    = (Returns result, p')
    ∧ HybridPlanner.validate_and_filter_actions p'
        [click "btn1"; click "btn2"; input_text "input1"] None None None
      = (Returns result2, p2)
    ∧ HybridPlanner.loop_warning 3 ∈ PlanValidationResult.warnings result2.
Proof.
  eexists _, _, _, _. split; [reflexivity|]. split; [reflexivity|].
  destruct (loop_detection_warns_on_repetition (planner_with [] [] 3)
              [click "btn1"; click "btn2"; input_text "input1"] None None None)
    as [Hret _].
  edestruct Hret as (_ & _ & _ & Hreplay); [reflexivity|].
  eapply (Hreplay [click "btn1"; click "btn2"; input_text "input1"] None None None);
    reflexivity.
Defined.

(** A replay that differs in one element gives no loop warning. *)
Lemma loop_detection_silent_on_difference :
  ∃ result p' result2 p2,
    HybridPlanner.validate_and_filter_actions (planner_with [] [] 3)
      [click "btn1"; click "btn2"; input_text "input1"] None None None
    = (Returns result, p')
    ∧ HybridPlanner.validate_and_filter_actions p'
        [click "btn1"; click "btn3"; input_text "input1"] None None None
      = (Returns result2, p2)
    ∧ PlanValidationResult.warnings result2 = [].
Proof. eexists _, _, _, _. split_and!; reflexivity. Qed.


Lemma custom_expression_that_raises_is_false :
  PlannerPredicate.evaluate
    {| PlannerPredicate.predicate_type := CUSTOM;
       PlannerPredicate.target := None;
       PlannerPredicate.expected_value := PyNone;
       PlannerPredicate.operator := AND;
       PlannerPredicate.metadata := {["expression" := PyStr "1/0"]} |}
    (Some sample_page) None
  = Returns false.
Proof. vm_compute. reflexivity. Qed.



End Instances.

(** * Further properties *)

(** ** Delivery *)

Section Delivery.
Import AgentMessageBus.

Lemma deliver_lookup (m : AgentMessage.t) (targets : gset queue_id)
    (qs : gmap queue_id (list AgentMessage.t)) (q : queue_id) :
  (q ∈ targets → deliver m targets qs !! q = Some (default [] (qs !! q) ++ [m]))
  ∧ (q ∉ targets → deliver m targets qs !! q = qs !! q).
Proof.
  unfold deliver. revert q.
  apply (set_fold_ind_L
           (λ (acc : gmap queue_id (list AgentMessage.t)) (X : gset queue_id),
              ∀ q, (q ∈ X → acc !! q = Some (default [] (qs !! q) ++ [m]))
                   ∧ (q ∉ X → acc !! q = qs !! q))).
  - intros q. split; [|done]. intros Hq. by apply not_elem_of_empty in Hq.
  - intros x X acc Hx IH q. destruct (decide (q = x)) as [->|Hne].
    + rewrite lookup_insert_eq. split.
      * intros _. by rewrite (proj2 (IH x) Hx).
      * intros Hq. exfalso. apply Hq, elem_of_union. left. by apply elem_of_singleton.
    + rewrite lookup_insert_ne by done. destruct (IH q) as [IH1 IH2]. split.
      * intros [Hq%elem_of_singleton|Hq]%elem_of_union; [done|by apply IH1].
      * intros Hq. apply IH2. intros HX. apply Hq, elem_of_union. by right.
Qed.

Lemma truthy_str_spec (s : option string) :
  truthy_str s = true ↔ ∃ r, s = Some r ∧ r ≠ "".
Proof.
  destruct s as [r|]; simpl.
  - rewrite negb_true_iff. split.
    + intros Hr. exists r. split; [done|]. intros ->. by rewrite String.eqb_refl in Hr.
    + intros (r' & [= <-] & Hne). by apply String.eqb_neq.
  - split; [done|]. by intros (r & ? & _).
Qed.

Lemma elem_of_keyed (s : gset queue_id) (d : gmap string (list queue_id))
    (o : option string) (q : queue_id) :
  q ∈ (if truthy_str o then s ∪ list_to_set (get_list d (default "" o)) else s)
  ↔ q ∈ s ∨ ∃ r, o = Some r ∧ r ≠ "" ∧ q ∈ get_list d r.
Proof.
  pose proof (truthy_str_spec o) as Ho.
  destruct (truthy_str o).
  - destruct (proj1 Ho eq_refl) as (r & -> & Hr). simpl.
    rewrite elem_of_union, elem_of_list_to_set. split.
    + intros [?|?]; [by left|right; by exists r].
    + intros [?|(r' & [= <-] & _ & ?)]; [by left|by right].
  - split; [by left|]. intros [?|(r & Hr1 & Hr2 & _)]; [done|].
    assert (false = true) by (apply Ho; eauto). discriminate.
Qed.

Lemma elem_of_by_role (s : gset queue_id) (d : gmap string (list queue_id))
    (role : option AgentRole) (q : queue_id) :
  q ∈ match role with
      | Some r => s ∪ list_to_set (get_list d (AgentRole_value r))
      | None => s
      end
  ↔ q ∈ s ∨ ∃ r, role = Some r ∧ q ∈ get_list d (AgentRole_value r).
Proof.
  destruct role as [r|].
  - rewrite elem_of_union, elem_of_list_to_set. split.
    + intros [?|?]; [by left|right; by exists r].
    + intros [?|(r' & [= <-] & ?)]; [by left|by right].
  - split; [by left|]. by intros [?|(r & ? & _)].
Qed.

Lemma queues_to_deliver_spec b m q : q ∈ queues_to_deliver b m ↔ addressed b m q.
Proof.
  unfold queues_to_deliver, addressed.
  rewrite elem_of_keyed, elem_of_union, elem_of_by_role, elem_of_keyed,
    !elem_of_list_to_set.
  tauto.
Qed.

Lemma publish_queue b m q :
  (addressed b m q → queues (publish b m) !! q = Some (default [] (queues b !! q) ++ [m]))
  ∧ (¬ addressed b m q → queues (publish b m) !! q = queues b !! q).
Proof.
  rewrite <- queues_to_deliver_spec. cbn [publish queues]. apply deliver_lookup.
Qed.




Lemma in_get_list_in_table q d k : q ∈ get_list d k → in_table q d.
Proof.
  unfold get_list. destruct (d !! k) as [l|] eqn:E; simpl.
  - intros Hq. by exists k, l.
  - intros Hq. by apply not_elem_of_nil in Hq.
Qed.

Lemma addressed_subscribed b m q : addressed b m q → subscribed q b.
Proof.
  rewrite subscribed_tables.
  intros [?|[(r & _ & _ & Hq)|[(r & _ & Hq)|[Hq|(k & _ & _ & Hq)]]]];
    eauto 6 using in_get_list_in_table.
Qed.

Lemma bus_ok_init N use_redis : bus_ok (__init__ N use_redis).
Proof. exact (proj1 (world_ok_new N use_redis [])). Qed.

Lemma bus_ok_clear_history b : bus_ok b → bus_ok (clear_history b).
Proof. intros Hb. apply bus_ok_tables in Hb. by apply bus_ok_tables. Qed.

Lemma bus_ok_step b op : bus_ok b → bus_ok (bus_step b op).
Proof.
  intros Hb. destruct op; simpl.
  - by apply bus_ok_publish.
  - by apply bus_ok_subscribe.
  - by apply bus_ok_unsubscribe.
  - by apply bus_ok_clear_history.
Qed.

Lemma bus_ok_run ops b : bus_ok b → bus_ok (foldl bus_step b ops).
Proof.
  revert b. induction ops as [|op ops IH]; intros b Hb; simpl; [done|].
  by apply IH, bus_ok_step.
Qed.

(** X3.  On every bus reached from a new one by publishing, subscribing,
    unsubscribing and clearing the history, a queue that is unsubscribed
    receives nothing from a later [publish], whatever the message is
    addressed to. *)
Theorem unsubscribed_queue_receives_nothing (N : Z) (use_redis : bool) (ops : list BusOp)
    (q : queue_id) (m : AgentMessage.t) :
  queues (publish (unsubscribe (foldl bus_step (__init__ N use_redis) ops) q) m) !! q
  = queues (foldl bus_step (__init__ N use_redis) ops) !! q.
Proof.
  set (b := foldl bus_step (__init__ N use_redis) ops).
  assert (Hb : bus_ok b) by apply bus_ok_run, bus_ok_init.
  destruct (publish_queue (unsubscribe b q) m q) as [_ H2].
  rewrite H2; [done|].
  intros Ha%addressed_subscribed. by apply (unsubscribe_removes b q).
Qed.

End Delivery.

(** ** Statistics *)

Section BusStatistics.
Import AgentMessageBus.

Lemma store_in_history_length (N : Z) (h : list AgentMessage.t) (m : AgentMessage.t) :
  0 ≤ N → Z.of_nat (length h) ≤ N → Z.of_nat (length (store_in_history N h m)) ≤ N.
Proof.
  intros HN Hh. unfold store_in_history.
  destruct (Z.gtb_spec (Z.of_nat (length (h ++ [m]))) N) as [Hgt|Hle]; [|done].
  rewrite length_app in Hgt. destruct h as [|x h]; simpl in *; [lia|].
  rewrite length_app. simpl. lia.
Qed.

Lemma bus_step_max_history_size b op : max_history_size (bus_step b op) = max_history_size b.
Proof. destruct op as [m|????[]|q|]; reflexivity. Qed.

Lemma bus_step_messages_received b op :
  messages_received (bus_step b op) = messages_received b.
Proof. destruct op as [m|????[]|q|]; reflexivity. Qed.

Lemma bus_step_messages_sent b op :
  messages_sent (bus_step b op) = messages_sent b + (if is_publish op then 1 else 0).
Proof. destruct op as [m|????[]|q|]; simpl; lia. Qed.

Lemma bus_step_history_length b op :
  0 ≤ max_history_size b →
  Z.of_nat (length (_message_history b)) ≤ max_history_size b →
  Z.of_nat (length (_message_history (bus_step b op))) ≤ max_history_size b.
Proof.
  intros HN Hh. destruct op as [m|????[]|q|]; simpl; try done.
  by apply store_in_history_length.
Qed.

Lemma bus_run_counters (N : Z) (use_redis : bool) (ops : list BusOp) :
  0 ≤ N →
  let b := foldl bus_step (__init__ N use_redis) ops in
  messages_sent b = Z.of_nat (length (List.filter is_publish ops))
  ∧ messages_received b = 0
  ∧ Z.of_nat (length (_message_history b)) ≤ N
  ∧ max_history_size b = N.
Proof.
  intros HN. induction ops as [|op ops IH] using rev_ind; [by simpl|].
  cbv zeta in *. rewrite foldl_snoc. destruct IH as (Hs & Hr & Hh & Hm).
  rewrite bus_step_messages_sent, bus_step_messages_received, bus_step_max_history_size.
  split_and!; try done.
  - rewrite Hs, List.filter_app, length_app. simpl.
    destruct (is_publish op); simpl; lia.
  - pose proof (bus_step_history_length (foldl bus_step (__init__ N use_redis) ops) op)
      as Hstep.
    rewrite Hm in Hstep. by apply Hstep.
Qed.

(** X4.  After any sequence of [publish], [subscribe], [unsubscribe] and
    [clear_history] calls on a new bus of capacity [N], [get_statistics]
    reports as [messages_sent] the number of [publish] calls (clearing the
    history does not reset it), as [subscribers_count] the number of
    subscriptions [_count_subscribers] counts, a [history_size] between 0
    and [N], and [N] itself; [messages_received] is never written and
    stays 0. *)
Theorem get_statistics_after_any_calls (N : Z) (use_redis : bool) (ops : list BusOp) :
  0 ≤ N →
  let b := foldl bus_step (__init__ N use_redis) ops in
  Statistics.messages_sent (get_statistics b) = Z.of_nat (length (List.filter is_publish ops))
  ∧ Statistics.messages_received (get_statistics b) = 0
  ∧ Statistics.subscribers_count (get_statistics b) = _count_subscribers b
  ∧ 0 ≤ Statistics.history_size (get_statistics b) ≤ N
  ∧ Statistics.max_history_size (get_statistics b) = N.
Proof.
  intros HN b. cbn [get_statistics Statistics.messages_sent Statistics.messages_received
    Statistics.subscribers_count Statistics.history_size Statistics.max_history_size].
  assert (Hok : bus_ok b) by apply bus_ok_run, bus_ok_init.
  destruct (bus_run_counters N use_redis ops HN) as (Hs & Hr & Hh & Hm).
  fold b in Hs, Hr, Hh, Hm.
  split_and!; [done|done|apply Hok|lia|done|done].
Qed.

End BusStatistics.

(** ** The routes *)

Section Routes.
Import AgentMessageBus.

Lemma passes_spec {A} `{EqDecision A} (wanted : option A) (actual : A) :
  passes wanted actual = true ↔ ∀ w, wanted = Some w → actual = w.
Proof.
  destruct wanted as [w|]; simpl.
  - rewrite bool_decide_eq_true. split; [by intros -> ? [= <-]|eauto].
  - split; [by intros _ ? [=]|done].
Qed.

Lemma passes_str_spec (wanted actual : option string) :
  passes_str wanted actual = true ↔ ∀ k, wanted = Some k → k ≠ "" → actual = Some k.
Proof.
  unfold passes_str. destruct (truthy_str wanted) eqn:E.
  - apply truthy_str_spec in E as (k & -> & Hk). rewrite bool_decide_eq_true.
    split; [by intros -> ? [= <-] _|eauto].
  - split; [|done]. intros _ k -> Hk.
    assert (truthy_str (Some k) = true) by (apply truthy_str_spec; eauto). congruence.
Qed.

Lemma passes_keys_spec (f : MessageFilter.t) (m : AgentMessage.t) :
  passes_keys f m = true ↔
  (∀ r, MessageFilter.sender_role f = Some r → AgentMessage.sender_role m = r)
  ∧ (∀ r, MessageFilter.recipient_role f = Some r → AgentMessage.recipient_role m = Some r)
  ∧ (∀ ty, MessageFilter.message_type f = Some ty → AgentMessage.message_type m = ty)
  ∧ (∀ k, MessageFilter.task_id f = Some k → k ≠ "" → AgentMessage.task_id m = Some k)
  ∧ (∀ k, MessageFilter.step_id f = Some k → k ≠ "" → AgentMessage.step_id m = Some k).
Proof.
  unfold passes_keys. rewrite !andb_true_iff, !passes_spec, !passes_str_spec.
  assert (Hrec : match MessageFilter.recipient_role f with
                 | Some r => bool_decide (AgentMessage.recipient_role m = Some r)
                 | None => true
                 end = true
                 ↔ ∀ r, MessageFilter.recipient_role f = Some r →
                        AgentMessage.recipient_role m = Some r).
  { destruct (MessageFilter.recipient_role f) as [r|].
    - rewrite bool_decide_eq_true. split; [by intros -> ? [= <-]|eauto].
    - split; [by intros _ ? [=]|done]. }
  rewrite Hrec. tauto.
Qed.

Lemma comparable_spec (a b : datetime.t) :
  datetime.comparable a b = true ↔ datetime.aware a = datetime.aware b.
Proof. unfold datetime.comparable. by destruct (datetime.aware a), (datetime.aware b). Qed.

Lemma matches_filter_true (f : MessageFilter.t) (m : AgentMessage.t) :
  matches_filter f m = Ok true ↔
  passes_keys f m = true
  ∧ (∀ ts, MessageFilter.from_timestamp f = Some ts →
           datetime.aware (AgentMessage.timestamp m) = datetime.aware ts
           ∧ datetime.value ts ≤ datetime.value (AgentMessage.timestamp m))
  ∧ (∀ ts, MessageFilter.to_timestamp f = Some ts →
           datetime.aware (AgentMessage.timestamp m) = datetime.aware ts
           ∧ datetime.value (AgentMessage.timestamp m) ≤ datetime.value ts)
  ∧ (∀ n, MessageFilter.min_priority f = Some n → n ≤ AgentMessage.priority m).
Proof.
  unfold matches_filter, datetime.lt, datetime.gt.
  destruct (passes_keys f m); cbn [negb]; [|split; [done|by intros [? _]]].
  destruct (MessageFilter.from_timestamp f) as [lo|];
    destruct (MessageFilter.to_timestamp f) as [hi|];
    destruct (MessageFilter.min_priority f) as [n|];
    repeat match goal with
           | |- context [datetime.comparable ?a ?b] =>
               let E := fresh "E" in
               destruct (datetime.comparable a b) eqn:E;
               [apply comparable_spec in E
               |apply not_true_iff_false in E; rewrite comparable_spec in E]
           | |- context [?x <? ?y] => destruct (Z.ltb_spec x y)
           | |- context [?x >? ?y] => destruct (Z.gtb_spec x y)
           end; cbn [negb];
    (split;
     [intros [=]
     |intros (_ & Hlo & Hhi & Hn);
      try (destruct (Hlo _ eq_refl)); try (destruct (Hhi _ eq_refl));
      try (pose proof (Hn _ eq_refl))]);
    try done; try lia;
    try (split_and!;
         [done|intros ? [=]; subst; split; (done || lia)..|intros ? [=]; subst; lia]).
Qed.

Lemma matches_filter_raises (f : MessageFilter.t) (m : AgentMessage.t) (e : PyExc) :
  matches_filter f m = Raise e →
  ∃ ts, bound_of f ts ∧ datetime.aware (AgentMessage.timestamp m) ≠ datetime.aware ts.
Proof.
  unfold matches_filter, datetime.lt, datetime.gt, bound_of.
  destruct (passes_keys f m); cbn [negb]; [|done].
  destruct (MessageFilter.from_timestamp f) as [lo|].
  - destruct (datetime.comparable _ lo) eqn:E.
    + destruct (_ <? _); [done|].
      destruct (MessageFilter.to_timestamp f) as [hi|]; [|done].
      destruct (datetime.comparable _ hi) eqn:E'; [by destruct (_ >? _)|].
      intros _. exists hi. split; [by right|].
      apply not_true_iff_false in E'. by rewrite comparable_spec in E'.
    + intros _. exists lo. split; [by left|].
      apply not_true_iff_false in E. by rewrite comparable_spec in E.
  - destruct (MessageFilter.to_timestamp f) as [hi|]; [|done].
    destruct (datetime.comparable _ hi) eqn:E'; [by destruct (_ >? _)|].
    intros _. exists hi. split; [by right|].
    apply not_true_iff_false in E'. by rewrite comparable_spec in E'.
Qed.

Lemma matches_filter_returns (f : MessageFilter.t) (m : AgentMessage.t) :
  (∀ ts, bound_of f ts → datetime.aware (AgentMessage.timestamp m) = datetime.aware ts) →
  ∃ keep, matches_filter f m = Ok keep.
Proof.
  intros Hc. destruct (matches_filter f m) as [keep|e] eqn:E; [eauto|].
  apply matches_filter_raises in E as (ts & Hts & Hne). by apply Hc in Hts.
Qed.

Lemma filter_messages_Ok (f : MessageFilter.t) (history selected : list AgentMessage.t) :
  filter_messages f history = Ok selected →
  sublist selected history
  ∧ (∀ m, m ∈ selected ↔ m ∈ history ∧ matches_filter f m = Ok true)
  ∧ (∀ m, m ∈ history → ∃ keep, matches_filter f m = Ok keep).
Proof.
  revert selected. induction history as [|x l IH]; intros selected; cbn [filter_messages].
  - intros [= <-]. split_and!; [done| |].
    + intros m. split; [by intros ?%not_elem_of_nil|by intros [?%not_elem_of_nil _]].
    + by intros m ?%not_elem_of_nil.
  - destruct (matches_filter f x) as [keep|e] eqn:Ex; [|done].
    destruct (filter_messages f l) as [rest|e]; [|done].
    destruct (IH rest eq_refl) as (Hsub & Hin & Hall).
    intros [= <-]. split_and!.
    + destruct keep; by constructor.
    + intros m. destruct keep.
      * rewrite !elem_of_cons, Hin. split.
        -- intros [->|[? ?]]; [by split; [left|]|by split; [right|]].
        -- intros [[->|?] ?]; [by left|by right].
      * rewrite elem_of_cons, Hin. split.
        -- intros [? ?]. by split; [right|].
        -- intros [[->|?] ?]; [congruence|done].
    + intros m [->|Hm]%elem_of_cons; [eauto|by apply Hall].
Qed.

Lemma filter_messages_Raise (f : MessageFilter.t) (history : list AgentMessage.t)
    (e : PyExc) :
  filter_messages f history = Raise e →
  ∃ m, m ∈ history ∧ matches_filter f m = Raise e.
Proof.
  induction history as [|x l IH]; cbn [filter_messages]; [done|].
  destruct (matches_filter f x) as [keep|e'] eqn:Ex.
  - destruct (filter_messages f l) as [rest|e']; [done|].
    intros [= ->]. destruct (IH eq_refl) as (m & Hm & Hr).
    exists m. by split; [apply list_elem_of_further|].
  - intros [= ->]. exists x. by split; [apply list_elem_of_here|].
Qed.

Lemma filter_messages_returns (f : MessageFilter.t) (history : list AgentMessage.t) :
  (∀ m, m ∈ history → ∃ keep, matches_filter f m = Ok keep) →
  ∃ selected, filter_messages f history = Ok selected.
Proof.
  intros Hall. destruct (filter_messages f history) as [selected|e] eqn:E; [eauto|].
  apply filter_messages_Raise in E as (m & Hm & Hr).
  destruct (Hall m Hm) as [keep Hk]. congruence.
Qed.

(** X5.  [get_task_agent_messages] for a task id that is not empty returns
    the messages of the history that carry this task id and, where given,
    the message type and the sender role, in the order of the history;
    [filtered] is their number and [total] the length of the history.
    The filter it builds has no timestamp, so the scan compares none and
    the route returns. *)
Theorem get_task_agent_messages_selects_the_task (message_bus : t) (task_id : string)
    (message_type : option MessageType) (sender_role : option AgentRole) :
  task_id ≠ "" →
  ∃ response history,
    agent_swarm.get_task_agent_messages message_bus task_id message_type sender_role
    = agent_swarm.Returned response
    ∧ get_message_history message_bus None = Ok history
    ∧ (∀ m, m ∈ agent_swarm.messages response ↔
            m ∈ history
            ∧ AgentMessage.task_id m = Some task_id
            ∧ (∀ ty, message_type = Some ty → AgentMessage.message_type m = ty)
            ∧ (∀ r, sender_role = Some r → AgentMessage.sender_role m = r))
    ∧ sublist (agent_swarm.messages response) history
    ∧ agent_swarm.filtered response = Z.of_nat (length (agent_swarm.messages response))
    ∧ agent_swarm.total response = Z.of_nat (length history)
    ∧ agent_swarm.filtered response ≤ agent_swarm.total response.
Proof.
  intros Hne. unfold agent_swarm.get_task_agent_messages.
  cbn [get_message_history].
  set (f := {| MessageFilter.sender_role := sender_role;
               MessageFilter.recipient_role := None;
               MessageFilter.message_type := message_type;
               MessageFilter.task_id := Some task_id;
               MessageFilter.step_id := None;
               MessageFilter.from_timestamp := None;
               MessageFilter.to_timestamp := None;
               MessageFilter.min_priority := None |}).
  destruct (filter_messages_returns f (_message_history message_bus)) as [selected Hsel].
  { intros m _. apply matches_filter_returns. by intros ts [[=]|[=]]. }
  rewrite Hsel. destruct (filter_messages_Ok _ _ _ Hsel) as (Hsub & Hin & _).
  eexists _, _. split; [reflexivity|]. split; [reflexivity|].
  cbn [agent_swarm.messages agent_swarm.filtered agent_swarm.total].
  split_and!; [|done|done|done|by apply inj_le, sublist_length].
  intros m. rewrite Hin, matches_filter_true, passes_keys_spec. subst f. cbn.
  split.
  - intros (Hm & (Hs & _ & Hty & Htask & _) & _). split_and!; [done|by apply Htask|done|done].
  - intros (Hm & Htask & Hty & Hs). split; [done|].
    split_and!; try done; try (by intros ? [=]). by intros k [= <-] _.
Qed.

(** X6.  [get_agent_messages] with a limit of at least 1.  When the scan
    of the history with the filter returns, the route returns the newest
    [limit] of the messages that match, all of them when they are fewer;
    [filtered] counts every match, returned or not, and [total] the whole
    history.  When the scan raises, as it does on comparing an aware
    timestamp with a naive bound, the exception leaves the route. *)
Theorem get_agent_messages_returns_newest (message_bus : t) (message_filter : MessageFilter.t)
    (limit : Z) :
  1 ≤ limit →
  match get_message_history message_bus (Some message_filter) with
  | Ok matching =>
      ∃ response,
        agent_swarm.get_agent_messages message_bus message_filter limit
        = agent_swarm.Returned response
        ∧ agent_swarm.messages response = drop (length matching - Z.to_nat limit) matching
        ∧ Z.of_nat (length (agent_swarm.messages response))
          = Z.min limit (agent_swarm.filtered response)
        ∧ agent_swarm.filtered response = Z.of_nat (length matching)
        ∧ agent_swarm.total response = Z.of_nat (length (_message_history message_bus))
        ∧ agent_swarm.filtered response ≤ agent_swarm.total response
  | Raise e =>
      agent_swarm.get_agent_messages message_bus message_filter limit = agent_swarm.Failed e
  end.
Proof.
  intros Hl. unfold agent_swarm.get_agent_messages.
  destruct (get_message_history message_bus (Some message_filter)) as [matching|e] eqn:E;
    cbn [get_message_history]; [|done].
  eexists. split; [reflexivity|].
  cbn [agent_swarm.messages agent_swarm.filtered agent_swarm.total].
  destruct (Z.eqb_spec limit 0) as [->|_]; [lia|]. cbn [negb].
  rewrite py_slice_last by lia.
  split_and!; try done.
  - rewrite length_drop. lia.
  - cbn [get_message_history] in E. apply filter_messages_Ok in E as [Hsub _].
    by apply inj_le, sublist_length.
Qed.

(** X7.  What a filter selects.  When [get_message_history(filter)]
    returns, it keeps the order of the history and holds the messages that
    meet every criterion of the filter.  A sender role, recipient role or
    message type that is set must be the message's; a task id or step id
    must be the message's only when it is not empty, the empty string
    selecting like [None]; the timestamps bound the message's on both
    sides, inclusively, and are of its kind, aware or naive;
    [min_priority] counts whenever it is set, 0 too.  The call returns
    when every timestamp of the history is of the kind of the bounds, and
    raises only on a message whose timestamp is of the other kind than a
    bound. *)
Theorem get_message_history_selects_by_filter (b : t) (f : MessageFilter.t) :
  (∀ selected,
     get_message_history b (Some f) = Ok selected →
     sublist selected (_message_history b)
     ∧ ∀ m, m ∈ selected ↔
            m ∈ _message_history b
            ∧ (∀ r, MessageFilter.sender_role f = Some r → AgentMessage.sender_role m = r)
            ∧ (∀ r, MessageFilter.recipient_role f = Some r →
                    AgentMessage.recipient_role m = Some r)
            ∧ (∀ ty, MessageFilter.message_type f = Some ty →
                     AgentMessage.message_type m = ty)
            ∧ (∀ k, MessageFilter.task_id f = Some k → k ≠ "" →
                    AgentMessage.task_id m = Some k)
            ∧ (∀ k, MessageFilter.step_id f = Some k → k ≠ "" →
                    AgentMessage.step_id m = Some k)
            ∧ (∀ ts, MessageFilter.from_timestamp f = Some ts →
                     datetime.aware (AgentMessage.timestamp m) = datetime.aware ts
                     ∧ datetime.value ts ≤ datetime.value (AgentMessage.timestamp m))
            ∧ (∀ ts, MessageFilter.to_timestamp f = Some ts →
                     datetime.aware (AgentMessage.timestamp m) = datetime.aware ts
                     ∧ datetime.value (AgentMessage.timestamp m) ≤ datetime.value ts)
            ∧ (∀ n, MessageFilter.min_priority f = Some n → n ≤ AgentMessage.priority m))
  ∧ ((∀ m ts, m ∈ _message_history b →
              MessageFilter.from_timestamp f = Some ts
              ∨ MessageFilter.to_timestamp f = Some ts →
              datetime.aware (AgentMessage.timestamp m) = datetime.aware ts) →
     ∃ selected, get_message_history b (Some f) = Ok selected)
  ∧ (∀ e, get_message_history b (Some f) = Raise e →
          ∃ m ts, m ∈ _message_history b
                  ∧ (MessageFilter.from_timestamp f = Some ts
                     ∨ MessageFilter.to_timestamp f = Some ts)
                  ∧ datetime.aware (AgentMessage.timestamp m) ≠ datetime.aware ts).
Proof.
  cbn [get_message_history]. split_and!.
  - intros selected Hsel. apply filter_messages_Ok in Hsel as (Hsub & Hin & _).
    split; [done|]. intros m. rewrite Hin, matches_filter_true, passes_keys_spec. tauto.
  - intros Hc. apply filter_messages_returns. intros m Hm.
    apply matches_filter_returns. intros ts Hts. by apply (Hc m ts).
  - intros e (m & Hm & Hr)%filter_messages_Raise.
    apply matches_filter_raises in Hr as (ts & Hts & Hne). by exists m, ts.
Qed.



(** X9.  [clear_history] empties the history and nothing else.  After
    it no message id is found and the message routes return no message and
    a total of 0, while the messages already delivered stay on their
    queues, the subscriptions stay, and [messages_sent] keeps counting
    from where it was. *)
Theorem clear_history_only_empties_the_history (b : t) (message_id : string)
    (message_filter : MessageFilter.t) (limit : Z) (m : AgentMessage.t) :
  let cleared := clear_history b in
  agent_swarm.get_agent_message_by_id cleared message_id
  = agent_swarm.NotFound ("Message with ID " +:+ message_id +:+ " not found")
  ∧ agent_swarm.get_agent_messages cleared message_filter limit
    = agent_swarm.Returned
        {| agent_swarm.messages := []; agent_swarm.total := 0; agent_swarm.filtered := 0 |}
  ∧ queues cleared = queues b
  ∧ (∀ q, subscribed q cleared ↔ subscribed q b)
  ∧ Statistics.subscribers_count (get_statistics cleared)
    = Statistics.subscribers_count (get_statistics b)
  ∧ Statistics.messages_sent (get_statistics (publish cleared m))
    = Statistics.messages_sent (get_statistics b) + 1
  ∧ queues (publish cleared m) = queues (publish b m).
Proof.
  intros cleared. subst cleared. split_and!; try reflexivity.
  unfold agent_swarm.get_agent_messages. cbn.
  destruct (limit =? 0); [done|]. cbn. unfold py_slice. cbn.
  by rewrite drop_nil, take_nil.
Qed.

End Routes.

(** ** Agents and the coordinator *)

Section Agents.
Context {event_loop : EventLoop}.
Import AgentMessageBus.

Lemma sum_lengths_insert_fresh d k l :
  d !! k = None → sum_lengths (<[k:=l]> d) = sum_lengths d + Z.of_nat (length l).
Proof.
  intros Hk. unfold sum_lengths. rewrite map_fold_insert_L; [done| |done].
  intros. lia.
Qed.

Lemma sum_lengths_insert d k l :
  sum_lengths (<[k:=l]> d)
  = sum_lengths d - Z.of_nat (length (get_list d k)) + Z.of_nat (length l).
Proof.
  unfold get_list. destruct (d !! k) as [l0|] eqn:E; simpl.
  - rewrite <- (insert_delete_id d k l0 E) at 2.
    rewrite <- insert_delete_eq.
    rewrite !sum_lengths_insert_fresh by apply lookup_delete_eq. lia.
  - rewrite sum_lengths_insert_fresh by done. lia.
Qed.

Lemma remove_first_snoc q l : q ∉ l → remove_first q (l ++ [q]) = l.
Proof.
  induction l as [|x l IH]; simpl; intros Hq.
  - by rewrite decide_True.
  - rewrite decide_False by (intros ->; apply Hq, list_elem_of_here).
    rewrite IH; [done|]. intros H. by apply Hq, list_elem_of_further.
Qed.

Lemma table_ok_not_in_table n d : table_ok n d → ¬ in_table n d.
Proof. intros Hd (k & l & Hl & Hn). apply (Hd k l Hl) in Hn. lia. Qed.

Lemma table_ok_not_in_get_list n d k : table_ok n d → n ∉ get_list d k.
Proof.
  intros Hd Hn. apply (table_ok_not_in_table n d Hd). by eapply in_get_list_in_table.
Qed.

Lemma remove_first_append_to n d k :
  table_ok n d → remove_first n <$> append_to d k n = <[k := get_list d k]> d.
Proof.
  intros Hd. unfold append_to.
  rewrite fmap_insert, remove_first_snoc by by apply table_ok_not_in_get_list.
  by rewrite remove_first_table_id by by apply table_ok_not_in_table.
Qed.

Lemma get_list_insert_same d k k' : get_list (<[k := get_list d k]> d) k' = get_list d k'.
Proof.
  unfold get_list at 1 3. destruct (decide (k = k')) as [->|Hne].
  - by rewrite lookup_insert_eq.
  - by rewrite lookup_insert_ne.
Qed.

(** What [unsubscribe] leaves of a table to which [subscribe] had, or had
    not, added the new queue. *)
Lemma unsubscribe_subscribe_table n d k (added : bool) :
  table_ok n d →
  let d' := remove_first n <$> (if added then append_to d k n else d) in
  (∀ k', get_list d' k' = get_list d k') ∧ sum_lengths d' = sum_lengths d.
Proof.
  intros Hd. destruct added; cbv zeta.
  - rewrite remove_first_append_to by done. split.
    + apply get_list_insert_same.
    + rewrite sum_lengths_insert. lia.
  - by rewrite remove_first_table_id by by apply table_ok_not_in_table.
Qed.

Lemma sum_lengths_append_to d k n (added : bool) :
  sum_lengths (if added then append_to d k n else d)
  = sum_lengths d + (if added then 1 else 0).
Proof.
  destruct added; [|lia]. unfold append_to.
  rewrite sum_lengths_insert, length_app. simpl. lia.
Qed.

(** X10.  On every bus reached from a new one, an agent that starts and
    then stops leaves the subscriptions as they were: [start] adds one
    subscription for the role and one each for an agent id and a task id
    that are set and not empty, [stop] takes the same number away, every
    subscriber list reads as before (a key [start] created keeps an empty
    list) and the history is untouched. *)
Theorem start_then_stop_restores_subscriptions (N : Z) (use_redis : bool)
    (ops : list BusOp) (a : BaseAgent.t) :
  let b := foldl bus_step (__init__ N use_redis) ops in
  let started := BaseAgent.start a b in
  let stopped := BaseAgent.stop started.1 started.2 in
  BaseAgent.active started.1 = true
  ∧ BaseAgent.active stopped.1 = false
  ∧ subscribers_count started.2
    = subscribers_count b + 1
      + (if truthy_str (Some (BaseAgent.agent_id a)) then 1 else 0)
      + (if truthy_str (BaseAgent.task_id a) then 1 else 0)
  ∧ subscribers_count stopped.2 = subscribers_count b
  ∧ _broadcast_subscribers stopped.2 = _broadcast_subscribers b
  ∧ Forall2 (λ d' d, ∀ k, get_list d' k = get_list d k) (tables stopped.2) (tables b)
  ∧ _message_history stopped.2 = _message_history b.
Proof.
  intros b. assert (Hb : bus_ok b) by apply bus_ok_run, bus_ok_init.
  apply bus_ok_tables in Hb. destruct Hb as (Hc & Hbr & Hs & Hr & Hm & Ht).
  generalize dependent b. intros b Hc Hbr Hs Hr Hm Ht started stopped.
  subst started stopped. unfold BaseAgent.start, BaseAgent.stop, subscribe, unsubscribe.
  cbn -[truthy_str append_to sum_lengths get_list]. unfold _count_subscribers.
  cbn -[truthy_str append_to sum_lengths get_list].
  set (n := next_queue b) in *.
  pose proof (unsubscribe_subscribe_table n (_subscribers b) (BaseAgent.agent_id a)
                (truthy_str (Some (BaseAgent.agent_id a))) Hs) as [Hs1 Hs2].
  pose proof (unsubscribe_subscribe_table n (_role_subscribers b)
                (AgentRole_value (BaseAgent.role a)) true Hr) as [Hr1 Hr2].
  pose proof (unsubscribe_subscribe_table n (_message_type_subscribers b) "" false Hm)
    as [Hm1 Hm2].
  pose proof (unsubscribe_subscribe_table n (_task_subscribers b)
                (default "" (BaseAgent.task_id a)) (truthy_str (BaseAgent.task_id a)) Ht)
    as [Ht1 Ht2].
  assert (Hbr' : remove_first n (_broadcast_subscribers b) = _broadcast_subscribers b).
  { apply remove_first_notin. intros Hn. apply Hbr in Hn. lia. }
  cbv zeta in *. split_and!; try done.
  - rewrite (sum_lengths_append_to _ _ _ (truthy_str (Some (BaseAgent.agent_id a)))).
    rewrite (sum_lengths_append_to _ _ _ (truthy_str (BaseAgent.task_id a))).
    rewrite (sum_lengths_append_to _ _ _ true).
    rewrite Hc. unfold _count_subscribers. lia.
  - rewrite Hbr', Hs2, Hr2, Hm2, Ht2, Hc. reflexivity.
  - unfold tables. cbn -[truthy_str append_to sum_lengths get_list].
    repeat constructor; done.
Qed.


Lemma AgentRole_value_inj r1 r2 : AgentRole_value r1 = AgentRole_value r2 → r1 = r2.
Proof. by destruct r1, r2. Qed.

Lemma elem_of_get_list_append_to n d k k' :
  table_ok n d → n ∈ get_list (append_to d k n) k' ↔ k' = k.
Proof.
  intros Hd. unfold append_to. unfold get_list at 1.
  destruct (decide (k = k')) as [->|Hne].
  - rewrite lookup_insert_eq. simpl. split; [done|]. intros _.
    apply elem_of_app. right. by apply list_elem_of_singleton.
  - rewrite lookup_insert_ne by done. split; [|by intros ->].
    intros Hn. by apply (table_ok_not_in_get_list n d k') in Hn.
Qed.

(** The queue of an agent that has just started is addressed by the
    messages for the agent and by no other. *)
Lemma addressed_after_start a b m :
  bus_ok b →
  addressed (BaseAgent.start a b).2 m (next_queue b) ↔ addressed_to a m = true.
Proof.
  intros Hb. apply bus_ok_tables in Hb. destruct Hb as (_ & Hbr & Hs & Hr & Hm & Ht).
  unfold addressed, addressed_to, BaseAgent.start, subscribe.
  cbn -[truthy_str append_to get_list].
  set (n := next_queue b) in *.
  rewrite !orb_true_iff, !andb_true_iff, !bool_decide_eq_true.
  assert (Hnb : n ∉ _broadcast_subscribers b) by (intros Hn; apply Hbr in Hn; lia).
  assert (Hnm : ∀ k, n ∉ get_list (_message_type_subscribers b) k)
    by (intros k; by apply table_ok_not_in_get_list).
  split.
  - intros [Hx|[(r & Hr1 & Hr2 & Hx)|[(r & Hr1 & Hx)|[Hx|(k & Hk1 & Hk2 & Hx)]]]].
    + done.
    + destruct (truthy_str (Some (BaseAgent.agent_id a))) eqn:E.
      * apply elem_of_get_list_append_to in Hx; [|done]. subst r. left. by left.
      * by apply (table_ok_not_in_get_list n _ r) in Hx.
    + apply elem_of_get_list_append_to in Hx; [|done].
      apply AgentRole_value_inj in Hx. subst r. left. by right.
    + by apply Hnm in Hx.
    + destruct (truthy_str (BaseAgent.task_id a)) eqn:E.
      * apply elem_of_get_list_append_to in Hx; [|done]. subst k. right. split; [done|].
        rewrite Hk1. destruct (BaseAgent.task_id a); [done|discriminate].
      * by apply (table_ok_not_in_get_list n _ k) in Hx.
  - intros [[[Ht1 Hid]|Hrole]|[Ht1 Htask]].
    + right. left. exists (BaseAgent.agent_id a). rewrite Ht1.
      split_and!; [done| |by apply elem_of_get_list_append_to].
      apply truthy_str_spec in Ht1 as (r & [= <-] & Hne). done.
    + right. right. left. exists (BaseAgent.role a).
      split; [done|by apply elem_of_get_list_append_to].
    + do 4 right. rewrite Ht1.
      apply truthy_str_spec in Ht1 as (k & Hk & Hne). exists k.
      split_and!; [congruence|done|].
      rewrite Hk. by apply elem_of_get_list_append_to.
Qed.

Lemma foldl_publish_filter (P : AgentMessage.t → bool) msgs b q
    (held : list AgentMessage.t) :
  (∀ m, addressed b m q ↔ P m = true) →
  queues b !! q = Some held →
  queues (foldl publish b msgs) !! q = Some (held ++ List.filter P msgs).
Proof.
  revert b held. induction msgs as [|m msgs IH]; intros b held HP Hq; simpl.
  - by rewrite app_nil_r.
  - destruct (publish_queue b m q) as [H1 H2].
    destruct (P m) eqn:E.
    + rewrite (IH (publish b m) (held ++ [m])); [by rewrite <- app_assoc|done|].
      rewrite H1 by (by apply HP). by rewrite Hq.
    + apply IH; [done|]. rewrite H2; [done|].
      intros Ha%HP. congruence.
Qed.

(** A timeout above zero is true in [if timeout:] and passes [wait_for]'s
    test [timeout <= 0]. *)
Lemma timeout_above_zero (f : float) :
  PrimFloat.ltb 0%float f = true →
  truthy_float (Some f) = true ∧ PrimFloat.leb f 0%float = false.
Proof.
  unfold truthy_float. rewrite FloatAxioms.ltb_spec, FloatAxioms.leb_spec, FloatAxioms.eqb_spec.
  change (Prim2SF 0%float) with (S754_zero false).
  destruct (Prim2SF f) as [s|s| |s m e]; try destruct s; cbn; intros; by try discriminate.
Qed.

(** X12.  An agent that starts on a bus reached from a new one has on its
    queue, after any messages are published, exactly those sent to its
    id, to its role or within its task, each once and in the order of
    publication.  What [receive_message] then gives depends on the
    timeout.  Without one, or with zero, it takes the oldest message off
    the queue, and does not return while there is none.  With a timeout
    below zero it returns [None] and leaves the queue as it is, also when
    a message waits.  With another timeout it takes the oldest message,
    and on an empty queue returns [None] when the timer fires, as it does
    for every finite timeout above zero. *)
Theorem started_agent_receives_its_messages (N : Z) (use_redis : bool) (ops : list BusOp)
    (a : BaseAgent.t) (msgs : list AgentMessage.t) (timeout : option float) :
  let b := foldl bus_step (__init__ N use_redis) ops in
  let started := BaseAgent.start a b in
  let published := foldl publish started.2 msgs in
  let q := next_queue b in
  let waiting := List.filter (addressed_to a) msgs in
  let taken rest := with_queues published (<[q := rest]> (queues published)) in
  BaseAgent._message_queue started.1 = Some q
  ∧ queues published !! q = Some waiting
  ∧ receive_message started.1 published timeout
    = (if truthy_float timeout
       then if PrimFloat.leb (default 0%float timeout) 0%float
            then (NoMessage, published)
            else match waiting with
                 | m :: rest => (Message m, taken rest)
                 | [] => (if timer_fires (default 0%float timeout) then NoMessage else Waits,
                          published)
                 end
       else match waiting with
            | m :: rest => (Message m, taken rest)
            | [] => (Waits, published)
            end)
  ∧ (∀ f, timeout = Some f →
          PrimFloat.ltb 0%float f = true → PrimFloat.ltb f infinity = true →
          receive_message started.1 published timeout
          = match waiting with
            | m :: rest => (Message m, taken rest)
            | [] => (NoMessage, published)
            end).
Proof.
  intros b started published q waiting taken.
  assert (Hb : bus_ok b) by apply bus_ok_run, bus_ok_init.
  assert (Hq : BaseAgent._message_queue started.1 = Some q) by reflexivity.
  assert (Hheld : queues published !! q = Some waiting).
  { subst published.
    apply (foldl_publish_filter (addressed_to a) msgs started.2 (next_queue b) []).
    - intros m. by apply addressed_after_start.
    - subst started. unfold BaseAgent.start, subscribe. cbn. by rewrite lookup_insert_eq. }
  assert (Hr : receive_message started.1 published timeout
               = (if truthy_float timeout
                  then if PrimFloat.leb (default 0%float timeout) 0%float
                       then (NoMessage, published)
                       else match waiting with
                            | m :: rest => (Message m, taken rest)
                            | [] => (if timer_fires (default 0%float timeout)
                                     then NoMessage else Waits, published)
                            end
                  else match waiting with
                       | m :: rest => (Message m, taken rest)
                       | [] => (Waits, published)
                       end)).
  { unfold receive_message, queue_get. rewrite Hq, Hheld. cbn [default from_option id].
    destruct (truthy_float timeout); [destruct (PrimFloat.leb _ _); [done|]|];
      by destruct waiting. }
  split_and!; [done|done|done|].
  intros f -> Hpos Hfin. rewrite Hr.
  destruct (timeout_above_zero f Hpos) as [Htrue Hle].
  rewrite Htrue. cbn [default from_option id].
  rewrite Hle. destruct waiting; [|done].
  by rewrite (timer_fires_finite f Hpos Hfin).
Qed.

End Agents.

(** ** More of the planner *)

Section PlannerFurther.
Context `{PythonRuntime}.
Import HybridPlanner.

Implicit Types (p : HybridPlanner.t) (action : Action.t) (actions : list Action.t).
Implicit Types (page : option ScrapedPage.t) (url : option string).

Lemma List_filter_sublist {A} (P : A → bool) (l : list A) : sublist (List.filter P l) l.
Proof.
  induction l as [|x l IH]; simpl; [done|].
  destruct (P x); by constructor.
Qed.

(** Where every action has a verdict, the rejected actions are those that
    are not accepted. *)
Lemma rejected_actions_fst p page url actions :
  (∀ a, a ∈ actions → ∃ v, verdict p page url a = Returns v) →
  (omap (rejection p page url) actions).*1
  = List.filter (λ a, negb (is_accepted (verdict p page url a))) actions.
Proof.
  induction actions as [|a actions IH]; intros Hall; [done|].
  cbn [omap list_omap List.filter]. unfold rejection at 1.
  destruct (Hall a (list_elem_of_here _ _)) as [v ->].
  rewrite <- IH by (intros a' Ha'; by apply Hall, list_elem_of_further).
  by destruct v.
Qed.

Lemma List_filter_split_length {A} (P : A → bool) (l : list A) :
  (length (List.filter P l) + length (List.filter (λ a, negb (P a)) l) = length l)%nat.
Proof.
  induction l as [|x l IH]; simpl; [done|].
  destruct (P x); simpl; lia.
Qed.

(** X13.  A call of [validate_and_filter_actions] that returns has split
    the candidate actions in two: [filtered_actions] and the actions of
    [rejected_actions] are each in the order of the input, every candidate
    is in one of them and none in both, and their lengths add up to the
    number of candidates; [valid] holds exactly when some action was
    accepted, and the audit data carries the three counts and the warnings
    of the result.  A call that raises gives no result and leaves the
    planner as it was: what it raises was raised by a predicate evaluated
    for one of the candidates.  The call returns exactly when the check of
    every candidate does. *)
Theorem validation_partitions_the_actions p actions page url task :
  (∀ result p',
     validate_and_filter_actions p actions page url task = (Returns result, p') →
     let accepted := PlanValidationResult.filtered_actions result in
     let rejected := (PlanValidationResult.rejected_actions result).*1 in
     sublist accepted actions
     ∧ sublist rejected actions
     ∧ (length accepted + length rejected = length actions)%nat
     ∧ (∀ action, action ∈ actions ↔ action ∈ accepted ∨ action ∈ rejected)
     ∧ (∀ action, ¬ (action ∈ accepted ∧ action ∈ rejected))
     ∧ (PlanValidationResult.valid result = true ↔ accepted ≠ [])
     ∧ AuditData.total_actions (PlanValidationResult.audit_data result)
       = AuditData.filtered_actions (PlanValidationResult.audit_data result)
         + AuditData.rejected_actions (PlanValidationResult.audit_data result)
     ∧ AuditData.filtered_actions (PlanValidationResult.audit_data result)
       = Z.of_nat (length accepted)
     ∧ AuditData.warnings (PlanValidationResult.audit_data result)
       = PlanValidationResult.warnings result)
  ∧ (∀ r p',
       validate_and_filter_actions p actions page url task = (Raises r, p') →
       p' = p
       ∧ ∃ action, action ∈ actions ∧ (check_action p page url action).1 = Raises r)
  ∧ ((∃ result p',
        validate_and_filter_actions p actions page url task = (Returns result, p'))
     ↔ ∀ action, action ∈ actions → ∃ v, (check_action p page url action).1 = Returns v).
Proof.
  split_and!.
  - intros result p' Hret accepted rejected.
    destruct (validate_Returns _ _ _ _ _ _ _ Hret)
      as (Hall & Ha & Hrej & _ & _ & Hvalid & Haudit).
    fold accepted in Ha, Hvalid, Haudit.
    assert (Hr : rejected
                 = List.filter (λ a, negb (is_accepted (verdict p page url a))) actions).
    { subst rejected. by rewrite Hrej, rejected_actions_fst. }
    assert (Hlen : (length accepted + length rejected = length actions)%nat)
      by (rewrite Ha, Hr; apply List_filter_split_length).
    assert (Hin : ∀ action, action ∈ accepted
                  ↔ action ∈ actions ∧ is_accepted (verdict p page url action) = true).
    { intros action. by rewrite Ha, list_elem_of_In, List.filter_In, <- list_elem_of_In. }
    assert (Hout : ∀ action, action ∈ rejected
                   ↔ action ∈ actions ∧ is_accepted (verdict p page url action) = false).
    { intros action. rewrite Hr, list_elem_of_In, List.filter_In, <- list_elem_of_In.
      by rewrite negb_true_iff. }
    split_and!.
    + rewrite Ha. apply List_filter_sublist.
    + rewrite Hr. apply List_filter_sublist.
    + done.
    + intros action. rewrite Hin, Hout. split.
      * intros Hx. destruct (is_accepted (verdict p page url action)); [left|right]; done.
      * intros [[Hx _]|[Hx _]]; done.
    + intros action. rewrite Hin, Hout. intros [[_ H1] [_ H2]]. congruence.
    + by rewrite Hvalid, bool_decide_eq_true.
    + rewrite Haudit. cbn. fold accepted.
      unfold rejected in Hlen. rewrite length_fmap in Hlen. lia.
    + by rewrite Haudit.
    + by rewrite Haudit.
  - intros r p'. apply validate_Raises.
  - split.
    + intros (result & p' & Hret). by apply validate_Returns in Hret as [Hall _].
    + apply validate_returns.
Qed.


Lemma check_action_unmatched p page url action :
  (∀ g, g ∈ guards p → guard_passes page url action g) →
  affordances p ≠ [] →
  (∀ a, a ∈ affordances p → affordance_matches action a = false) →
  verdict p page url action
  = Returns (Accepted (Some ("No affordance registered for action "
                             +:+ ActionType_value (Action.action_type action)))).
Proof.
  intros Hg Hne Ha. unfold verdict, check_action.
  pose proof (check_guards_none (guards p) action page url Hg) as Hnone.
  destruct (check_guards (guards p) action page url) as [r events]. simpl in Hnone.
  subst r. cbn [truthy_str].
  destruct (affordances p) as [|a0 affs] eqn:E; [done|].
  assert (Hnil : List.filter (affordance_matches action) (a0 :: affs) = []).
  { clear E Hne. induction (a0 :: affs) as [|a l IH]; [done|]. simpl.
    rewrite (Ha a) by apply list_elem_of_here.
    apply IH. intros a' Ha'. by apply Ha, list_elem_of_further. }
  by rewrite Hnil.
Qed.


(** X15.  When affordances are registered but none matches an action that
    the loop over the guards lets through (the predicates of every guard
    evaluate without raising, and no guard is active and blocks the type of
    the action), the action is accepted all the same, with the warning
    "No affordance registered for action <type>": that is the verdict on
    the action, and in a call that returns the action is among the
    accepted ones, not among the rejected ones, and the warning is among
    the warnings. *)
Theorem unmatched_action_is_accepted_with_warning p actions page url task action :
  action ∈ actions →
  (∀ g, g ∈ guards p → guard_passes page url action g) →
  affordances p ≠ [] →
  (∀ a, a ∈ affordances p → affordance_matches action a = false) →
  (check_action p page url action).1
  = Returns (Accepted (Some ("No affordance registered for action "
                             +:+ ActionType_value (Action.action_type action))))
  ∧ ∀ result p',
      validate_and_filter_actions p actions page url task = (Returns result, p') →
      action ∈ PlanValidationResult.filtered_actions result
      ∧ (∀ r, (action, r) ∉ PlanValidationResult.rejected_actions result)
      ∧ ("No affordance registered for action "
         +:+ ActionType_value (Action.action_type action))
        ∈ PlanValidationResult.warnings result.
Proof.
  intros Hin Hg Hne Ha.
  pose proof (check_action_unmatched p page url action Hg Hne Ha) as Hv.
  split; [exact Hv|]. intros result p' Hret.
  destruct (accepted_in_result p page url actions task result p' action _ Hret Hin Hv)
    as [H1 H2].
  split_and!; [done|done|].
  apply validate_Returns in Hret as (_ & _ & _ & -> & _). apply elem_of_app. left.
  apply list_elem_of_omap. exists action. split; [done|].
  unfold warning_of. by rewrite Hv.
Qed.

Lemma detect_loops_fallback_actions p actions :
  fallback_actions (_detect_loops p actions).2 = fallback_actions p.
Proof.
  unfold _detect_loops. destruct (loop_detection_window p <=? 0); [done|].
  destruct (_ <? _); [done|]. by destruct (bool_decide _).
Qed.

(** X16.  [reconcile_with_fallback] on the result that
    [validate_and_filter_actions] returned: the accepted actions when
    there is one; otherwise the fallback actions passed in when they are
    given and not empty; otherwise the fallback actions configured on the
    planner, which validation leaves as they were (the empty list when
    none are configured). *)
Theorem reconcile_with_fallback_after_validation p actions page url task
    (fallback : option (list Action.t)) result p' :
  validate_and_filter_actions p actions page url task = (Returns result, p') →
  reconcile_with_fallback p' result fallback
  = match PlanValidationResult.filtered_actions result, fallback with
    | _ :: _, _ => PlanValidationResult.filtered_actions result
    | [], Some (a :: rest) => a :: rest
    | [], _ => fallback_actions p
    end.
Proof.
  intros (_ & _ & _ & _ & -> & Hvalid & _)%validate_Returns.
  unfold reconcile_with_fallback.
  rewrite Hvalid, detect_loops_fallback_actions.
  destruct (PlanValidationResult.filtered_actions result) as [|a l]; cbn.
  - destruct fallback as [[|b rest]|]; [|done|]; by destruct (fallback_actions p).
  - done.
Qed.

(** What stands behind each outcome of the loop body. *)
Lemma verdict_cause p page url action :
  match verdict p page url action with
  | Returns (Rejected reason) =>
      (∃ g, g ∈ guards p ∧ guard_blocks page url action g
            ∧ reason = PyStr (guard_reason g))
      ∨ ((∀ g, g ∈ guards p → guard_passes page url action g)
         ∧ ∃ a, a ∈ affordances p ∧ affordance_matches action a = true
                ∧ PlannerAffordance.can_execute a page url = Returns false
                ∧ reason = failure_reason a)
  | Returns (Accepted _) =>
      (∀ g, g ∈ guards p → guard_passes page url action g)
      ∧ (affordances p = []
         ∨ (∀ a, a ∈ affordances p → affordance_matches action a = false)
         ∨ ∃ a, a ∈ affordances p ∧ affordance_matches action a = true
                ∧ PlannerAffordance.can_execute a page url = Returns true)
  | Raises r =>
      (∃ g, g ∈ guards p ∧ PlannerGuard.is_active g page url = Raises r)
      ∨ ((∀ g, g ∈ guards p → guard_passes page url action g)
         ∧ ∃ a, a ∈ affordances p ∧ affordance_matches action a = true
                ∧ PlannerAffordance.can_execute a page url = Raises r)
  end.
Proof.
  unfold verdict, check_action.
  pose proof (check_guards_spec (guards p) action page url) as Hg.
  destruct (check_guards (guards p) action page url) as [[[r|]|raised] events];
    cbn [fst snd] in Hg.
  { destruct Hg as (g & Hin & Hb & ->). rewrite guard_reason_truthy. simpl. left. eauto. }
  2:{ simpl. left. exact Hg. }
  cbn [truthy_str].
  destruct (affordances p) as [|a0 affs] eqn:Ea; [simpl; auto|].
  rewrite <- Ea.
  destruct (List.filter (affordance_matches action) (affordances p)) as [|m ms] eqn:Ef.
  { simpl. split; [done|]. right. left. intros a Ha.
    destruct (affordance_matches action a) eqn:Em; [|done].
    assert (Hin : a ∈ List.filter (affordance_matches action) (affordances p))
      by (rewrite list_elem_of_In, List.filter_In, <- list_elem_of_In; done).
    rewrite Ef in Hin. by apply not_elem_of_nil in Hin. }
  assert (Hne : List.filter (affordance_matches action) (affordances p) ≠ [])
    by (by rewrite Ef).
  rewrite <- Ef.
  destruct (sort_by_priority (List.filter (affordance_matches action) (affordances p)))
    as [|selected rest] eqn:Es.
  { exfalso. by apply (sort_by_priority_not_nil _ Hne). }
  destruct (sorted_head_is_first_max _ _ _ _ Es) as (i & Hi & Hm & _).
  apply list_elem_of_lookup_2 in Hi.
  destruct (PlannerAffordance.can_execute selected page url) as [[|]|r] eqn:Ec; simpl.
  - split; [done|]. right. right. eauto.
  - right. split; [done|]. eauto.
  - right. split; [done|]. eauto.
Qed.

(** X17.  Nothing is rejected without a cause.  Every entry of the
    [rejected_actions] that a call returned is a candidate action with
    either the reason of a registered guard that is active and blocks its
    type, or, when the loop over the guards let the action through, the
    reason of a registered affordance that matches the action and whose
    preconditions do not hold. *)
Theorem every_rejection_has_a_cause p actions page url task result p' action
    (reason : PyVal) :
  validate_and_filter_actions p actions page url task = (Returns result, p') →
  (action, reason) ∈ PlanValidationResult.rejected_actions result →
  action ∈ actions
  ∧ ((∃ g, g ∈ guards p
           ∧ PlannerGuard.is_active g page url = Returns true
           ∧ PlannerGuard.blocks_action g action = true
           ∧ reason = PyStr (guard_reason g))
     ∨ ((∀ g, g ∈ guards p → guard_passes page url action g)
        ∧ ∃ a, a ∈ affordances p ∧ affordance_matches action a = true
               ∧ PlannerAffordance.can_execute a page url = Returns false
               ∧ reason = failure_reason a)).
Proof.
  intros (_ & _ & -> & _)%validate_Returns (a & Ha & Hr)%list_elem_of_omap.
  unfold rejection in Hr. pose proof (verdict_cause p page url a) as Hc.
  destruct (verdict p page url a) as [[w|r]|raised]; [done| |done].
  injection Hr as -> ->. split; [done|].
  destruct Hc as [(g & Hg & [Hact Hblk] & ->)|Hc]; [|by right].
  left. by exists g.
Qed.

(** X18.  Nothing blocked is accepted.  Every action of the
    [filtered_actions] that a call returned is a candidate that the loop
    over the guards let through: the predicates of every registered guard
    evaluated without raising, and no guard both is active and blocks the
    type of the action; and either the planner has no affordance, or no
    affordance matches the action, or a registered affordance that matches
    it has all its preconditions true. *)
Theorem every_accepted_action_passed p actions page url task result p' action :
  validate_and_filter_actions p actions page url task = (Returns result, p') →
  action ∈ PlanValidationResult.filtered_actions result →
  action ∈ actions
  ∧ (∀ g, g ∈ guards p →
       PlannerGuard.is_active g page url = Returns false
       ∨ (PlannerGuard.is_active g page url = Returns true
          ∧ PlannerGuard.blocks_action g action = false))
  ∧ (affordances p = []
     ∨ (∀ a, a ∈ affordances p → affordance_matches action a = false)
     ∨ ∃ a, a ∈ affordances p ∧ affordance_matches action a = true
            ∧ PlannerAffordance.can_execute a page url = Returns true).
Proof.
  intros (_ & -> & _)%validate_Returns.
  rewrite list_elem_of_In, List.filter_In, <- list_elem_of_In.
  intros [Hin Hacc]. split; [done|].
  pose proof (verdict_cause p page url action) as Hc.
  by destruct (verdict p page url action) as [[w|r]|raised].
Qed.

Lemma verdict_register_predicate p (predicate : PlannerPredicate.t) page url action :
  verdict (register_predicate p predicate) page url action = verdict p page url action.
Proof. reflexivity. Qed.

Lemma detect_loops_register_predicate p (predicate : PlannerPredicate.t) actions :
  _detect_loops (register_predicate p predicate) actions
  = ((_detect_loops p actions).1, register_predicate (_detect_loops p actions).2 predicate).
Proof.
  unfold _detect_loops. cbn [loop_detection_window register_predicate action_history].
  destruct (loop_detection_window p <=? 0); [done|].
  destruct (_ <? _); [done|]. by destruct (bool_decide _).
Qed.

(** X19.  The registered predicates play no part in validation: a planner
    with one more registered predicate returns the same result, or raises
    the same exception, for the same actions, page and url, and is left in
    the same state but for that predicate.  Only the predicates inside
    guards and affordances are evaluated. *)
Theorem registered_predicates_do_not_influence_validation p
    (predicate : PlannerPredicate.t) actions page url task :
  validate_and_filter_actions (register_predicate p predicate) actions page url task
  = ((validate_and_filter_actions p actions page url task).1,
     register_predicate (validate_and_filter_actions p actions page url task).2 predicate).
Proof.
  rewrite !validate_spec.
  change (verdict (register_predicate p predicate) page url) with (verdict p page url).
  destruct (first_raised _); [done|]. cbv zeta.
  rewrite detect_loops_register_predicate. done.
Qed.

Lemma detect_loops_verdict p actions page url action :
  verdict (_detect_loops p actions).2 page url action = verdict p page url action.
Proof.
  unfold _detect_loops. destruct (loop_detection_window p <=? 0); [done|].
  destruct (_ <? _); [done|]. by destruct (bool_decide _).
Qed.

Lemma rejection_none_of_accepted p page url actions :
  (∀ a, a ∈ actions → is_accepted (verdict p page url a) = true) →
  omap (rejection p page url) actions = [].
Proof.
  induction actions as [|a l IH]; intros Hl; [done|].
  cbn [omap list_omap]. unfold rejection at 1.
  pose proof (Hl a (list_elem_of_here _ _)) as Ha.
  destruct (verdict p page url a) as [[w|r]|raised]; [|done|done].
  apply IH. intros a' Ha'. by apply Hl, list_elem_of_further.
Qed.

Lemma List_filter_idem {A} (P : A → bool) (l : list A) :
  List.filter P (List.filter P l) = List.filter P l.
Proof.
  induction l as [|x l IH]; [done|]. simpl.
  destruct (P x) eqn:E; [|done]. simpl. by rewrite E, IH.
Qed.

(** X20.  Validation is settled after one pass: the planner that a
    validation that returned leaves behind, given the accepted actions
    again on the same page and url, returns as well, accepts all of them
    and rejects none.  The verdict on an action depends on the page, the
    url, the guards and the affordances, not on the other actions or the
    history. *)
Theorem accepted_actions_are_accepted_again p actions page url task task' result p' :
  validate_and_filter_actions p actions page url task = (Returns result, p') →
  ∃ result2 p2,
    validate_and_filter_actions p' (PlanValidationResult.filtered_actions result)
      page url task'
    = (Returns result2, p2)
    ∧ PlanValidationResult.filtered_actions result2
      = PlanValidationResult.filtered_actions result
    ∧ PlanValidationResult.rejected_actions result2 = [].
Proof.
  intros (_ & Hf & _ & _ & Hp' & _)%validate_Returns.
  set (P := λ a, is_accepted (verdict p page url a)) in *.
  assert (HP : ∀ a, verdict p' page url a = verdict p page url a)
    by (intros a; rewrite Hp'; apply detect_loops_verdict).
  assert (Hacc : ∀ a, a ∈ PlanValidationResult.filtered_actions result → P a = true).
  { intros a. rewrite Hf, list_elem_of_In, List.filter_In. tauto. }
  destruct (validate_returns p' page url (PlanValidationResult.filtered_actions result) task')
    as (result2 & p2 & Hret2).
  { intros a Ha%Hacc. rewrite HP. unfold P in Ha.
    destruct (verdict p page url a) as [v|r]; [eauto|done]. }
  exists result2, p2. split; [done|].
  apply validate_Returns in Hret2 as (_ & -> & -> & _). split.
  - rewrite Hf at 2. rewrite <- (List_filter_idem P actions), <- Hf.
    apply List.filter_ext. intros a. by rewrite HP.
  - apply rejection_none_of_accepted. intros a Ha. rewrite HP. by apply Hacc.
Qed.

End PlannerFurther.

(** ** Predicates *)

Section PredicatesFurther.
Context `{PythonRuntime}.
Import PlannerPredicate.

Lemma has_id_with_type q ty elem : has_id (with_type q ty) elem = has_id q elem.
Proof. reflexivity. Qed.

Lemma find_Some_existsb {A} (f : A → bool) (l : list A) (x : A) :
  List.find f l = Some x → existsb f l = true.
Proof.
  induction l as [|y l IH]; simpl; [done|].
  destruct (f y); [done|]. apply IH.
Qed.

Lemma count_positive_existsb {A} (f : A → bool) (l : list A) :
  (Z.of_nat (length (List.filter f l)) >? 0) = existsb f l.
Proof.
  induction l as [|y l IH]; simpl; [done|].
  destruct (f y); simpl; [|done].
  destruct (Z.gtb_spec (Z.of_nat (S (length (List.filter f l)))) 0); [done|lia].
Qed.

(** X21.  What [evaluate] needs to see.  A [url_pattern] predicate does
    not look at the page, and returns false when the current url is missing
    or empty.  Every other predicate returns false when there is no
    snapshot and when the snapshot has no elements, whatever its target,
    expected value and metadata. *)
Theorem evaluate_without_elements (q : PlannerPredicate.t) (page : option ScrapedPage.t)
    (url : option string) (page_url : string) :
  match predicate_type q with
  | URL_PATTERN =>
      evaluate q page url = evaluate q None url
      ∧ evaluate q page None = Returns false
      ∧ evaluate q page (Some "") = Returns false
  | _ =>
      evaluate q None url = Returns false
      ∧ evaluate q (Some {| ScrapedPage.elements := []; ScrapedPage.url := page_url |}) url
        = Returns false
  end.
Proof.
  unfold evaluate. destruct (predicate_type q); split_and!; reflexivity.
Qed.

(** X22.  The predicates that read one element find it first: where
    [element_visible], [element_enabled] or [element_text_contains] returns
    true of a target, [element_exists] returns true of the same target on
    the same page.  [element_count] without an expected value is
    [element_exists]. *)
Theorem element_predicates_imply_element_exists (q : PlannerPredicate.t)
    (page : option ScrapedPage.t) (url : option string) :
  (∀ ty, ty ∈ [ELEMENT_VISIBLE; ELEMENT_ENABLED; ELEMENT_TEXT_CONTAINS] →
         evaluate (with_type q ty) page url = Returns true →
         evaluate (with_type q ELEMENT_EXISTS) page url = Returns true)
  ∧ (expected_value q = PyNone →
     evaluate (with_type q ELEMENT_COUNT) page url
     = evaluate (with_type q ELEMENT_EXISTS) page url).
Proof.
  split.
  - intros ty Hty.
    assert (Hty' : ty = ELEMENT_VISIBLE ∨ ty = ELEMENT_ENABLED ∨ ty = ELEMENT_TEXT_CONTAINS).
    { rewrite !elem_of_cons, elem_of_nil in Hty. tauto. }
    unfold evaluate.
    destruct Hty' as [->|[->| ->]]; cbn [predicate_type with_type];
      (destruct page as [snapshot|]; [|done]);
      (destruct (ScrapedPage.elements snapshot) as [|e es]; [done|]);
      (destruct (List.find (has_id _) (e :: es)) as [elem|] eqn:E; [|done]);
      intros _; f_equal; by apply (find_Some_existsb _ _ elem).
  - intros Hnone. unfold evaluate. cbn [predicate_type with_type expected_value].
    rewrite Hnone. destruct page as [snapshot|]; [|done].
    destruct (ScrapedPage.elements snapshot) as [|e es]; [done|].
    f_equal. apply count_positive_existsb.
Qed.

End PredicatesFurther.

(** ** Dictionaries *)

Section Dictionaries.

Lemma SymbolicPredicateType_of_value_value (t : SymbolicPredicateType) :
  SymbolicPredicateType_of_value (SymbolicPredicateType_value t) = Built_ok t.
Proof. by destruct t. Qed.

Lemma SymbolicConstraintOperator_of_value_value (o : SymbolicConstraintOperator) :
  SymbolicConstraintOperator_of_value (SymbolicConstraintOperator_value o) = Built_ok o.
Proof. by destruct o. Qed.

Lemma ActionType_of_value_value (t : ActionType) :
  ActionType_of_value (ActionType_value t) = Built_ok t.
Proof. by destruct t. Qed.

Lemma build_all_fmap {A B} (f : A → Built B) (g : B → A) (l : list B) :
  (∀ x, f (g x) = Built_ok x) → build_all f (g <$> l) = Built_ok l.
Proof.
  intros Hfg. induction l as [|x l IH]; [done|].
  cbn [fmap list_fmap build_all]. rewrite Hfg. cbn [built_bind].
  fold (fmap g l). rewrite IH. done.
Qed.

Lemma from_dict_to_dict_predicate (q : PlannerPredicate.t) :
  PlannerPredicate_dict.from_dict (PlannerPredicate_dict.to_dict q) = Built_ok q.
Proof.
  unfold PlannerPredicate_dict.from_dict, PlannerPredicate_dict.to_dict.
  cbn [PlannerPredicate_dict.predicate_type PlannerPredicate_dict.operator
       PlannerPredicate_dict.target PlannerPredicate_dict.expected_value
       PlannerPredicate_dict.metadata from_option id].
  rewrite SymbolicPredicateType_of_value_value. cbn [built_bind].
  rewrite SymbolicConstraintOperator_of_value_value. cbn [built_bind].
  by destruct q.
Qed.

Lemma from_dict_to_dict_predicates (l : list PlannerPredicate.t) :
  build_all PlannerPredicate_dict.from_dict (PlannerPredicate_dict.to_dict <$> l)
  = Built_ok l.
Proof. apply build_all_fmap. intros q. apply from_dict_to_dict_predicate. Qed.

Lemma Built_ok_inj {A} (x y : A) : Built_ok x = Built_ok y → x = y.
Proof. by intros [= ->]. Qed.

(** X23.  A predicate written by [to_dict] is read back by [from_dict]:
    the enumeration members go out as their values and come back as the
    members, and no field is lost.  So two predicates with the same
    dictionary are the same predicate. *)
Theorem predicate_from_dict_to_dict (q : PlannerPredicate.t) :
  PlannerPredicate_dict.from_dict (PlannerPredicate_dict.to_dict q) = Built_ok q
  ∧ ∀ q', PlannerPredicate_dict.to_dict q' = PlannerPredicate_dict.to_dict q → q' = q.
Proof.
  split; [apply from_dict_to_dict_predicate|].
  intros q' Heq. apply Built_ok_inj.
  by rewrite <- (from_dict_to_dict_predicate q'), Heq, from_dict_to_dict_predicate.
Qed.

(** X24.  An affordance written by [to_dict] is read back by [from_dict],
    its preconditions and postconditions included, each in its order. *)
Theorem affordance_from_dict_to_dict (a : PlannerAffordance.t) :
  PlannerAffordance_dict.from_dict (PlannerAffordance_dict.to_dict a) = Built_ok a.
Proof.
  unfold PlannerAffordance_dict.from_dict, PlannerAffordance_dict.to_dict.
  cbn [PlannerAffordance_dict.action_type PlannerAffordance_dict.element_id
       PlannerAffordance_dict.preconditions PlannerAffordance_dict.postconditions
       PlannerAffordance_dict.priority PlannerAffordance_dict.metadata from_option id].
  rewrite ActionType_of_value_value. cbn [built_bind].
  rewrite !from_dict_to_dict_predicates. cbn [built_bind].
  by destruct a.
Qed.

(** X25.  A guard written by [to_dict] is read back by [from_dict], with
    its predicates and the action types it blocks. *)
Theorem guard_from_dict_to_dict (g : PlannerGuard.t) :
  PlannerGuard_dict.from_dict (PlannerGuard_dict.to_dict g) = Built_ok g.
Proof.
  unfold PlannerGuard_dict.from_dict, PlannerGuard_dict.to_dict.
  cbn [PlannerGuard_dict.name PlannerGuard_dict.predicates
       PlannerGuard_dict.action_types_blocked PlannerGuard_dict.message from_option id].
  rewrite from_dict_to_dict_predicates. cbn [built_bind].
  rewrite (build_all_fmap _ _ _ ActionType_of_value_value). cbn [built_bind].
  by destruct g.
Qed.

Lemma first_with_value_spec {A} (value_of : A → string) (members : list A) (value : string) :
  match first_with_value value_of members value with
  | Built_ok m => m ∈ members ∧ value_of m = value
  | ValueError v => v = value ∧ ∀ m, m ∈ members → value_of m ≠ value
  end.
Proof.
  unfold first_with_value.
  destruct (List.find _ members) as [m|] eqn:E.
  - apply List.find_some in E as [Hin Heq]. split; [by apply list_elem_of_In|].
    by apply String.eqb_eq.
  - split; [done|]. intros m Hm%list_elem_of_In.
    apply (List.find_none _ _ E) in Hm. by apply String.eqb_neq.
Qed.

(** X26.  What [PlannerPredicate.from_dict] makes of any dictionary.  A
    missing "predicate_type" reads as "element_exists" and a missing
    "operator" as "and"; a missing target, expected value or metadata
    reads as [None], [None] and the empty dictionary.  The call raises
    [ValueError] exactly when the predicate type, or else the operator, is
    not the value of a member of its enumeration, and the error names the
    first such value; otherwise the predicate has the members with these
    values. *)
Theorem predicate_from_dict_result (data : PlannerPredicate_dict.t) :
  let type_value := default "element_exists" (PlannerPredicate_dict.predicate_type data) in
  let operator_value := default "and" (PlannerPredicate_dict.operator data) in
  match PlannerPredicate_dict.from_dict data with
  | Built_ok q =>
      SymbolicPredicateType_value (PlannerPredicate.predicate_type q) = type_value
      ∧ SymbolicConstraintOperator_value (PlannerPredicate.operator q) = operator_value
      ∧ PlannerPredicate.target q = default None (PlannerPredicate_dict.target data)
      ∧ PlannerPredicate.expected_value q
        = default PyNone (PlannerPredicate_dict.expected_value data)
      ∧ PlannerPredicate.metadata q = default ∅ (PlannerPredicate_dict.metadata data)
  | ValueError v =>
      (v = type_value ∧ ∀ t, SymbolicPredicateType_value t ≠ type_value)
      ∨ (v = operator_value
         ∧ (∃ t, SymbolicPredicateType_value t = type_value)
         ∧ ∀ o, SymbolicConstraintOperator_value o ≠ operator_value)
  end.
Proof.
  intros type_value operator_value. unfold PlannerPredicate_dict.from_dict.
  fold type_value operator_value.
  pose proof (first_with_value_spec SymbolicPredicateType_value
                [ELEMENT_EXISTS; ELEMENT_VISIBLE; ELEMENT_ENABLED; URL_PATTERN;
                 ELEMENT_COUNT; ELEMENT_TEXT_CONTAINS; CUSTOM] type_value) as Ht.
  fold (SymbolicPredicateType_of_value type_value) in Ht.
  destruct (SymbolicPredicateType_of_value type_value) as [t|v]; cbn [built_bind].
  - pose proof (first_with_value_spec SymbolicConstraintOperator_value
                  [AND; OR; NOT; IMPLIES] operator_value) as Ho.
    fold (SymbolicConstraintOperator_of_value operator_value) in Ho.
    destruct (SymbolicConstraintOperator_of_value operator_value) as [o|v];
      cbn [built_bind].
    + cbn. destruct Ht as [_ Ht], Ho as [_ Ho]. done.
    + right. destruct Ht as [_ Ht], Ho as [-> Ho]. split_and!; [done|eauto|].
      intros o. apply Ho. destruct o; set_solver.
  - left. destruct Ht as [-> Ht]. split; [done|].
    intros t. apply Ht. destruct t; set_solver.
Qed.

End Dictionaries.

(** ** Worked instances of the further properties *)

Section FurtherInstances.
#[local] Existing Instance sample_runtime.


(** Four messages published on a bus of capacity 2, the history cleared
    before the last. *)
Lemma get_statistics_after_any_calls_witness :
  let b := foldl bus_step (AgentMessageBus.__init__ 2 false)
             [DoSubscribe None None None None true; DoPublish (thought "m1");
              DoPublish (thought "m2"); DoPublish (thought "m3"); DoClearHistory;
              DoPublish (thought "m4"); DoUnsubscribe 0%nat] in
  0 ≤ 2
  ∧ Statistics.messages_sent (get_statistics b) = 4
  ∧ Statistics.messages_received (get_statistics b) = 0
  ∧ 0 ≤ Statistics.history_size (get_statistics b) ≤ 2.
Proof.
  intros b. split; [lia|].
  destruct (get_statistics_after_any_calls 2 false
              [DoSubscribe None None None None true; DoPublish (thought "m1");
               DoPublish (thought "m2"); DoPublish (thought "m3"); DoClearHistory;
               DoPublish (thought "m4"); DoUnsubscribe 0%nat])
    as (Hs & Hr & _ & Hh & _); [lia|].
  split_and!; [exact Hs|exact Hr|apply Hh|apply Hh].
Defined.

(** Of a thought without a task and a proposal of the task "t1", the
    route of the task returns the proposal. *)
Lemma get_task_agent_messages_selects_the_task_witness :
  let b := foldl AgentMessageBus.publish (AgentMessageBus.__init__ 10 false)
             [thought "m1"; proposal_message "click"] in
  (String.eqb "t1" "" = false)
  ∧ ∃ response,
      agent_swarm.get_task_agent_messages b "t1" None None = agent_swarm.Returned response
      ∧ proposal_message "click" ∈ agent_swarm.messages response
      ∧ agent_swarm.filtered response ≤ agent_swarm.total response.
Proof.
  intros b. split; [reflexivity|].
  destruct (get_task_agent_messages_selects_the_task b "t1" None None)
    as (response & history & Hret & Hhist & Hin & _ & _ & _ & Hle); [discriminate|].
  exists response. split_and!; [exact Hret| |exact Hle].
  apply Hin. cbn in Hhist. injection Hhist as <-.
  split_and!; [|reflexivity|discriminate|discriminate].
  apply list_elem_of_further, list_elem_of_here.
Defined.

(** With limit 1 the route returns the newest of three messages; with a
    naive lower bound it raises on the first of them, whose timestamp is
    aware. *)
Lemma get_agent_messages_returns_newest_witness :
  let b := foldl AgentMessageBus.publish (AgentMessageBus.__init__ 10 false)
             [thought "m1"; thought "m2"; thought "m3"] in
  1 ≤ 1
  ∧ agent_swarm.get_agent_messages b no_filter 1
    = agent_swarm.Returned
        {| agent_swarm.messages := [thought "m3"];
           agent_swarm.total := 3;
           agent_swarm.filtered := 3 |}
  ∧ agent_swarm.get_agent_messages b since_naive_midnight 1
    = agent_swarm.Failed
        (TypeError "can't compare offset-naive and offset-aware datetimes").
Proof.
  intros b. split; [lia|]. split.
  - pose proof (get_agent_messages_returns_newest b no_filter 1) as Ht.
    assert (Hg : AgentMessageBus.get_message_history b (Some no_filter)
                 = Ok [thought "m1"; thought "m2"; thought "m3"]) by reflexivity.
    rewrite Hg in Ht. destruct Ht as (response & Hret & Hm & _ & Hf & Htot & _); [lia|].
    rewrite Hret. destruct response as [ms tot fil]. cbn in Hm, Hf, Htot. by subst.
  - pose proof (get_agent_messages_returns_newest b since_naive_midnight 1) as Ht.
    assert (Hg : AgentMessageBus.get_message_history b (Some since_naive_midnight)
                 = Raise (TypeError "can't compare offset-naive and offset-aware datetimes"))
      by reflexivity.
    rewrite Hg in Ht. apply Ht. lia.
Defined.

(** A validator that has started holds a proposal sent to its role: with
    the timeout -1 it receives nothing and the proposal stays; with the
    timeout 0.5 it receives the proposal. *)
Lemma started_agent_receives_its_messages_witness :
  let started := BaseAgent.start sample_agent (AgentMessageBus.__init__ 10 false) in
  let published := AgentMessageBus.publish started.2 (proposal_message "click") in
  receive_message started.1 published (Some (-1)%float) = (NoMessage, published)
  ∧ (receive_message started.1 published (Some 0x1p-1%float)).1
    = Message (proposal_message "click")
  ∧ (receive_message started.1 published None).1 = Message (proposal_message "click").
Proof.
  intros started published.
  split_and!.
  - destruct (started_agent_receives_its_messages 10 false [] sample_agent
                [proposal_message "click"] (Some (-1)%float)) as (_ & _ & Hr & _).
    exact Hr.
  - destruct (started_agent_receives_its_messages 10 false [] sample_agent
                [proposal_message "click"] (Some 0x1p-1%float)) as (_ & _ & Hr & _).
    exact (f_equal fst Hr).
  - destruct (started_agent_receives_its_messages 10 false [] sample_agent
                [proposal_message "click"] None) as (_ & _ & Hr & _).
    exact (f_equal fst Hr).
Defined.



(** With an affordance for clicks only, an input is accepted with the
    warning. *)
Lemma unmatched_action_is_accepted_with_warning_witness :
  input_text "name" ∈ [input_text "name"]
  ∧ (∀ a, a ∈ HybridPlanner.affordances (planner_with [] [click_affordance 0 [] ∅] 5) →
          HybridPlanner.affordance_matches (input_text "name") a = false)
  ∧ ∃ result p',
      HybridPlanner.validate_and_filter_actions
        (planner_with [] [click_affordance 0 [] ∅] 5)
        [input_text "name"] (Some sample_page) None None
      = (Returns result, p')
      ∧ "No affordance registered for action input_text"
          ∈ PlanValidationResult.warnings result.
Proof.
  assert (Hin : input_text "name" ∈ [input_text "name"]) by apply list_elem_of_here.
  assert (Hm : ∀ a, a ∈ HybridPlanner.affordances
                          (planner_with [] [click_affordance 0 [] ∅] 5) →
                    HybridPlanner.affordance_matches (input_text "name") a = false).
  { intros a Ha. apply list_elem_of_singleton in Ha. by subst a. }
  split_and!; [exact Hin|exact Hm|].
  destruct (unmatched_action_is_accepted_with_warning
              (planner_with [] [click_affordance 0 [] ∅] 5)
              [input_text "name"] (Some sample_page) None None (input_text "name"))
    as [_ Hres]; [exact Hin| |discriminate|exact Hm|].
  { intros g Hg. by apply not_elem_of_nil in Hg. }
  eexists _, _. split; [reflexivity|].
  edestruct Hres as (_ & _ & Hw); [reflexivity|exact Hw].
Defined.

(** Nothing is accepted where the only affordance needs an element the page
    does not have: the fallback actions passed in are returned. *)
Lemma reconcile_with_fallback_after_validation_witness :
  ∃ result p',
    HybridPlanner.validate_and_filter_actions
      (planner_with [] [click_affordance 0 [element_exists "gone"] ∅] 5)
      [click "btn"] (Some sample_page) None None
    = (Returns result, p')
    ∧ PlanValidationResult.filtered_actions result = []
    ∧ reconcile_with_fallback p' result (Some [input_text "name"]) = [input_text "name"].
Proof.
  eexists _, _. split; [reflexivity|]. split; [reflexivity|].
  eapply eq_trans;
    [eapply (reconcile_with_fallback_after_validation
               (planner_with [] [click_affordance 0 [element_exists "gone"] ∅] 5)
               [click "btn"] (Some sample_page) None None (Some [input_text "name"]));
     reflexivity
    |reflexivity].
Defined.

(** The click that the guard without a message rejects is a candidate. *)
Lemma every_rejection_has_a_cause_witness :
  ∃ result p',
    HybridPlanner.validate_and_filter_actions (planner_with [silent_guard] [] 5)
      [input_text "name"; click "btn"] None None None
    = (Returns result, p')
    ∧ (click "btn", PyStr "Guard 'no_click' blocked action")
        ∈ PlanValidationResult.rejected_actions result
    ∧ click "btn" ∈ [input_text "name"; click "btn"].
Proof.
  eexists _, _. split; [reflexivity|].
  assert (Hr : (click "btn", PyStr "Guard 'no_click' blocked action")
                 ∈ [(click "btn", PyStr "Guard 'no_click' blocked action")])
    by apply list_elem_of_here.
  split; [exact Hr|].
  eapply (every_rejection_has_a_cause (planner_with [silent_guard] [] 5)
            [input_text "name"; click "btn"] None None None);
    [reflexivity|exact Hr].
Defined.

(** The input that the same planner accepts is blocked by no guard. *)
Lemma every_accepted_action_passed_witness :
  ∃ result p',
    HybridPlanner.validate_and_filter_actions (planner_with [silent_guard] [] 5)
      [input_text "name"; click "btn"] None None None
    = (Returns result, p')
    ∧ input_text "name" ∈ PlanValidationResult.filtered_actions result
    ∧ input_text "name" ∈ [input_text "name"; click "btn"].
Proof.
  eexists _, _. split; [reflexivity|].
  assert (Ha : input_text "name" ∈ [input_text "name"]) by apply list_elem_of_here.
  split; [exact Ha|].
  eapply (every_accepted_action_passed (planner_with [silent_guard] [] 5)
            [input_text "name"; click "btn"] None None None);
    [reflexivity|exact Ha].
Defined.

(** The input accepted next to a rejected click is accepted again. *)
Lemma accepted_actions_are_accepted_again_witness :
  ∃ result p' result2 p2,
    HybridPlanner.validate_and_filter_actions (planner_with [silent_guard] [] 5)
      [input_text "name"; click "btn"] None None None
    = (Returns result, p')
    ∧ PlanValidationResult.filtered_actions result = [input_text "name"]
    ∧ HybridPlanner.validate_and_filter_actions p' [input_text "name"] None None None
      = (Returns result2, p2)
    ∧ PlanValidationResult.filtered_actions result2 = [input_text "name"]
    ∧ PlanValidationResult.rejected_actions result2 = [].
Proof.
  edestruct (accepted_actions_are_accepted_again (planner_with [silent_guard] [] 5)
               [input_text "name"; click "btn"] None None None None)
    as (result2 & p2 & Hret2 & Hf2 & Hr2); [reflexivity|].
  eexists _, _, result2, p2. split; [reflexivity|]. split; [reflexivity|].
  split_and!; [exact Hret2|exact Hf2|exact Hr2].
Defined.

(** The button of the sample page is visible, so it exists. *)
Lemma element_predicates_imply_element_exists_witness :
  ELEMENT_VISIBLE ∈ [ELEMENT_VISIBLE; ELEMENT_ENABLED; ELEMENT_TEXT_CONTAINS]
  ∧ PlannerPredicate.evaluate (with_type (element_exists "btn") ELEMENT_VISIBLE)
      (Some sample_page) None = Returns true
  ∧ PlannerPredicate.evaluate (with_type (element_exists "btn") ELEMENT_EXISTS)
      (Some sample_page) None = Returns true.
Proof.
  assert (Hty : ELEMENT_VISIBLE ∈ [ELEMENT_VISIBLE; ELEMENT_ENABLED; ELEMENT_TEXT_CONTAINS])
    by apply list_elem_of_here.
  split_and!; [exact Hty|reflexivity|].
  exact (proj1 (element_predicates_imply_element_exists (element_exists "btn")
                  (Some sample_page) None) ELEMENT_VISIBLE Hty eq_refl).
Defined.

End FurtherInstances.
